(** * DevTools-state detection and reaction engine

  A shallow embedding of the two detection scripts of the repository:

  - [DevShield]: the lightweight shield ("YouDai DevShield"), an IIFE that
    keeps a private [STATE] object, polls two heuristics and publishes
    events;
  - [Enhanced]: the aggressive variant (class
    [EnhancedDevToolsProtection]), which counts probe verdicts, locks the
    page, shows an overlay and replaces the network primitives.

  Both scripts are event-loop programs.  Every handler is embedded as a
  function from the script's state to its next state; what the browser
  reports while a handler runs (geometry, how long a [debugger] statement
  paused, whether the console touched a logged object) is read from an
  [Env] record supplied with the event. *)

From Stdlib Require Import List ZArith Bool String Ascii Lia DecimalString.
Import ListNotations.
Open Scope string_scope.
Open Scope list_scope.

(** ** What the scripts read from the browser *)

Module Browser.

(** Result of handing a probe object to [console.log]: the console left it
    alone, the console ran the object's hook, or the call threw. *)
Inductive ConsoleOutcome := Quiet | Accessed | Threw.

(** [performance.getEntriesByType('navigation')]. *)
Inductive NavOutcome :=
| NavThrows
| NavNone
| NavEntry (loadEventEnd fetchStart : Z).

(** [getComputedStyle(detector).getPropertyValue('position')]. *)
Inductive ComputedOutcome :=
| Position (value : string)
| ComputedThrows.

(** One snapshot of the browser, as seen by one handler run.  Lengths are
    CSS pixels ([long] attributes of [window] and [screen], hence
    integers); pauses are the measured [performance.now()] differences
    around successive [debugger] statements, in microseconds. *)
Record Env := mkEnv {
  search : list (string * string);   (* parsed query of location.href *)
  readyLoading : bool;               (* document.readyState === 'loading' *)
  screenHeight : Z;
  screenWidth : Z;
  outerHeight : Z;
  outerWidth : Z;
  innerHeight : Z;
  innerWidth : Z;
  pauses : list Z;
  logs : list ConsoleOutcome;        (* successive console.log probe calls *)
  nativeGlobals : list string;       (* window[name] is a native function *)
  definedGlobals : list string;      (* window[name] is truthy *)
  matchMediaThrows : bool;
  navigation : NavOutcome;
  computedPosition : ComputedOutcome
}.

(** [URLSearchParams.get]: the value of the first pair with that name. *)
Definition searchParams_get (k : string) (q : list (string * string))
  : option string :=
  match find (fun kv => String.eqb (fst kv) k) q with
  | Some kv => Some (snd kv)
  | None => None
  end.

(** The same snapshot under another query string. *)
Definition with_search (q : list (string * string)) (e : Env) : Env :=
  mkEnv q (readyLoading e) (screenHeight e) (screenWidth e) (outerHeight e)
        (outerWidth e) (innerHeight e) (innerWidth e) (pauses e) (logs e)
        (nativeGlobals e) (definedGlobals e) (matchMediaThrows e)
        (navigation e) (computedPosition e).

Definition pause (e : Env) (i : nat) : Z := nth i (pauses e) 0%Z.
Definition logged (e : Env) (i : nat) : ConsoleOutcome := nth i (logs e) Quiet.

Definition ms (n : Z) : Z := (n * 1000)%Z.

(** The quotient [a / b] of two integers, kept as a pair.  The source
    compares such quotients with the decimal constants 0.7 and 0.85; for
    integer operands the comparison of the doubles agrees with the
    comparison of the exact fractions, which is what [lt_frac] and
    [gt_frac] compute, including JavaScript's results for a zero
    divisor (an infinity, or NaN which compares false). *)
Record Ratio := mkRatio { numer : Z; denom : Z }.

Definition lt_frac (r : Ratio) (n d : Z) : bool :=
  (if 0 <? denom r then numer r * d <? n * denom r
   else if denom r <? 0 then n * denom r <? numer r * d
   else numer r <? 0)%Z.

Definition gt_frac (r : Ratio) (n d : Z) : bool :=
  (if 0 <? denom r then n * denom r <? numer r * d
   else if denom r <? 0 then numer r * d <? n * denom r
   else 0 <? numer r)%Z.

(** ASCII part of [String.prototype.toLowerCase]. *)
Definition lower_ascii (c : ascii) : ascii :=
  let n := nat_of_ascii c in
  if (65 <=? n)%nat && (n <=? 90)%nat then ascii_of_nat (n + 32) else c.

Fixpoint toLowerCase (s : string) : string :=
  match s with
  | EmptyString => EmptyString
  | String c r => String (lower_ascii c) (toLowerCase r)
  end.

(** [Array.prototype.includes] on an array of strings. *)
Definition includes (l : list string) (x : string) : bool :=
  existsb (String.eqb x) l.

End Browser.

(** ** The lightweight shield *)

Module DevShield.
Import Browser.

(** A subscriber is a host function; the listener [Set] tells functions
    apart by identity, which is all the shield ever looks at.  What a
    subscriber does to the page is the host's business; one that
    subscribes or unsubscribes while it is being called is not modelled. *)
Definition Callback := nat.

(** Payloads handed to [dispatch]. *)
Inductive Detail :=
| DUndefined
| DChange (open : bool) (reason : string)
| DTamper (type : string) (detail : option string).

Inductive Output :=
| WindowEvent (name : string) (detail : Detail)
| Invoke (cb : Callback) (detail : Detail)
| ConsoleInfo (msg : string).

Inductive Task := TPoll | TSizeCheck | TLogProbe.

(** A heuristic's verdict, [{ open: true, reason }]; [null] is [None]. *)
Record Signal := mkSignal { sig_open : bool; sig_reason : string }.

Record State := mkState {
  (* the STATE object *)
  open : bool;
  reason : string;
  listeners : list Callback;
  (* closure variables *)
  consoleProbeOpen : bool;
  detectTimer : option nat;
  sizeTimer : option nat;
  (* timers and frame callbacks the script has pending *)
  pending : list (nat * (nat * Task));
  nextTimer : nat;
  (* what the script has put into the page *)
  hostAttached : bool;
  bannerShown : bool;
  badgeHidden : bool;
  blurGlobal : bool;
  observing : bool;
  resizeHooked : bool;
  apiDefined : bool;
  metaHash : option string;
  (* everything emitted so far, oldest first *)
  trace : list Output
}.

Definition set_open v s := mkState v (reason s) (listeners s)
  (consoleProbeOpen s) (detectTimer s) (sizeTimer s) (pending s)
  (nextTimer s) (hostAttached s) (bannerShown s) (badgeHidden s)
  (blurGlobal s) (observing s) (resizeHooked s) (apiDefined s) (metaHash s)
  (trace s).
Definition set_reason v s := mkState (open s) v (listeners s)
  (consoleProbeOpen s) (detectTimer s) (sizeTimer s) (pending s)
  (nextTimer s) (hostAttached s) (bannerShown s) (badgeHidden s)
  (blurGlobal s) (observing s) (resizeHooked s) (apiDefined s) (metaHash s)
  (trace s).
Definition set_listeners v s := mkState (open s) (reason s) v
  (consoleProbeOpen s) (detectTimer s) (sizeTimer s) (pending s)
  (nextTimer s) (hostAttached s) (bannerShown s) (badgeHidden s)
  (blurGlobal s) (observing s) (resizeHooked s) (apiDefined s) (metaHash s)
  (trace s).
Definition set_consoleProbeOpen v s := mkState (open s) (reason s)
  (listeners s) v (detectTimer s) (sizeTimer s) (pending s)
  (nextTimer s) (hostAttached s) (bannerShown s) (badgeHidden s)
  (blurGlobal s) (observing s) (resizeHooked s) (apiDefined s) (metaHash s)
  (trace s).
Definition set_detectTimer v s := mkState (open s) (reason s)
  (listeners s) (consoleProbeOpen s) v (sizeTimer s) (pending s)
  (nextTimer s) (hostAttached s) (bannerShown s) (badgeHidden s)
  (blurGlobal s) (observing s) (resizeHooked s) (apiDefined s) (metaHash s)
  (trace s).
Definition set_sizeTimer v s := mkState (open s) (reason s)
  (listeners s) (consoleProbeOpen s) (detectTimer s) v (pending s)
  (nextTimer s) (hostAttached s) (bannerShown s) (badgeHidden s)
  (blurGlobal s) (observing s) (resizeHooked s) (apiDefined s) (metaHash s)
  (trace s).
Definition set_pending v s := mkState (open s) (reason s)
  (listeners s) (consoleProbeOpen s) (detectTimer s) (sizeTimer s) v
  (nextTimer s) (hostAttached s) (bannerShown s) (badgeHidden s)
  (blurGlobal s) (observing s) (resizeHooked s) (apiDefined s) (metaHash s)
  (trace s).
Definition set_nextTimer v s := mkState (open s) (reason s)
  (listeners s) (consoleProbeOpen s) (detectTimer s) (sizeTimer s)
  (pending s) v (hostAttached s) (bannerShown s) (badgeHidden s)
  (blurGlobal s) (observing s) (resizeHooked s) (apiDefined s) (metaHash s)
  (trace s).
Definition set_hostAttached v s := mkState (open s) (reason s)
  (listeners s) (consoleProbeOpen s) (detectTimer s) (sizeTimer s)
  (pending s) (nextTimer s) v (bannerShown s) (badgeHidden s)
  (blurGlobal s) (observing s) (resizeHooked s) (apiDefined s) (metaHash s)
  (trace s).
Definition set_bannerShown v s := mkState (open s) (reason s)
  (listeners s) (consoleProbeOpen s) (detectTimer s) (sizeTimer s)
  (pending s) (nextTimer s) (hostAttached s) v (badgeHidden s)
  (blurGlobal s) (observing s) (resizeHooked s) (apiDefined s) (metaHash s)
  (trace s).
Definition set_badgeHidden v s := mkState (open s) (reason s)
  (listeners s) (consoleProbeOpen s) (detectTimer s) (sizeTimer s)
  (pending s) (nextTimer s) (hostAttached s) (bannerShown s) v
  (blurGlobal s) (observing s) (resizeHooked s) (apiDefined s) (metaHash s)
  (trace s).
Definition set_blurGlobal v s := mkState (open s) (reason s)
  (listeners s) (consoleProbeOpen s) (detectTimer s) (sizeTimer s)
  (pending s) (nextTimer s) (hostAttached s) (bannerShown s)
  (badgeHidden s) v (observing s) (resizeHooked s) (apiDefined s)
  (metaHash s) (trace s).
Definition set_observing v s := mkState (open s) (reason s)
  (listeners s) (consoleProbeOpen s) (detectTimer s) (sizeTimer s)
  (pending s) (nextTimer s) (hostAttached s) (bannerShown s)
  (badgeHidden s) (blurGlobal s) v (resizeHooked s) (apiDefined s)
  (metaHash s) (trace s).
Definition set_resizeHooked v s := mkState (open s) (reason s)
  (listeners s) (consoleProbeOpen s) (detectTimer s) (sizeTimer s)
  (pending s) (nextTimer s) (hostAttached s) (bannerShown s)
  (badgeHidden s) (blurGlobal s) (observing s) v (apiDefined s)
  (metaHash s) (trace s).
Definition set_apiDefined v s := mkState (open s) (reason s)
  (listeners s) (consoleProbeOpen s) (detectTimer s) (sizeTimer s)
  (pending s) (nextTimer s) (hostAttached s) (bannerShown s)
  (badgeHidden s) (blurGlobal s) (observing s) (resizeHooked s) v
  (metaHash s) (trace s).
Definition set_metaHash v s := mkState (open s) (reason s)
  (listeners s) (consoleProbeOpen s) (detectTimer s) (sizeTimer s)
  (pending s) (nextTimer s) (hostAttached s) (bannerShown s)
  (badgeHidden s) (blurGlobal s) (observing s) (resizeHooked s)
  (apiDefined s) v (trace s).
Definition set_trace v s := mkState (open s) (reason s)
  (listeners s) (consoleProbeOpen s) (detectTimer s) (sizeTimer s)
  (pending s) (nextTimer s) (hostAttached s) (bannerShown s)
  (badgeHidden s) (blurGlobal s) (observing s) (resizeHooked s)
  (apiDefined s) (metaHash s) v.

(** The page before the script has run. *)
Definition pristine : State :=
  mkState false "" [] false None None [] 0 false false false false false
          false false None [].

Definition emit (o : Output) (s : State) : State :=
  set_trace (trace s ++ [o]) s.

(** [dispatch]: one event on [window], then every listener in insertion
    order; the [try]/[catch] around each call keeps the loop going
    whatever a listener does. *)
Definition dispatch (name : string) (detail : Detail) (s : State) : State :=
  set_trace (trace s ++ WindowEvent name detail
               :: map (fun cb => Invoke cb detail) (listeners s)) s.

Definition setBadgeVisible (show : bool) (s : State) : State :=
  set_badgeHidden (negb show) s.
Definition showBanner (show : bool) (s : State) : State :=
  set_bannerShown show s.
Definition setGlobalBlur (on : bool) (s : State) : State :=
  set_blurGlobal on s.

Definition threshold : Z := 200.

Definition timeHeuristic (e : Env) : option Signal :=
  let dt := pause e 0 in
  if (ms threshold <? dt)%Z
  then Some (mkSignal true
               ("debugger-timing("
                  ++ NilZero.string_of_int (Z.to_int ((dt + 500) / 1000))
                  ++ "ms)"))
  else None.

Definition sizeHeuristic (e : Env) : option Signal :=
  let gapW := Z.abs (outerWidth e - innerWidth e) in
  let gapH := Z.abs (outerHeight e - innerHeight e) in
  if ((160 <? gapW) || (160 <? gapH))%Z
  then Some (mkSignal true "viewport-gap")
  else None.

(** JavaScript truthiness of an optional string argument. *)
Definition truthy (r : option string) : bool :=
  match r with
  | None => false
  | Some r => negb (String.eqb r "")
  end.

(** [reason || STATE.reason]. *)
Definition orElse (r : option string) (d : string) : string :=
  match r with
  | Some r' => if truthy r then r' else d
  | None => d
  end.

Definition setState (o : bool) (r : option string) (s : State) : State :=
  if Bool.eqb (open s) o && negb (truthy r) then s
  else
    let s := set_open o s in
    let s := set_reason (orElse r (reason s)) s in
    let s := showBanner o s in
    let s := setGlobalBlur o s in
    dispatch "youdai:devtools-change" (DChange (open s) (reason s)) s.

Definition consoleProbe_toString (s : State) : State :=
  setState true (Some "console-probe") (set_consoleProbeOpen true s).

Definition setTimeout (delay : nat) (t : Task) (s : State) : nat * State :=
  (nextTimer s,
   set_nextTimer (S (nextTimer s))
     (set_pending (pending s ++ [(nextTimer s, (delay, t))]) s)).

Definition clearTimeout (id : option nat) (s : State) : State :=
  match id with
  | None => s
  | Some i =>
      set_pending (filter (fun p => negb (Nat.eqb (fst p) i)) (pending s)) s
  end.

(** The soft fusion policy: the first heuristic with an opinion wins. *)
Definition fuse (e : Env) : option Signal :=
  match timeHeuristic e with
  | Some sig => Some sig
  | None => sizeHeuristic e
  end.

Definition poll (e : Env) (s : State) : State :=
  let s := clearTimeout (detectTimer s) s in
  let s := match fuse e with
           | Some sig => setState true (Some (sig_reason sig)) s
           | None => setState false (Some "poll") s
           end in
  let (id, s) := setTimeout 800 TPoll s in
  set_detectTimer (Some id) s.

Definition sizeWatcher (s : State) : State :=
  let s := clearTimeout (sizeTimer s) s in
  let (id, s) := setTimeout 200 TSizeCheck s in
  set_sizeTimer (Some id) s.

Definition sizeCheck (e : Env) (s : State) : State :=
  setState (match sizeHeuristic e with Some _ => true | None => false end)
           (Some "resize") s.

Definition logProbe (e : Env) (s : State) : State :=
  match logged e 0 with
  | Accessed => consoleProbe_toString s
  | Quiet | Threw => s
  end.

(** The MutationObserver callback guarding the host element. *)
Definition hostObserver (s : State) : State :=
  if hostAttached s then s
  else dispatch "youdai:tamper" (DTamper "overlay-removed" None)
         (set_hostAttached true s).

(** How the self-hash routine ends. *)
Inductive IntegrityOutcome :=
| NoScript
| CrossOrigin
| Hashed (hash : option string)
| Failed (error : string).

Definition integrityDone (o : IntegrityOutcome) (s : State) : State :=
  match o with
  | NoScript | CrossOrigin => s
  | Hashed h =>
      set_metaHash (Some (match h with Some x => x | None => "na" end)) s
  | Failed err =>
      dispatch "youdai:tamper"
        (DTamper "integrity-check-failed" (Some err)) s
  end.

(** The public API. *)
Definition isOpen (s : State) : bool := open s.

Definition onChange (cb : Callback) (s : State) : State :=
  if existsb (Nat.eqb cb) (listeners s) then s
  else set_listeners (listeners s ++ [cb]) s.

Definition unsubscribe (cb : Callback) (s : State) : State :=
  set_listeners (filter (fun c => negb (Nat.eqb c cb)) (listeners s)) s.

(** [show !== false], where [None] is a missing argument. *)
Definition not_false (show : option bool) : bool :=
  match show with Some false => false | _ => true end.

Definition watermark (show : option bool) (s : State) : State :=
  setBadgeVisible (not_false show) s.
Definition blurSensitive (show : option bool) (s : State) : State :=
  setGlobalBlur (not_false show) s.

Definition debugNotice : string :=
  "[YouDai DevShield] Debug mode enabled via ?debug=1 — shield disabled.".

Definition optedOut (e : Env) : bool :=
  match searchParams_get "debug" (search e) with
  | Some v => String.eqb v "1"
  | None => false
  end.

(** The body of the IIFE, run once when the script loads. *)
Definition load (e : Env) (s : State) : State :=
  if optedOut e then emit (ConsoleInfo debugNotice) s
  else
    let s := set_listeners [] (set_reason "init" (set_open false s)) in
    let s := set_hostAttached true s in
    let s := set_observing true s in
    let s := set_apiDefined true s in
    let s := set_resizeHooked true s in
    let s := poll e s in
    let s := snd (setTimeout 0 TLogProbe s) in
    dispatch "youdai:shield-ready" DUndefined s.

(** What can happen after the script has loaded. *)
Inductive Event :=
| Fire (id : nat) (e : Env)          (* a pending timer or frame callback *)
| Resize
| ConsoleCoercion                    (* the console formats the probe *)
| DetachHost                         (* the host is taken out of the page *)
| Mutation                           (* any other change under <html> *)
| IntegrityDone (o : IntegrityOutcome)
| Subscribe (cb : Callback)
| Unsubscribe (cb : Callback)
| Watermark (show : option bool)
| BlurSensitive (show : option bool).

Definition lookupTimer (id : nat) (s : State) : option (nat * Task) :=
  match find (fun p => Nat.eqb (fst p) id) (pending s) with
  | Some p => Some (snd p)
  | None => None
  end.

Definition runTask (t : Task) (e : Env) (s : State) : State :=
  match t with
  | TPoll => poll e s
  | TSizeCheck => sizeCheck e s
  | TLogProbe => logProbe e s
  end.

Definition step (ev : Event) (s : State) : State :=
  match ev with
  | Fire id e =>
      match lookupTimer id s with
      | Some (_, t) => runTask t e (clearTimeout (Some id) s)
      | None => s
      end
  | Resize => if resizeHooked s then sizeWatcher s else s
  | ConsoleCoercion => if apiDefined s then consoleProbe_toString s else s
  | DetachHost =>
      if observing s then hostObserver (set_hostAttached false s)
      else set_hostAttached false s
  | Mutation => if observing s then hostObserver s else s
  | IntegrityDone o => if apiDefined s then integrityDone o s else s
  | Subscribe cb => if apiDefined s then onChange cb s else s
  | Unsubscribe cb => if apiDefined s then unsubscribe cb s else s
  | Watermark show => if apiDefined s then watermark show s else s
  | BlurSensitive show => if apiDefined s then blurSensitive show s else s
  end.

Definition run (evs : list Event) (s : State) : State :=
  fold_left (fun s ev => step ev s) evs s.

(** Successive poll ticks, one browser snapshot per tick. *)
Definition polls (es : list Env) (s : State) : State :=
  fold_left (fun s e => poll e s) es s.

(** The belief-change events in a trace. *)
Definition isChange (o : Output) : bool :=
  match o with
  | WindowEvent name _ => String.eqb name "youdai:devtools-change"
  | _ => false
  end.

Definition changes (t : list Output) : list Output := filter isChange t.

(** What was emitted between an earlier state and a later one. *)
Definition emitted (s s' : State) : list Output :=
  skipn (List.length (trace s)) (trace s').

(** The fusion decision as a boolean. *)
Definition decided (e : Env) : bool :=
  match fuse e with Some _ => true | None => false end.

(** The reason a poll tick hands to [setState]. *)
Definition pollReason (e : Env) : string :=
  match fuse e with Some sig => sig_reason sig | None => "poll" end.

(** What one handler run emits: one call of [dispatch], or nothing. *)
Definition Block (ls : list Callback) (out : list Output) : Prop :=
  out = [] \/
  exists name d, out = WindowEvent name d :: map (fun cb => Invoke cb d) ls.

End DevShield.

(** ** The aggressive variant

    The class declares [disableAllDevToolsAccess] twice; the later
    declaration replaces the earlier one, and it is the later one that is
    embedded.  The script is taken to run in a document that has a body.
    Its diagnostic [console.log] lines are left out: before the console is
    wrapped they only print, and afterwards they report a detection only
    while protection is active, when belief is Open already and
    [handleDevToolsDetected] returns at once. *)

Module Enhanced.
Import Browser.

(** Arguments a page passes to [fetch] or to [XMLHttpRequest.open]. *)
Inductive Value :=
| VUndefined
| VString (s : string)
| VNumber (n : Z)
| VBool (b : bool)
| VObject (ref : nat).

(** The functions that can sit in [window.fetch]: the browser's own, the
    wrapper installed by [interceptNetworkRequests], the rejecting
    function installed by [blockNetworkRequests]. *)
Inductive FetchImpl := BuiltinFetch | InterceptingFetch | RejectingFetch.

(** Likewise for [XMLHttpRequest.prototype.open]. *)
Inductive OpenImpl := BuiltinOpen | InterceptingOpen | ThrowingOpen.

Inductive FetchResult :=
| Transport (args : list Value)      (* the browser's fetch ran on args *)
| Forbidden403                       (* resolved with the made-up 403 *)
| RejectedPromise (msg : string)
| FetchTypeError.                    (* nothing callable was saved *)

Inductive OpenResult :=
| OpenTransport (args : list Value)  (* the browser's open ran on args *)
| OpenIgnored                        (* returned without calling it *)
| OpenThrew (msg : string)
| OpenTypeError.

(** One-shot timer callbacks. *)
Inductive Task :=
| TConsoleImproved    (* detectByWindowSize's double check *)
| TCheckClosed        (* the callback of checkIfReallyClosed *)
| TElementCheck       (* the callback of detectByElementManipulation *)
| TShowOverlay        (* the overlay observer's re-creation *)
| TDetectMultiple     (* blur, focus, visibility and the final check *)
| TWindowSize.        (* resize *)

(** Repeating timers. *)
Inductive Repeating := RDetect | RGlobals | RFlood.

(** Event listeners. *)
Inductive Hook :=
| HKeyDown | HContextMenu | HMouseDown
| HResize | HBlur | HFocus | HVisibility | HContentLoaded.

Definition Hook_eqb (a b : Hook) : bool :=
  match a, b with
  | HKeyDown, HKeyDown | HContextMenu, HContextMenu
  | HMouseDown, HMouseDown | HResize, HResize | HBlur, HBlur
  | HFocus, HFocus | HVisibility, HVisibility
  | HContentLoaded, HContentLoaded => true
  | _, _ => false
  end.

Definition Repeating_eqb (a b : Repeating) : bool :=
  match a, b with
  | RDetect, RDetect | RGlobals, RGlobals | RFlood, RFlood => true
  | _, _ => false
  end.

Record State := mkState {
  (* fields of the instance *)
  isDevToolsOpen : bool;
  protectionActive : bool;
  networkRequests : list Value;      (* urls seen by the wrappers *)
  originalFetch : option FetchImpl;
  originalXHR : option OpenImpl;
  consoleFloodInterval : bool;
  (* globals the script assigns *)
  windowFetch : FetchImpl;
  xhrOpen : OpenImpl;
  webSocketBlocked : bool;
  eventSourceBlocked : bool;
  evalDisabled : bool;
  functionDisabled : bool;
  consoleWrapped : bool;
  (* the document *)
  overlay : bool;                    (* #devtools-overlay is in the body *)
  overlayObservers : nat;            (* observers watching for its removal *)
  protectionClasses : bool;
  visualLock : bool;
  cssInjected : bool;
  domObserver : bool;
  detectors : nat;                   (* hidden probe elements in the body *)
  (* scheduling *)
  timeouts : list (nat * Task);      (* delay in ms, callback *)
  intervals : list (nat * Repeating);
  hooks : list Hook
}.

Definition set_isDevToolsOpen v s :=
  mkState v (protectionActive s) (networkRequests s) (originalFetch s)
    (originalXHR s) (consoleFloodInterval s) (windowFetch s) (xhrOpen s)
    (webSocketBlocked s) (eventSourceBlocked s) (evalDisabled s)
    (functionDisabled s) (consoleWrapped s) (overlay s) (overlayObservers s)
    (protectionClasses s) (visualLock s) (cssInjected s) (domObserver s)
    (detectors s) (timeouts s) (intervals s) (hooks s).
Definition set_protectionActive v s :=
  mkState (isDevToolsOpen s) v (networkRequests s) (originalFetch s)
    (originalXHR s) (consoleFloodInterval s) (windowFetch s) (xhrOpen s)
    (webSocketBlocked s) (eventSourceBlocked s) (evalDisabled s)
    (functionDisabled s) (consoleWrapped s) (overlay s) (overlayObservers s)
    (protectionClasses s) (visualLock s) (cssInjected s) (domObserver s)
    (detectors s) (timeouts s) (intervals s) (hooks s).
Definition set_networkRequests v s :=
  mkState (isDevToolsOpen s) (protectionActive s) v (originalFetch s)
    (originalXHR s) (consoleFloodInterval s) (windowFetch s) (xhrOpen s)
    (webSocketBlocked s) (eventSourceBlocked s) (evalDisabled s)
    (functionDisabled s) (consoleWrapped s) (overlay s) (overlayObservers s)
    (protectionClasses s) (visualLock s) (cssInjected s) (domObserver s)
    (detectors s) (timeouts s) (intervals s) (hooks s).
Definition set_originalFetch v s :=
  mkState (isDevToolsOpen s) (protectionActive s) (networkRequests s) v
    (originalXHR s) (consoleFloodInterval s) (windowFetch s) (xhrOpen s)
    (webSocketBlocked s) (eventSourceBlocked s) (evalDisabled s)
    (functionDisabled s) (consoleWrapped s) (overlay s) (overlayObservers s)
    (protectionClasses s) (visualLock s) (cssInjected s) (domObserver s)
    (detectors s) (timeouts s) (intervals s) (hooks s).
Definition set_originalXHR v s :=
  mkState (isDevToolsOpen s) (protectionActive s) (networkRequests s)
    (originalFetch s) v (consoleFloodInterval s) (windowFetch s) (xhrOpen s)
    (webSocketBlocked s) (eventSourceBlocked s) (evalDisabled s)
    (functionDisabled s) (consoleWrapped s) (overlay s) (overlayObservers s)
    (protectionClasses s) (visualLock s) (cssInjected s) (domObserver s)
    (detectors s) (timeouts s) (intervals s) (hooks s).
Definition set_consoleFloodInterval v s :=
  mkState (isDevToolsOpen s) (protectionActive s) (networkRequests s)
    (originalFetch s) (originalXHR s) v (windowFetch s) (xhrOpen s)
    (webSocketBlocked s) (eventSourceBlocked s) (evalDisabled s)
    (functionDisabled s) (consoleWrapped s) (overlay s) (overlayObservers s)
    (protectionClasses s) (visualLock s) (cssInjected s) (domObserver s)
    (detectors s) (timeouts s) (intervals s) (hooks s).
Definition set_windowFetch v s :=
  mkState (isDevToolsOpen s) (protectionActive s) (networkRequests s)
    (originalFetch s) (originalXHR s) (consoleFloodInterval s) v (xhrOpen s)
    (webSocketBlocked s) (eventSourceBlocked s) (evalDisabled s)
    (functionDisabled s) (consoleWrapped s) (overlay s) (overlayObservers s)
    (protectionClasses s) (visualLock s) (cssInjected s) (domObserver s)
    (detectors s) (timeouts s) (intervals s) (hooks s).
Definition set_xhrOpen v s :=
  mkState (isDevToolsOpen s) (protectionActive s) (networkRequests s)
    (originalFetch s) (originalXHR s) (consoleFloodInterval s) (windowFetch
    s) v (webSocketBlocked s) (eventSourceBlocked s) (evalDisabled s)
    (functionDisabled s) (consoleWrapped s) (overlay s) (overlayObservers s)
    (protectionClasses s) (visualLock s) (cssInjected s) (domObserver s)
    (detectors s) (timeouts s) (intervals s) (hooks s).
Definition set_webSocketBlocked v s :=
  mkState (isDevToolsOpen s) (protectionActive s) (networkRequests s)
    (originalFetch s) (originalXHR s) (consoleFloodInterval s) (windowFetch
    s) (xhrOpen s) v (eventSourceBlocked s) (evalDisabled s)
    (functionDisabled s) (consoleWrapped s) (overlay s) (overlayObservers s)
    (protectionClasses s) (visualLock s) (cssInjected s) (domObserver s)
    (detectors s) (timeouts s) (intervals s) (hooks s).
Definition set_eventSourceBlocked v s :=
  mkState (isDevToolsOpen s) (protectionActive s) (networkRequests s)
    (originalFetch s) (originalXHR s) (consoleFloodInterval s) (windowFetch
    s) (xhrOpen s) (webSocketBlocked s) v (evalDisabled s) (functionDisabled
    s) (consoleWrapped s) (overlay s) (overlayObservers s)
    (protectionClasses s) (visualLock s) (cssInjected s) (domObserver s)
    (detectors s) (timeouts s) (intervals s) (hooks s).
Definition set_evalDisabled v s :=
  mkState (isDevToolsOpen s) (protectionActive s) (networkRequests s)
    (originalFetch s) (originalXHR s) (consoleFloodInterval s) (windowFetch
    s) (xhrOpen s) (webSocketBlocked s) (eventSourceBlocked s) v
    (functionDisabled s) (consoleWrapped s) (overlay s) (overlayObservers s)
    (protectionClasses s) (visualLock s) (cssInjected s) (domObserver s)
    (detectors s) (timeouts s) (intervals s) (hooks s).
Definition set_functionDisabled v s :=
  mkState (isDevToolsOpen s) (protectionActive s) (networkRequests s)
    (originalFetch s) (originalXHR s) (consoleFloodInterval s) (windowFetch
    s) (xhrOpen s) (webSocketBlocked s) (eventSourceBlocked s) (evalDisabled
    s) v (consoleWrapped s) (overlay s) (overlayObservers s)
    (protectionClasses s) (visualLock s) (cssInjected s) (domObserver s)
    (detectors s) (timeouts s) (intervals s) (hooks s).
Definition set_consoleWrapped v s :=
  mkState (isDevToolsOpen s) (protectionActive s) (networkRequests s)
    (originalFetch s) (originalXHR s) (consoleFloodInterval s) (windowFetch
    s) (xhrOpen s) (webSocketBlocked s) (eventSourceBlocked s) (evalDisabled
    s) (functionDisabled s) v (overlay s) (overlayObservers s)
    (protectionClasses s) (visualLock s) (cssInjected s) (domObserver s)
    (detectors s) (timeouts s) (intervals s) (hooks s).
Definition set_overlay v s :=
  mkState (isDevToolsOpen s) (protectionActive s) (networkRequests s)
    (originalFetch s) (originalXHR s) (consoleFloodInterval s) (windowFetch
    s) (xhrOpen s) (webSocketBlocked s) (eventSourceBlocked s) (evalDisabled
    s) (functionDisabled s) (consoleWrapped s) v (overlayObservers s)
    (protectionClasses s) (visualLock s) (cssInjected s) (domObserver s)
    (detectors s) (timeouts s) (intervals s) (hooks s).
Definition set_overlayObservers v s :=
  mkState (isDevToolsOpen s) (protectionActive s) (networkRequests s)
    (originalFetch s) (originalXHR s) (consoleFloodInterval s) (windowFetch
    s) (xhrOpen s) (webSocketBlocked s) (eventSourceBlocked s) (evalDisabled
    s) (functionDisabled s) (consoleWrapped s) (overlay s) v
    (protectionClasses s) (visualLock s) (cssInjected s) (domObserver s)
    (detectors s) (timeouts s) (intervals s) (hooks s).
Definition set_protectionClasses v s :=
  mkState (isDevToolsOpen s) (protectionActive s) (networkRequests s)
    (originalFetch s) (originalXHR s) (consoleFloodInterval s) (windowFetch
    s) (xhrOpen s) (webSocketBlocked s) (eventSourceBlocked s) (evalDisabled
    s) (functionDisabled s) (consoleWrapped s) (overlay s) (overlayObservers
    s) v (visualLock s) (cssInjected s) (domObserver s) (detectors s)
    (timeouts s) (intervals s) (hooks s).
Definition set_visualLock v s :=
  mkState (isDevToolsOpen s) (protectionActive s) (networkRequests s)
    (originalFetch s) (originalXHR s) (consoleFloodInterval s) (windowFetch
    s) (xhrOpen s) (webSocketBlocked s) (eventSourceBlocked s) (evalDisabled
    s) (functionDisabled s) (consoleWrapped s) (overlay s) (overlayObservers
    s) (protectionClasses s) v (cssInjected s) (domObserver s) (detectors s)
    (timeouts s) (intervals s) (hooks s).
Definition set_cssInjected v s :=
  mkState (isDevToolsOpen s) (protectionActive s) (networkRequests s)
    (originalFetch s) (originalXHR s) (consoleFloodInterval s) (windowFetch
    s) (xhrOpen s) (webSocketBlocked s) (eventSourceBlocked s) (evalDisabled
    s) (functionDisabled s) (consoleWrapped s) (overlay s) (overlayObservers
    s) (protectionClasses s) (visualLock s) v (domObserver s) (detectors s)
    (timeouts s) (intervals s) (hooks s).
Definition set_domObserver v s :=
  mkState (isDevToolsOpen s) (protectionActive s) (networkRequests s)
    (originalFetch s) (originalXHR s) (consoleFloodInterval s) (windowFetch
    s) (xhrOpen s) (webSocketBlocked s) (eventSourceBlocked s) (evalDisabled
    s) (functionDisabled s) (consoleWrapped s) (overlay s) (overlayObservers
    s) (protectionClasses s) (visualLock s) (cssInjected s) v (detectors s)
    (timeouts s) (intervals s) (hooks s).
Definition set_detectors v s :=
  mkState (isDevToolsOpen s) (protectionActive s) (networkRequests s)
    (originalFetch s) (originalXHR s) (consoleFloodInterval s) (windowFetch
    s) (xhrOpen s) (webSocketBlocked s) (eventSourceBlocked s) (evalDisabled
    s) (functionDisabled s) (consoleWrapped s) (overlay s) (overlayObservers
    s) (protectionClasses s) (visualLock s) (cssInjected s) (domObserver s)
    v (timeouts s) (intervals s) (hooks s).
Definition set_timeouts v s :=
  mkState (isDevToolsOpen s) (protectionActive s) (networkRequests s)
    (originalFetch s) (originalXHR s) (consoleFloodInterval s) (windowFetch
    s) (xhrOpen s) (webSocketBlocked s) (eventSourceBlocked s) (evalDisabled
    s) (functionDisabled s) (consoleWrapped s) (overlay s) (overlayObservers
    s) (protectionClasses s) (visualLock s) (cssInjected s) (domObserver s)
    (detectors s) v (intervals s) (hooks s).
Definition set_intervals v s :=
  mkState (isDevToolsOpen s) (protectionActive s) (networkRequests s)
    (originalFetch s) (originalXHR s) (consoleFloodInterval s) (windowFetch
    s) (xhrOpen s) (webSocketBlocked s) (eventSourceBlocked s) (evalDisabled
    s) (functionDisabled s) (consoleWrapped s) (overlay s) (overlayObservers
    s) (protectionClasses s) (visualLock s) (cssInjected s) (domObserver s)
    (detectors s) (timeouts s) v (hooks s).
Definition set_hooks v s :=
  mkState (isDevToolsOpen s) (protectionActive s) (networkRequests s)
    (originalFetch s) (originalXHR s) (consoleFloodInterval s) (windowFetch
    s) (xhrOpen s) (webSocketBlocked s) (eventSourceBlocked s) (evalDisabled
    s) (functionDisabled s) (consoleWrapped s) (overlay s) (overlayObservers
    s) (protectionClasses s) (visualLock s) (cssInjected s) (domObserver s)
    (detectors s) (timeouts s) (intervals s) v.

(** The page before the script has run. *)
Definition pristine : State :=
  mkState false false [] None None false BuiltinFetch BuiltinOpen false
          false false false false false 0 false false false false 0 [] [] [].

Definition setTimeout (delay : nat) (t : Task) (s : State) : State :=
  set_timeouts (timeouts s ++ [(delay, t)]) s.
Definition setInterval (delay : nat) (r : Repeating) (s : State) : State :=
  set_intervals (intervals s ++ [(delay, r)]) s.
Definition clearInterval (r : Repeating) (s : State) : State :=
  set_intervals
    (filter (fun p => negb (Repeating_eqb (snd p) r)) (intervals s)) s.
Definition addEventListener (h : Hook) (s : State) : State :=
  set_hooks (hooks s ++ [h]) s.
Definition hooked (h : Hook) (s : State) : bool :=
  existsb (Hook_eqb h) (hooks s).
Definition ticking (r : Repeating) (s : State) : bool :=
  existsb (fun p => Repeating_eqb (snd p) r) (intervals s).

(** *** Network primitives *)

Definition interceptNetworkRequests (s : State) : State :=
  let s := set_originalFetch (Some (windowFetch s)) s in
  let s := set_originalXHR (Some (xhrOpen s)) s in
  let s := set_windowFetch InterceptingFetch s in
  set_xhrOpen InterceptingOpen s.

Definition blockedMessage : string :=
  "Network access blocked - Close developer tools".

(** Calling a saved original.  The constructor saves the browser's own
    functions; a saved wrapper would mean a second instance and is not
    followed. *)
Definition applySavedFetch (f : option FetchImpl) (args : list Value)
  : FetchResult :=
  match f with
  | Some BuiltinFetch => Transport args
  | Some RejectingFetch => RejectedPromise blockedMessage
  | Some InterceptingFetch | None => FetchTypeError
  end.

Definition applySavedOpen (f : option OpenImpl) (args : list Value)
  : OpenResult :=
  match f with
  | Some BuiltinOpen => OpenTransport args
  | Some ThrowingOpen => OpenThrew blockedMessage
  | Some InterceptingOpen | None => OpenTypeError
  end.

Definition remember (url : Value) (s : State) : State :=
  set_networkRequests (networkRequests s ++ [url]) s.

(** Calling one of the functions that have been in [window.fetch], on
    [args]: the current global, or a reference taken earlier. *)
Definition callFetch (f : FetchImpl) (args : list Value) (s : State)
  : State * FetchResult :=
  match f with
  | BuiltinFetch => (s, Transport args)
  | InterceptingFetch =>
      if isDevToolsOpen s then (s, Forbidden403)
      else
        let s := remember (nth 0 args VUndefined) s in
        (s, applySavedFetch (originalFetch s) args)
  | RejectingFetch => (s, RejectedPromise blockedMessage)
  end.

(** A page calling [window.fetch(...args)]. *)
Definition fetch (args : list Value) (s : State) : State * FetchResult :=
  callFetch (windowFetch s) args s.

Definition callOpen (f : OpenImpl) (args : list Value) (s : State)
  : State * OpenResult :=
  match f with
  | BuiltinOpen => (s, OpenTransport args)
  | InterceptingOpen =>
      if isDevToolsOpen s then (s, OpenIgnored)
      else
        let method := nth 0 args VUndefined in
        let url := nth 1 args VUndefined in
        let s := remember url s in
        (s, applySavedOpen (originalXHR s) (method :: url :: skipn 2 args))
  | ThrowingOpen => (s, OpenThrew blockedMessage)
  end.

(** A page calling [xhr.open(...args)]. *)
Definition xhr_open (args : list Value) (s : State) : State * OpenResult :=
  callOpen (xhrOpen s) args s.

Definition blockNetworkRequests (s : State) : State :=
  if negb (isDevToolsOpen s) then s
  else
    let s := set_windowFetch RejectingFetch s in
    let s := set_xhrOpen ThrowingOpen s in
    let s := set_webSocketBlocked true s in
    set_eventSourceBlocked true s.

Definition restoreNetworkRequests (s : State) : State :=
  let s := match originalFetch s with
           | Some f => set_windowFetch f s
           | None => s
           end in
  match originalXHR s with
  | Some f => set_xhrOpen f s
  | None => s
  end.

(** *** Protection *)

Definition applyVisualLock (s : State) : State := set_visualLock true s.
Definition clearVisualLock (s : State) : State := set_visualLock false s.

Definition startConsoleFlood (s : State) : State :=
  if consoleFloodInterval s then s
  else set_consoleFloodInterval true (setInterval 50 RFlood s).

Definition stopConsoleFlood (s : State) : State :=
  if consoleFloodInterval s
  then set_consoleFloodInterval false (clearInterval RFlood s)
  else s.

Definition activateProtection (s : State) : State :=
  if protectionActive s then s
  else
    let s := set_protectionActive true s in
    let s := set_protectionClasses true s in
    let s := blockNetworkRequests s in
    let s := startConsoleFlood s in
    applyVisualLock s.

Definition showEnhancedProtectionOverlay (s : State) : State :=
  if overlay s then s
  else set_overlayObservers (S (overlayObservers s)) (set_overlay true s).

Definition handleDevToolsDetected (s : State) : State :=
  if isDevToolsOpen s then s
  else
    let s := set_isDevToolsOpen true s in
    let s := activateProtection s in
    showEnhancedProtectionOverlay s.

(** Taking the overlay out of the body.  Every observer installed by
    [showEnhancedProtectionOverlay] sees the removed node and asks for a
    re-creation 100 ms later. *)
Definition removeOverlay (s : State) : State :=
  if overlay s
  then set_timeouts
         (timeouts s ++ repeat (100, TShowOverlay) (overlayObservers s))
         (set_overlay false s)
  else s.

Definition deactivateProtection (s : State) : State :=
  let s := set_protectionActive false s in
  let s := set_isDevToolsOpen false s in
  let s := set_protectionClasses false s in
  let s := restoreNetworkRequests s in
  let s := clearVisualLock s in
  let s := stopConsoleFlood s in
  removeOverlay s.

(** A probe's [console.log] call.  Once [blockBypassMethods] has wrapped
    the console, a call made while protection is active reports a
    detection and never reaches the real console. *)
Definition consoleLog (o : ConsoleOutcome) (s : State)
  : State * ConsoleOutcome :=
  if consoleWrapped s && protectionActive s
  then (handleDevToolsDetected s, Quiet)
  else (s, o).

(** *** The count-based detection *)

Definition b2n (b : bool) : nat := if b then 1 else 0.

Definition consoleMethod (e : Env) (s : State) : State * nat :=
  let (s, o) := consoleLog (logged e 0) s in
  (s, match o with Quiet => 0 | Accessed | Threw => 1 end).

(** Thresholds [Math.min(screen * 0.3, 200)] are kept in tenths of a
    pixel, so that the factor stays an integer. *)
Definition sizeMethod (e : Env) : bool :=
  let heightThreshold := Z.min (screenHeight e * 3) 2000 in
  let widthThreshold := Z.min (screenWidth e * 3) 2000 in
  let heightDiff := (outerHeight e - innerHeight e)%Z in
  let widthDiff := (outerWidth e - innerWidth e)%Z in
  ((heightThreshold <? heightDiff * 10) || (widthThreshold <? widthDiff * 10))%Z.

(** The loop of up to [n] debugger trials, leaving at the first slow one. *)
Fixpoint debuggerTrials (n i : nat) (e : Env) : bool :=
  match n with
  | O => false
  | S n' =>
      if (ms 50 <? pause e i)%Z then true else debuggerTrials n' (S i) e
  end.

Definition devToolsGlobals : list string :=
  ["$"; "$$"; "$x"; "inspect"; "monitor"; "debug"; "console"; "$0"].

Definition globalsMethod (e : Env) : bool :=
  (3 <? List.length (filter (includes (nativeGlobals e)) devToolsGlobals))%nat.

Definition mediaMethod (e : Env) : bool :=
  if matchMediaThrows e then false
  else ((innerWidth e * 10 <? outerWidth e * 7)
        || (innerHeight e * 10 <? outerHeight e * 7))%Z.

Definition performanceMethod (e : Env) : bool :=
  match navigation e with
  | NavEntry loadEventEnd fetchStart =>
      (ms 2000 <? loadEventEnd - fetchStart)%Z
  | NavThrows | NavNone => false
  end.

(** The value of [detectionCount] when the final test is reached. *)
Definition detectionCount (e : Env) (s : State) : nat :=
  snd (consoleMethod e s) + b2n (sizeMethod e)
  + b2n (debuggerTrials 3 0 e) + b2n (globalsMethod e)
  + b2n (mediaMethod e) + b2n (performanceMethod e).

Definition detectDevToolsMultipleMethods (e : Env) (s : State) : State :=
  let s' := fst (consoleMethod e s) in
  if (2 <=? detectionCount e s)%nat then handleDevToolsDetected s' else s'.

(** *** The continuous detection *)

(** The three coercion probes; [None] when a [console.log] call threw. *)
Fixpoint coercionProbes (n i : nat) (e : Env) (s : State) (detected : bool)
  : State * option bool :=
  match n with
  | O => (s, Some detected)
  | S n' =>
      let (s, o) := consoleLog (logged e i) s in
      match o with
      | Threw => (s, None)
      | Accessed => coercionProbes n' (S i) e s true
      | Quiet => coercionProbes n' (S i) e s detected
      end
  end.

Definition detectByConsoleImproved (e : Env) (s : State) : State :=
  match coercionProbes 3 0 e s false with
  | (s, Some detected) =>
      if detected && negb (isDevToolsOpen s)
      then handleDevToolsDetected s else s
  | (s, None) =>
      if negb (isDevToolsOpen s) then handleDevToolsDetected s else s
  end.

Definition checkIfReallyClosed (s : State) : State :=
  setTimeout 1000 TCheckClosed s.

Definition suspiciousSize (e : Env) : bool :=
  let heightRatio := mkRatio (innerHeight e) (screenHeight e) in
  let widthRatio := mkRatio (innerWidth e) (screenWidth e) in
  let heightDiff := (outerHeight e - innerHeight e)%Z in
  let widthDiff := (outerWidth e - innerWidth e)%Z in
  (lt_frac heightRatio 7 10 && (200 <? heightDiff)%Z)
  || (lt_frac widthRatio 7 10 && (250 <? widthDiff)%Z)
  || ((300 <? heightDiff)%Z || (400 <? widthDiff)%Z).

Definition looksClosed (e : Env) : bool :=
  let heightRatio := mkRatio (innerHeight e) (screenHeight e) in
  let widthRatio := mkRatio (innerWidth e) (screenWidth e) in
  let heightDiff := (outerHeight e - innerHeight e)%Z in
  let widthDiff := (outerWidth e - innerWidth e)%Z in
  gt_frac heightRatio 85 100 && gt_frac widthRatio 85 100
  && (heightDiff <? 150)%Z && (widthDiff <? 150)%Z.

Definition detectByWindowSize (e : Env) (s : State) : State :=
  if suspiciousSize e && negb (isDevToolsOpen s)
  then setTimeout 200 TConsoleImproved s
  else if isDevToolsOpen s && looksClosed e
       then checkIfReallyClosed s
       else s.

Definition detectByElementManipulation (s : State) : State :=
  setTimeout 100 TElementCheck (set_detectors (S (detectors s)) s).

Definition elementCheck (e : Env) (s : State) : State :=
  let s := match computedPosition e with
           | Position v =>
               if String.eqb v "absolute" then s
               else handleDevToolsDetected s
           | ComputedThrows => handleDevToolsDetected s
           end in
  set_detectors (pred (detectors s)) s.

Definition detectByMultipleMethods (e : Env) (s : State) : State :=
  let s := detectByConsoleImproved e s in
  let s := detectByWindowSize e s in
  detectByElementManipulation s.

(** The callback registered by [checkIfReallyClosed]. *)
Definition closedCount (e : Env) (s : State) : nat :=
  let heightDiff := (outerHeight e - innerHeight e)%Z in
  let widthDiff := (outerWidth e - innerWidth e)%Z in
  b2n ((heightDiff <? 100)%Z && (widthDiff <? 100)%Z)
  + match snd (consoleLog (logged e 0) s) with
    | Accessed => 0
    | Quiet | Threw => 1
    end
  + b2n (pause e 0 <? ms 50)%Z.

Definition confirmClosed (e : Env) (s : State) : State :=
  let s' := fst (consoleLog (logged e 0) s) in
  if (2 <=? closedCount e s)%nat then deactivateProtection s' else s'.

(** *** Input handlers (the second, effective [disableAllDevToolsAccess]) *)

Record KeyEv := mkKey {
  key : string;
  ctrlKey : bool;
  shiftKey : bool;
  altKey : bool;
  metaKey : bool
}.

Definition blockedKey (k : KeyEv) : bool :=
  let key := toLowerCase (key k) in
  let blocked := false in
  let blocked := if String.eqb key "f12" then true else blocked in
  let blocked :=
    if ctrlKey k && shiftKey k
    then (if includes ["i"; "j"; "c"; "k"] key then true else blocked)
    else blocked in
  let blocked := if ctrlKey k && String.eqb key "u" then true else blocked in
  let blocked :=
    if metaKey k && altKey k && includes ["i"; "c"; "j"] key
    then true else blocked in
  blocked.

Definition blockKeyEvent (k : KeyEv) (s : State) : State :=
  if blockedKey k then handleDevToolsDetected s else s.

Definition blockContextMenu (s : State) : State := handleDevToolsDetected s.

(** What the mouse handler asks of the event target. *)
Record Target := mkTarget {
  tagName : string;
  hasOnclick : bool;
  insideAnchor : bool;
  insideButton : bool;
  insideOnclick : bool;
  insideRoleButton : bool;
  classClickable : bool;
  classCard : bool;
  classVideoCard : bool
}.

Record MouseEv := mkMouse {
  button : Z;
  mouseCtrl : bool;
  mouseMeta : bool;
  target : Target
}.

Definition isInteractive (t : Target) : bool :=
  String.eqb (tagName t) "A" || String.eqb (tagName t) "BUTTON"
  || String.eqb (tagName t) "INPUT" || hasOnclick t || insideAnchor t
  || insideButton t || insideOnclick t || insideRoleButton t
  || classClickable t || classCard t || classVideoCard t.

Definition blockMouseDown (m : MouseEv) (s : State) : State :=
  if ((button m =? 2) || (button m =? 1))%Z then handleDevToolsDetected s
  else if (mouseCtrl m || mouseMeta m) && (button m =? 0)%Z
       then (if negb (isInteractive (target m))
             then handleDevToolsDetected s else s)
       else s.

Definition disableAllDevToolsAccess (s : State) : State :=
  addEventListener HMouseDown
    (addEventListener HContextMenu (addEventListener HKeyDown s)).

Definition startAggressiveDetection (s : State) : State :=
  let s := setInterval 200 RDetect s in
  let s := addEventListener HResize s in
  let s := addEventListener HBlur s in
  let s := addEventListener HFocus s in
  addEventListener HVisibility s.

(** *** Set-up once the document is there *)

Definition injectProtectionCSS (s : State) : State := set_cssInjected true s.
Definition setupDOMProtection (s : State) : State := set_domObserver true s.

Definition blockBypassMethods (s : State) : State :=
  let s := set_consoleWrapped true s in
  let s := set_evalDisabled true s in
  let s := set_functionDisabled true s in
  setInterval 1000 RGlobals s.

Definition setupAdvancedProtection (s : State) : State :=
  blockBypassMethods (setupDOMProtection (injectProtectionCSS s)).

(** The attribute observer of [setupDOMProtection], for one record. *)
Definition attributeObserver (s : State) : State :=
  if protectionActive s then handleDevToolsDetected s else s.

(** Any console method called through the wrappers. *)
Definition wrappedConsole (s : State) : State :=
  if protectionActive s then handleDevToolsDetected s else s.

Definition suspiciousProps : list string :=
  ["$"; "$$"; "$x"; "inspect"; "monitor"; "debug"].

Definition globalsMonitor (e : Env) (s : State) : State :=
  fold_left
    (fun s prop =>
       if includes (definedGlobals e) prop && negb (isDevToolsOpen s)
       then handleDevToolsDetected s else s)
    suspiciousProps s.

Definition floodTick (s : State) : State :=
  if negb (protectionActive s) then stopConsoleFlood s
  else if consoleWrapped s then wrappedConsole s else s.

(** Calling [window.eval] or [window.Function] with any arguments. *)
Inductive CallResult := Native | Throws (msg : string).

Definition window_eval (args : list Value) (s : State) : CallResult :=
  if evalDisabled s then Throws "eval() is disabled" else Native.

Definition window_Function (args : list Value) (s : State) : CallResult :=
  if functionDisabled s then Throws "Function constructor is disabled"
  else Native.

(** *** Construction and script load *)

Definition initImmediateDetection (e : Env) (s : State) : State :=
  let s := detectDevToolsMultipleMethods e s in
  let s := disableAllDevToolsAccess s in
  let s := startAggressiveDetection s in
  if readyLoading e then addEventListener HContentLoaded s
  else setupAdvancedProtection s.

Definition construct (e : Env) (s : State) : State :=
  let s := set_isDevToolsOpen false s in
  let s := set_protectionActive false s in
  let s := set_networkRequests [] s in
  let s := set_originalFetch None s in
  let s := set_originalXHR None s in
  let s := interceptNetworkRequests s in
  initImmediateDetection e s.

(** The loader at the end of the file: the instance, then the final
    check half a second later.  Its other global replacements
    ([window.open], [document.createElement], service-worker
    registration, the script-injection observer) never touch the
    instance and are left out. *)
Definition load (e : Env) (s : State) : State :=
  setTimeout 500 TDetectMultiple (construct e s).

(** *** The event loop *)

Inductive Event :=
| Tick (r : Repeating) (e : Env)
| Timeout (i : nat) (e : Env)
| KeyDown (k : KeyEv)
| ContextMenu
| MouseDown (m : MouseEv)
| WindowResize
| WindowBlur
| WindowFocus
| VisibilityChange (hidden : bool)
| ContentLoaded
| AttributeMutation
| OverlayTakenOut                  (* someone else removes the overlay *)
| ConsoleUse                       (* someone calls a console method *)
| TriggerProtection.

Definition runTask (t : Task) (e : Env) (s : State) : State :=
  match t with
  | TConsoleImproved => detectByConsoleImproved e s
  | TCheckClosed => confirmClosed e s
  | TElementCheck => elementCheck e s
  | TShowOverlay => showEnhancedProtectionOverlay s
  | TDetectMultiple => detectDevToolsMultipleMethods e s
  | TWindowSize => detectByWindowSize e s
  end.

Definition runRepeating (r : Repeating) (e : Env) (s : State) : State :=
  match r with
  | RDetect => detectByMultipleMethods e s
  | RGlobals => globalsMonitor e s
  | RFlood => floodTick s
  end.

Definition dropTimeout (i : nat) (s : State) : State :=
  set_timeouts (firstn i (timeouts s) ++ skipn (S i) (timeouts s)) s.

Definition removeHook (h : Hook) (s : State) : State :=
  set_hooks (filter (fun x => negb (Hook_eqb x h)) (hooks s)) s.

Definition step (ev : Event) (s : State) : State :=
  match ev with
  | Tick r e => if ticking r s then runRepeating r e s else s
  | Timeout i e =>
      match nth_error (timeouts s) i with
      | Some (_, t) => runTask t e (dropTimeout i s)
      | None => s
      end
  | KeyDown k => if hooked HKeyDown s then blockKeyEvent k s else s
  | ContextMenu => if hooked HContextMenu s then blockContextMenu s else s
  | MouseDown m => if hooked HMouseDown s then blockMouseDown m s else s
  | WindowResize =>
      if hooked HResize s then setTimeout 100 TWindowSize s else s
  | WindowBlur =>
      if hooked HBlur s then setTimeout 300 TDetectMultiple s else s
  | WindowFocus =>
      if hooked HFocus s then setTimeout 300 TDetectMultiple s else s
  | VisibilityChange hidden =>
      if hooked HVisibility s && negb hidden
      then setTimeout 500 TDetectMultiple s else s
  | ContentLoaded =>
      if hooked HContentLoaded s
      then setupAdvancedProtection (removeHook HContentLoaded s) else s
  | AttributeMutation => if domObserver s then attributeObserver s else s
  | OverlayTakenOut => removeOverlay s
  | ConsoleUse => if consoleWrapped s then wrappedConsole s else s
  | TriggerProtection => handleDevToolsDetected s
  end.

Definition run (evs : list Event) (s : State) : State :=
  fold_left (fun s ev => step ev s) evs s.

(** States the script can be in: after loading on a fresh page, and after
    any further event. *)
Inductive reachable : State -> Prop :=
| reach_load : forall e, reachable (load e pristine)
| reach_step : forall ev s, reachable s -> reachable (step ev s).

End Enhanced.

(** ** Invariants of the aggressive variant *)

Module Coherence.
Import Browser Enhanced.

(** The fields that belief, the network primitives and the disabled
    globals live in. *)
Definition core (s : State) :=
  (isDevToolsOpen s, protectionActive s, originalFetch s, originalXHR s,
   windowFetch s, xhrOpen s, webSocketBlocked s, evalDisabled s,
   functionDisabled s).

(** Belief and the network primitives agree: the instance is active exactly
    while it believes the tools are open, the saved originals are the
    browser's, the globals hold the rejecting functions while open, and
    once a detection has been undone they hold the browser's own again. *)
Definition Coherent (s : State) : Prop :=
  protectionActive s = isDevToolsOpen s
  /\ originalFetch s = Some BuiltinFetch
  /\ originalXHR s = Some BuiltinOpen
  /\ (isDevToolsOpen s = true ->
      windowFetch s = RejectingFetch /\ xhrOpen s = ThrowingOpen
      /\ webSocketBlocked s = true)
  /\ (isDevToolsOpen s = false ->
      windowFetch s <> RejectingFetch /\ xhrOpen s <> ThrowingOpen
      /\ (webSocketBlocked s = true ->
          windowFetch s = BuiltinFetch /\ xhrOpen s = BuiltinOpen)).

(** Every pending confirmation pass was registered with a one-second
    delay. *)
Definition Delays (l : list (nat * Task)) : Prop :=
  Forall (fun p => snd p = TCheckClosed -> fst p = 1000) l.

(** What every handler maintains. *)
Definition Evolves (s s' : State) : Prop :=
  (Coherent s -> Coherent s')
  /\ (webSocketBlocked s = true -> webSocketBlocked s' = true)
  /\ (evalDisabled s = true -> evalDisabled s' = true)
  /\ (functionDisabled s = true -> functionDisabled s' = true)
  /\ (Delays (timeouts s) -> Delays (timeouts s')).

(** What every handler but the confirmation pass maintains as well. *)
Definition Stays (s s' : State) : Prop :=
  isDevToolsOpen s = true -> isDevToolsOpen s' = true.

Definition Good (s s' : State) : Prop := Evolves s s' /\ Stays s s'.

(** Whether an event is the firing of a confirmation pass. *)
Definition confirms (ev : Event) (s : State) : bool :=
  match ev with
  | Timeout i _ =>
      match nth_error (timeouts s) i with
      | Some (_, TCheckClosed) => true
      | _ => false
      end
  | _ => false
  end.

End Coherence.

(** ** Browser snapshots and event sequences used in examples *)

Module Scenario.
Import Browser.

(** A 1920x1080 screen, a maximised window with 80 px of browser chrome,
    no debugger pause, a console that leaves logged objects alone. *)
Definition quiet : Env :=
  mkEnv [] false 1080 1920 1040 1920 960 1920 [] [] [] [] false NavNone
        (Position "absolute").

(** The same page opened with [?debug=1]. *)
Definition debugUrl : Env :=
  mkEnv [("debug", "1")] false 1080 1920 1040 1920 960 1920 [] [] [] []
        false NavNone (Position "absolute").

(** The console formats whatever is logged; nothing else is unusual. *)
Definition consoleOnly : Env :=
  mkEnv [] false 1080 1920 1040 1920 960 1920 [] [Accessed; Accessed; Accessed]
        [] [] false NavNone (Position "absolute").

(** The console formats logged objects and a debugger statement pauses
    for 60 ms. *)
Definition twoSignals : Env :=
  mkEnv [] false 1080 1920 1040 1920 960 1920 [60000%Z] [Accessed] [] []
        false NavNone (Position "absolute").


(** A debugger statement that paused for 210.4 ms. *)
Definition slowDebugger : Env :=
  mkEnv [] false 1080 1920 1040 1920 960 1920 [210400%Z] [] [] [] false
        NavNone (Position "absolute").

Definition f12 : Enhanced.KeyEv := Enhanced.mkKey "F12" false false false false.

(** The aggressive variant just loaded on a quiet page. *)
Definition loaded : Enhanced.State := Enhanced.load quiet Enhanced.pristine.

(** ... after a detection ... *)
Definition detected : Enhanced.State :=
  Enhanced.step Enhanced.TriggerProtection loaded.

(** ... after a tick that finds the window looking closed and asks for the
    confirmation pass ... *)
Definition confirming : Enhanced.State :=
  Enhanced.step (Enhanced.Tick Enhanced.RDetect quiet) detected.

(** ... after the confirmation pass, which is timer 1 there ... *)
Definition closedAgain : Enhanced.State :=
  Enhanced.step (Enhanced.Timeout 1 quiet) confirming.

(** ... and after the overlay observer's timer, which is timer 2 there,
    has fired. *)
Definition afterHeal : Enhanced.State :=
  Enhanced.step (Enhanced.Timeout 2 quiet) closedAgain.

(** The lightweight shield loaded on a quiet page, with one subscriber. *)
Definition shielded : DevShield.State :=
  DevShield.step (DevShield.Subscribe 7)
    (DevShield.load quiet DevShield.pristine).

End Scenario.

(** ** Reactions of the aggressive variant *)

Module Reactions.
Import Browser Enhanced Coherence.

(** The object returned by [getProtectionStatus]; [now] is the ISO string
    of the current date. *)
Record Status := mkStatus {
  active : bool;
  devToolsOpen : bool;
  networkBlocked : bool;
  timestamp : string
}.

Definition getProtectionStatus (now : string) (s : State) : Status :=
  mkStatus (protectionActive s) (isDevToolsOpen s) (isDevToolsOpen s) now.

Definition triggerProtection (s : State) : State := handleDevToolsDetected s.

(** The reactions follow the instance's flags, the overlay is observed
    whenever it exists and is there or on its way back while belief is
    Open, and the detection interval and the input listeners stay
    installed. *)
Definition Settled (s : State) : Prop :=
  protectionClasses s = protectionActive s
  /\ visualLock s = protectionActive s
  /\ consoleFloodInterval s = protectionActive s
  /\ ticking RFlood s = consoleFloodInterval s
  /\ eventSourceBlocked s = webSocketBlocked s
  /\ (overlay s = true -> 1 <= overlayObservers s)
  /\ (isDevToolsOpen s = true ->
      overlay s = true \/ In (100, TShowOverlay) (timeouts s))
  /\ ticking RDetect s = true
  /\ hooked HKeyDown s && hooked HContextMenu s && hooked HMouseDown s = true.

(** The fields [Settled] reads, the timers apart. *)
Definition settledView (s : State) :=
  (isDevToolsOpen s, protectionActive s, webSocketBlocked s,
   protectionClasses s, visualLock s, consoleFloodInterval s,
   ticking RFlood s, eventSourceBlocked s, overlay s, overlayObservers s,
   ticking RDetect s,
   hooked HKeyDown s && hooked HContextMenu s && hooked HMouseDown s).

Definition Full (s : State) : Prop := Coherent s /\ Settled s.

End Reactions.

(** ** The loader's other global replacements *)

Module Loader.
Import Browser.

(** [String.prototype.includes] on strings. *)
Fixpoint str_includes (s sub : string) : bool :=
  String.prefix sub s
  || match s with
     | EmptyString => false
     | String _ r => str_includes r sub
     end.

(** The test of the [window.open] wrapper. *)
Definition devtoolsUrl (url : string) : bool :=
  str_includes url "chrome://" || str_includes url "about:debugging"
  || str_includes url "devtools".

(** The test of the guarded [src] setter of iframes. *)
Definition devtoolsFrame (value : string) : bool :=
  str_includes value "chrome://" || str_includes value "devtools".

Inductive Opened :=
| OpenedNull
| OriginalWindowOpen (url : option string) (args : list Enhanced.Value).

(** [window.open(url, ...args)] for a string or a missing [url]. *)
Definition window_open (url : option string) (args : list Enhanced.Value)
  : Opened :=
  match url with
  | Some u =>
      if negb (String.eqb u "") && devtoolsUrl u then OpenedNull
      else OriginalWindowOpen url args
  | None => OriginalWindowOpen url args
  end.

(** Whether [document.createElement(tagName)] returns an element with the
    guarded [src] setter. *)
Definition guardedFrame (tagName : string) : bool :=
  String.eqb (toLowerCase tagName) "iframe".

(** Assigning [src] on such an element: the value handed to the original
    setter, if any. *)
Definition frame_src_set (value : string) : option string :=
  if negb (String.eqb value "") && devtoolsFrame value then None
  else Some value.

(** A node added under the body, as the script-injection observer sees
    it: its [tagName] ([None] for text nodes) and its [src]. *)
Record Added := mkAdded { addedTag : option string; addedSrc : string }.

(** Whether the observer removes the node, on a page of that origin. *)
Definition scriptRemoved (origin : string) (n : Added) : bool :=
  match addedTag n with
  | Some tag =>
      String.eqb tag "SCRIPT" && negb (String.eqb (addedSrc n) "")
      && negb (str_includes (addedSrc n) origin)
  | None => false
  end.

End Loader.

(** ** The service worker

    Cache Storage is embedded as the list of its caches in creation
    order, a cache as the list of its entries keyed by request URL.  The
    worker's promise chains are run to their end within the event that
    starts them.  The network is a function from URLs to what [fetch]
    resolves with; [None] is a rejected [fetch]. *)

Module Worker.
Import Browser.

Definition CACHE_NAME : string := "3010250100".
Definition STATIC_CACHE : string := "youdai-static-" ++ CACHE_NAME.
Definition DYNAMIC_CACHE : string := "youdai-dynamic-" ++ CACHE_NAME.


Record Response := mkResponse { status : Z; body : string }.

Definition Cache := list (string * Response).
Definition CacheStorage := list (string * Cache).
Definition Network := string -> option Response.

Record Request := mkRequest {
  url : string;           (* request.url, absolute *)
  method : string;
  mode : string;
  destination : string;
  pathname : string;      (* new URL(request.url).pathname *)
  origin : string         (* new URL(request.url).origin *)
}.

(** A path is resolved against the worker's origin, an absolute URL is
    taken as it is. *)
Definition resolve (location : string) (u : string) : string :=
  if String.prefix "/" u then (location ++ u)%string else u.

(** [String.prototype.endsWith]. *)
Definition endsWith (s suffix : string) : bool :=
  (String.length suffix <=? String.length s)%nat
  && String.eqb
       (substring (String.length s - String.length suffix)
                  (String.length suffix) s)
       suffix.

(** [cache.match]. *)
Definition cache_match (c : Cache) (key : string) : option Response :=
  match find (fun kv => String.eqb (fst kv) key) c with
  | Some kv => Some (snd kv)
  | None => None
  end.

(** [caches.match]: the first cache, in creation order, that has it. *)
Fixpoint storage_match (st : CacheStorage) (key : string)
  : option Response :=
  match st with
  | [] => None
  | (_, c) :: rest =>
      match cache_match c key with
      | Some r => Some r
      | None => storage_match rest key
      end
  end.

(** [cache.put]: an entry for the same URL is replaced; a response with
    status 206 is refused. *)
Definition cache_put (key : string) (r : Response) (c : Cache) : Cache :=
  if (status r =? 206)%Z then c
  else filter (fun kv => negb (String.eqb (fst kv) key)) c ++ [(key, r)].

Definition has_cache (name : string) (st : CacheStorage) : bool :=
  existsb (fun nc => String.eqb (fst nc) name) st.

(** [caches.open]: the cache is created, last, if it is not there. *)
Definition open_cache (name : string) (st : CacheStorage) : CacheStorage :=
  if has_cache name st then st else st ++ [(name, [])].

Definition update_cache (name : string) (f : Cache -> Cache)
    (st : CacheStorage) : CacheStorage :=
  map (fun nc => if String.eqb (fst nc) name then (fst nc, f (snd nc)) else nc)
      st.

(** [caches.open(name).then(cache => cache.put(request, response))]. *)
Definition store (name key : string) (r : Response) (st : CacheStorage)
  : CacheStorage :=
  update_cache name (cache_put key r) (open_cache name st).





(** The [activate] handler. *)
Definition activate (st : CacheStorage) : CacheStorage :=
  filter (fun nc => negb (negb (String.eqb (fst nc) STATIC_CACHE)
                          && negb (String.eqb (fst nc) DYNAMIC_CACHE)))
         st.

(** The fallback picture; its SVG markup is abridged here. *)
Definition fallbackImage : Response :=
  mkResponse 200 "<svg><text>No Image</text></svg>".

(** What the page gets for a request. *)
Inductive Outcome :=
| NotIntercepted                 (* the handler returned: browser default *)
| Responded (r : Response)
| NetworkError.                  (* respondWith got a rejection or undefined *)

(** The [fetch] handler. *)
Definition onFetch (location : string) (net : Network) (req : Request)
    (st : CacheStorage) : CacheStorage * Outcome :=
  if negb (String.eqb (method req) "GET") then (st, NotIntercepted)
  else if String.eqb (mode req) "navigate" then
    match storage_match st (resolve location "/") with
    | Some r => (st, Responded r)
    | None =>
        match net (url req) with
        | Some r => (st, Responded r)
        | None =>
            match storage_match st (resolve location "/") with
            | Some r => (st, Responded r)
            | None => (st, NetworkError)
            end
        end
    end
  else if endsWith (pathname req) ".json" then
    match net (url req) with
    | Some r => (store DYNAMIC_CACHE (url req) r st, Responded r)
    | None =>
        match storage_match st (url req) with
        | Some r => (st, Responded r)
        | None => (st, NetworkError)
        end
    end
  else if String.eqb (destination req) "image" then
    match storage_match st (url req) with
    | Some r => (st, Responded r)
    | None =>
        match net (url req) with
        | Some r =>
            ((if (status r =? 200)%Z
              then store DYNAMIC_CACHE (url req) r st else st),
             Responded r)
        | None => (st, Responded fallbackImage)
        end
    end
  else
    match storage_match st (url req) with
    | Some r => (st, Responded r)
    | None =>
        match net (url req) with
        | Some r =>
            ((if (status r =? 200)%Z
                 && (String.eqb (origin req) location
                     || String.eqb (origin req) "https://cdnjs.cloudflare.com")
              then store DYNAMIC_CACHE (url req) r st else st),
             Responded r)
        | None => (st, NetworkError)
        end
    end.

(** A page of the worker's own site: a navigation to a path of the
    worker's origin. *)
Definition navigation (location path : string) : Request :=
  mkRequest (location ++ path) "GET" "navigate" "document" path location.

(** A GET for a JSON resource, as the page's own [fetch] makes it. *)
Definition jsonRequest (location path : string) : Request :=
  mkRequest (location ++ path) "GET" "cors" "" path location.


(** A network that answers every URL with status 200 and the URL as
    body, and an image request, for examples. *)
Definition siteNet : Network := fun u => Some (mkResponse 200 u).


End Worker.

(** ** Runs of the lightweight shield *)

Module ShieldRuns.
Import Browser DevShield.

(** States the shield can be in: loaded without the opt-out on a fresh
    page, and after any further event. *)
Inductive reachable : State -> Prop :=
| reach_load : forall e, optedOut e = false -> reachable (load e pristine)
| reach_step : forall ev s, reachable s -> reachable (step ev s).

(** The calls of one subscriber in a stretch of trace. *)
Definition isInvoke (cb : Callback) (o : Output) : bool :=
  match o with
  | Invoke c _ => Nat.eqb c cb
  | _ => false
  end.

Definition callsOf (cb : Callback) (out : list Output) : list Output :=
  filter (isInvoke cb) out.

(** The detail of the most recent belief-change event. *)
Definition lastChange (t : list Output) : option Detail :=
  match rev (changes t) with
  | WindowEvent _ d :: _ => Some d
  | _ => None
  end.

(** What the script has installed stays installed, the banner shows the
    belief, no listener is registered twice, and the last change event
    carries the stored belief and reason. *)
Definition Page (s : State) : Prop :=
  observing s = true /\ resizeHooked s = true /\ apiDefined s = true
  /\ hostAttached s = true
  /\ bannerShown s = open s
  /\ NoDup (listeners s)
  /\ lastChange (trace s) = Some (DChange (open s) (reason s)).

(** The pending timers: identifiers are fresh and distinct, one poll timer
    is pending and [detectTimer] names it, a pending size check is the one
    [sizeTimer] names. *)
Definition Sched (s : State) : Prop :=
  (forall p, In p (pending s) -> fst p < nextTimer s)
  /\ NoDup (map fst (pending s))
  /\ (exists id, detectTimer s = Some id /\ In (id, (800, TPoll)) (pending s))
  /\ (forall i d, In (i, (d, TPoll)) (pending s) ->
      detectTimer s = Some i /\ d = 800)
  /\ (forall i d, In (i, (d, TSizeCheck)) (pending s) ->
      sizeTimer s = Some i /\ d = 200)
  /\ (forall j, sizeTimer s = Some j ->
      j < nextTimer s /\ detectTimer s <> Some j).

(** The fields [Page] reads. *)
Definition pageView (s : State) :=
  (open s, reason s, listeners s, hostAttached s, bannerShown s,
   observing s, resizeHooked s, apiDefined s, trace s).

(** The fields [Sched] reads. *)
Definition schedView (s : State) :=
  (pending s, nextTimer s, detectTimer s, sizeTimer s).

Definition isPoll (p : nat * (nat * Task)) : bool :=
  match snd (snd p) with TPoll => true | _ => false end.

Definition isSizeCheck (p : nat * (nat * Task)) : bool :=
  match snd (snd p) with TSizeCheck => true | _ => false end.

(** [n] resize events in a row. *)
Fixpoint resizes (n : nat) (s : State) : State :=
  match n with
  | O => s
  | S n' => step Resize (resizes n' s)
  end.

End ShieldRuns.

(** * Properties of the lightweight shield *)

Module ShieldFacts.
Import Browser DevShield.

Lemma emitted_app (s s' : State) (l : list Output) :
  trace s' = trace s ++ l -> emitted s s' = l.
Proof.
  intros H. unfold emitted. rewrite H.
  rewrite skipn_app, skipn_all, Nat.sub_diag. reflexivity.
Qed.

Lemma emitted_refl (s : State) : emitted s s = [].
Proof. apply emitted_app. now rewrite app_nil_r. Qed.

Lemma dispatch_trace name d s :
  trace (dispatch name d s)
  = trace s ++ WindowEvent name d :: map (fun cb => Invoke cb d) (listeners s).
Proof. reflexivity. Qed.

Lemma dispatch_listeners name d s :
  listeners (dispatch name d s) = listeners s.
Proof. reflexivity. Qed.

(** After [setState o r], the stored belief is [o], whichever branch ran. *)
Lemma setState_open o r s : open (setState o r s) = o.
Proof.
  unfold setState.
  destruct (Bool.eqb (open s) o) eqn:E; simpl.
  - destruct (truthy r); simpl; [reflexivity | now apply eqb_prop].
  - reflexivity.
Qed.

Lemma setState_listeners o r s : listeners (setState o r s) = listeners s.
Proof.
  unfold setState.
  destruct (Bool.eqb (open s) o && negb (truthy r)); reflexivity.
Qed.

(** With a reason, [setState] always publishes. *)
Lemma setState_trace_reason o r s :
  truthy (Some r) = true ->
  trace (setState o (Some r) s)
  = trace s ++ WindowEvent "youdai:devtools-change" (DChange o r)
      :: map (fun cb => Invoke cb (DChange o r)) (listeners s).
Proof.
  intros T. unfold setState. rewrite T.
  rewrite andb_false_r. cbn [orElse]. rewrite T. reflexivity.
Qed.

(** Without one, it publishes exactly when the belief flips. *)
Lemma setState_trace_plain o r s :
  truthy r = false ->
  trace (setState o r s)
  = trace s ++
      (if Bool.eqb (open s) o then []
       else WindowEvent "youdai:devtools-change" (DChange o (reason s))
              :: map (fun cb => Invoke cb (DChange o (reason s)))
                   (listeners s)).
Proof.
  intros T. unfold setState. rewrite T, andb_true_r.
  destruct (Bool.eqb (open s) o).
  - now rewrite app_nil_r.
  - unfold orElse. rewrite T. destruct r; reflexivity.
Qed.

Lemma pollReason_truthy e : truthy (Some (pollReason e)) = true.
Proof.
  unfold pollReason, fuse, timeHeuristic, sizeHeuristic.
  destruct (ms threshold <? pause e 0)%Z; [reflexivity |].
  destruct ((160 <? Z.abs (outerWidth e - innerWidth e))
            || (160 <? Z.abs (outerHeight e - innerHeight e)))%Z;
    reflexivity.
Qed.

Lemma poll_setState e s :
  exists s1 id,
    poll e s
    = set_detectTimer (Some id)
        (snd (setTimeout 800 TPoll
                (setState (decided e) (Some (pollReason e)) s1)))
    /\ trace s1 = trace s /\ listeners s1 = listeners s
    /\ open s1 = open s.
Proof.
  exists (clearTimeout (detectTimer s) s).
  exists (nextTimer (setState (decided e) (Some (pollReason e))
                       (clearTimeout (detectTimer s) s))).
  split.
  - unfold poll, decided, pollReason. destruct (fuse e); reflexivity.
  - destruct (detectTimer s); repeat split; reflexivity.
Qed.

Lemma poll_open e s : open (poll e s) = decided e.
Proof.
  destruct (poll_setState e s) as (s1 & id & -> & _).
  cbn. apply setState_open.
Qed.

Lemma poll_listeners e s : listeners (poll e s) = listeners s.
Proof.
  destruct (poll_setState e s) as (s1 & id & -> & _ & L & _).
  cbn. now rewrite setState_listeners.
Qed.

Lemma poll_trace e s :
  trace (poll e s)
  = trace s
      ++ WindowEvent "youdai:devtools-change"
           (DChange (decided e) (pollReason e))
      :: map (fun cb => Invoke cb (DChange (decided e) (pollReason e)))
           (listeners s).
Proof.
  destruct (poll_setState e s) as (s1 & id & -> & T & L & _).
  cbn. rewrite setState_trace_reason by apply pollReason_truthy.
  now rewrite T, L.
Qed.

Lemma changes_app a b : changes (a ++ b) = changes a ++ changes b.
Proof. apply filter_app. Qed.

Lemma changes_invokes (d : Detail) (l : list Callback) :
  changes (map (fun cb => Invoke cb d) l) = [].
Proof. induction l; simpl; auto. Qed.

Lemma polls_snoc es e s : polls (es ++ [e]) s = poll e (polls es s).
Proof. unfold polls. now rewrite fold_left_app. Qed.

Lemma polls_changes es s :
  List.length (changes (trace (polls es s)))
  = List.length (changes (trace s)) + List.length es.
Proof.
  revert s. induction es as [|e es IH]; intros s; simpl.
  - lia.
  - change (fold_left (fun s e => poll e s) es (poll e s))
      with (polls es (poll e s)).
    rewrite IH, poll_trace, changes_app. simpl.
    rewrite changes_invokes, length_app. simpl. lia.
Qed.

End ShieldFacts.

(** * Properties of the aggressive variant *)

Module EnhancedFacts.
Import Browser Enhanced Coherence.

Lemma Evolves_refl s : Evolves s s.
Proof. unfold Evolves; tauto. Qed.

Lemma Evolves_trans s1 s2 s3 : Evolves s1 s2 -> Evolves s2 s3 -> Evolves s1 s3.
Proof. unfold Evolves; tauto. Qed.

Lemma Good_refl s : Good s s.
Proof. split; [apply Evolves_refl | unfold Stays; tauto]. Qed.

Lemma Good_trans s1 s2 s3 : Good s1 s2 -> Good s2 s3 -> Good s1 s3.
Proof.
  intros [E1 S1] [E2 S2]. split.
  - eapply Evolves_trans; eassumption.
  - unfold Stays in *; tauto.
Qed.

Lemma Good_Evolves s s' : Good s s' -> Evolves s s'.
Proof. now intros [E _]. Qed.

(** A handler that only changes the timers, or not even those. *)
Lemma Good_timers s s' :
  core s' = core s -> (Delays (timeouts s) -> Delays (timeouts s')) ->
  Good s s'.
Proof.
  unfold core. intros C T.
  injection C as E1 E2 E3 E4 E5 E6 E7 E8 E9.
  unfold Good, Evolves, Stays, Coherent.
  rewrite E1, E2, E3, E4, E5, E6, E7, E8, E9. tauto.
Qed.

Lemma Good_same s s' :
  core s' = core s -> timeouts s' = timeouts s -> Good s s'.
Proof. intros C T. apply Good_timers; [exact C | now rewrite T]. Qed.

Lemma Delays_app l1 l2 : Delays l1 -> Delays l2 -> Delays (l1 ++ l2).
Proof. unfold Delays. intros. apply Forall_app. now split. Qed.

Lemma Delays_drop i l : Delays l -> Delays (firstn i l ++ skipn (S i) l).
Proof.
  unfold Delays. revert i.
  induction l as [|p l IH]; intros i D.
  - destruct i; constructor.
  - inversion D; subst. destruct i; simpl.
    + assumption.
    + constructor; [assumption | now apply IH].
Qed.

Lemma Delays_overlay n : Delays (repeat (100, TShowOverlay) n).
Proof.
  unfold Delays. apply Forall_forall. intros p H.
  apply repeat_spec in H. subst p. discriminate.
Qed.

Lemma setTimeout_good d t s :
  (t = TCheckClosed -> d = 1000) -> Good s (setTimeout d t s).
Proof.
  intros H. apply Good_timers; [reflexivity |]. simpl. intros D.
  apply Delays_app; [assumption |]. repeat constructor. exact H.
Qed.

Lemma dropTimeout_good i s : Good s (dropTimeout i s).
Proof.
  apply Good_timers; [reflexivity |]. simpl. apply Delays_drop.
Qed.

Lemma removeOverlay_good s : Good s (removeOverlay s).
Proof.
  unfold removeOverlay. destruct (overlay s); [| apply Good_refl].
  apply Good_timers; [reflexivity |]. simpl. intros D.
  apply Delays_app; [assumption | apply Delays_overlay].
Qed.

Lemma showOverlay_good s : Good s (showEnhancedProtectionOverlay s).
Proof.
  unfold showEnhancedProtectionOverlay.
  destruct (overlay s); [apply Good_refl | now apply Good_same].
Qed.

Lemma startConsoleFlood_good s : Good s (startConsoleFlood s).
Proof.
  unfold startConsoleFlood.
  destruct (consoleFloodInterval s); [apply Good_refl | now apply Good_same].
Qed.

Lemma stopConsoleFlood_good s : Good s (stopConsoleFlood s).
Proof.
  unfold stopConsoleFlood.
  destruct (consoleFloodInterval s); [now apply Good_same | apply Good_refl].
Qed.

Lemma handle_good s : Good s (handleDevToolsDetected s).
Proof.
  unfold handleDevToolsDetected.
  destruct (isDevToolsOpen s) eqn:O; [apply Good_refl |].
  unfold Good, Evolves, Stays, Coherent, activateProtection,
    blockNetworkRequests, startConsoleFlood, applyVisualLock,
    showEnhancedProtectionOverlay.
  rewrite O. cbn.
  destruct (protectionActive s) eqn:P; cbn;
    destruct (consoleFloodInterval s); cbn;
    destruct (overlay s); cbn; rewrite ?O, ?P;
    intuition (try congruence).
Qed.

Lemma restore_evolves s :
  Evolves s
    (restoreNetworkRequests
       (set_protectionClasses false
          (set_isDevToolsOpen false (set_protectionActive false s)))).
Proof.
  unfold Evolves, Coherent, restoreNetworkRequests. cbn.
  split.
  - intros (P & F & X & Wo & Wc). rewrite F; cbn. rewrite X; cbn.
    intuition (try congruence).
  - destruct (originalFetch s); cbn; destruct (originalXHR s); cbn; tauto.
Qed.

Lemma deactivate_evolves s : Evolves s (deactivateProtection s).
Proof.
  unfold deactivateProtection.
  eapply Evolves_trans; [| apply Good_Evolves, removeOverlay_good].
  eapply Evolves_trans; [| apply Good_Evolves, stopConsoleFlood_good].
  eapply Evolves_trans; [apply restore_evolves |].
  apply Good_Evolves. now apply Good_same.
Qed.

Lemma consoleLog_good o s : Good s (fst (consoleLog o s)).
Proof.
  unfold consoleLog.
  destruct (consoleWrapped s && protectionActive s); cbn;
    [apply handle_good | apply Good_refl].
Qed.

Lemma consoleMethod_fst e s :
  fst (consoleMethod e s) = fst (consoleLog (logged e 0) s).
Proof. unfold consoleMethod. now destruct (consoleLog (logged e 0) s). Qed.

Lemma detectMultiple_good e s : Good s (detectDevToolsMultipleMethods e s).
Proof.
  unfold detectDevToolsMultipleMethods. rewrite consoleMethod_fst.
  destruct (2 <=? detectionCount e s)%nat.
  - eapply Good_trans; [apply consoleLog_good | apply handle_good].
  - apply consoleLog_good.
Qed.

Lemma coercionProbes_good n : forall i e s d,
  Good s (fst (coercionProbes n i e s d)).
Proof.
  induction n as [|n IH]; intros i e s d; cbn.
  - apply Good_refl.
  - pose proof (consoleLog_good (logged e i) s) as G.
    destruct (consoleLog (logged e i) s) as [s1 o]. cbn in G.
    destruct o.
    + eapply Good_trans; [exact G | apply IH].
    + eapply Good_trans; [exact G | apply IH].
    + exact G.
Qed.

Lemma consoleImproved_good e s : Good s (detectByConsoleImproved e s).
Proof.
  unfold detectByConsoleImproved.
  pose proof (coercionProbes_good 3 0 e s false) as G.
  destruct (coercionProbes 3 0 e s false) as [s1 [d|]]; cbn in G.
  - destruct (d && negb (isDevToolsOpen s1)); [| exact G].
    eapply Good_trans; [exact G | apply handle_good].
  - destruct (negb (isDevToolsOpen s1)); [| exact G].
    eapply Good_trans; [exact G | apply handle_good].
Qed.

Lemma checkIfReallyClosed_good s : Good s (checkIfReallyClosed s).
Proof. apply setTimeout_good. reflexivity. Qed.

Lemma windowSize_good e s : Good s (detectByWindowSize e s).
Proof.
  unfold detectByWindowSize.
  destruct (suspiciousSize e && negb (isDevToolsOpen s)).
  - apply setTimeout_good. discriminate.
  - destruct (isDevToolsOpen s && looksClosed e).
    + apply checkIfReallyClosed_good.
    + apply Good_refl.
Qed.

Lemma elementManipulation_good s : Good s (detectByElementManipulation s).
Proof.
  unfold detectByElementManipulation.
  eapply Good_trans; [| apply setTimeout_good; discriminate].
  now apply Good_same.
Qed.

Lemma elementCheck_good e s : Good s (elementCheck e s).
Proof.
  unfold elementCheck. cbv zeta.
  match goal with
  | |- Good _ (set_detectors _ ?x) => apply Good_trans with (s2 := x)
  end; [| now apply Good_same].
  destruct (computedPosition e) as [v|]; [| apply handle_good].
  destruct (String.eqb v "absolute"); [apply Good_refl | apply handle_good].
Qed.

Lemma byMultiple_good e s : Good s (detectByMultipleMethods e s).
Proof.
  unfold detectByMultipleMethods.
  eapply Good_trans; [apply consoleImproved_good |].
  eapply Good_trans; [apply windowSize_good |].
  apply elementManipulation_good.
Qed.

Lemma confirmClosed_evolves e s : Evolves s (confirmClosed e s).
Proof.
  unfold confirmClosed.
  pose proof (Good_Evolves _ _ (consoleLog_good (logged e 0) s)) as G.
  destruct (2 <=? closedCount e s)%nat; [| exact G].
  eapply Evolves_trans; [exact G | apply deactivate_evolves].
Qed.

Lemma blockKeyEvent_good k s : Good s (blockKeyEvent k s).
Proof.
  unfold blockKeyEvent.
  destruct (blockedKey k); [apply handle_good | apply Good_refl].
Qed.

Lemma blockMouseDown_good m s : Good s (blockMouseDown m s).
Proof.
  unfold blockMouseDown.
  destruct ((button m =? 2) || (button m =? 1))%Z; [apply handle_good |].
  destruct ((mouseCtrl m || mouseMeta m) && (button m =? 0)%Z);
    [| apply Good_refl].
  destruct (negb (isInteractive (target m)));
    [apply handle_good | apply Good_refl].
Qed.

Lemma setup_good s : Good s (setupAdvancedProtection s).
Proof.
  unfold Good, Evolves, Stays, Coherent. cbn.
  intuition auto.
Qed.

Lemma guarded_handle_good (b : bool) s :
  Good s (if b then handleDevToolsDetected s else s).
Proof. destruct b; [apply handle_good | apply Good_refl]. Qed.

Lemma globalsMonitor_good e s : Good s (globalsMonitor e s).
Proof.
  unfold globalsMonitor. generalize suspiciousProps as props.
  intros props. revert s.
  induction props as [|p props IH]; intros s; cbn.
  - apply Good_refl.
  - eapply Good_trans; [apply guarded_handle_good | apply IH].
Qed.

Lemma floodTick_good s : Good s (floodTick s).
Proof.
  unfold floodTick, wrappedConsole.
  destruct (negb (protectionActive s)); [apply stopConsoleFlood_good |].
  destruct (consoleWrapped s); [| apply Good_refl].
  apply guarded_handle_good.
Qed.

Lemma runRepeating_good r e s : Good s (runRepeating r e s).
Proof.
  destruct r; cbn;
    [apply byMultiple_good | apply globalsMonitor_good | apply floodTick_good].
Qed.

(** Every one-shot callback but the confirmation pass. *)
Lemma runTask_good t e s : t <> TCheckClosed -> Good s (runTask t e s).
Proof.
  destruct t; cbn; intros N;
    [apply consoleImproved_good | congruence | apply elementCheck_good
    | apply showOverlay_good | apply detectMultiple_good
    | apply windowSize_good].
Qed.

Lemma runTask_evolves t e s : Evolves s (runTask t e s).
Proof.
  destruct t; try (apply Good_Evolves, runTask_good; discriminate).
  apply confirmClosed_evolves.
Qed.

Lemma Task_eq_dec (a b : Task) : {a = b} + {a <> b}.
Proof. decide equality. Qed.

Lemma step_good ev s : confirms ev s = false -> Good s (step ev s).
Proof.
  destruct ev; cbn; intros C.
  - destruct (ticking r s); [apply runRepeating_good | apply Good_refl].
  - destruct (nth_error (timeouts s) i) as [[d t]|]; [| apply Good_refl].
    eapply Good_trans; [apply dropTimeout_good |].
    apply runTask_good. intros ->. discriminate.
  - destruct (hooked HKeyDown s);
      [apply blockKeyEvent_good | apply Good_refl].
  - destruct (hooked HContextMenu s); [apply handle_good | apply Good_refl].
  - destruct (hooked HMouseDown s);
      [apply blockMouseDown_good | apply Good_refl].
  - destruct (hooked HResize s); [| apply Good_refl].
    apply setTimeout_good; discriminate.
  - destruct (hooked HBlur s); [| apply Good_refl].
    apply setTimeout_good; discriminate.
  - destruct (hooked HFocus s); [| apply Good_refl].
    apply setTimeout_good; discriminate.
  - destruct (hooked HVisibility s && negb hidden); [| apply Good_refl].
    apply setTimeout_good; discriminate.
  - destruct (hooked HContentLoaded s); [| apply Good_refl].
    eapply Good_trans; [| apply setup_good]. now apply Good_same.
  - destruct (domObserver s); [| apply Good_refl].
    apply guarded_handle_good.
  - apply removeOverlay_good.
  - destruct (consoleWrapped s); [| apply Good_refl].
    apply guarded_handle_good.
  - apply handle_good.
Qed.

Lemma step_evolves ev s : Evolves s (step ev s).
Proof.
  destruct (confirms ev s) eqn:C; [| now apply Good_Evolves, step_good].
  destruct ev; try discriminate. cbn in *.
  destruct (nth_error (timeouts s) i) as [[d t]|]; [| discriminate].
  eapply Evolves_trans; [apply Good_Evolves, dropTimeout_good |].
  apply runTask_evolves.
Qed.

Lemma run_evolves evs : forall s, Evolves s (run evs s).
Proof.
  induction evs as [|ev evs IH]; intros s; cbn.
  - apply Evolves_refl.
  - eapply Evolves_trans; [apply step_evolves | apply IH].
Qed.

Lemma disableAll_good s : Good s (disableAllDevToolsAccess s).
Proof. now apply Good_same. Qed.

Lemma startAggressive_good s : Good s (startAggressiveDetection s).
Proof. now apply Good_same. Qed.

Lemma addEventListener_good h s : Good s (addEventListener h s).
Proof. now apply Good_same. Qed.

Lemma initImmediate_good e s : Good s (initImmediateDetection e s).
Proof.
  unfold initImmediateDetection. cbv zeta.
  eapply Good_trans; [apply detectMultiple_good |].
  eapply Good_trans; [apply disableAll_good |].
  eapply Good_trans; [apply startAggressive_good |].
  destruct (readyLoading e); [apply addEventListener_good | apply setup_good].
Qed.

(** Nothing in the constructor reads the query string. *)
Lemma detectionCount_ignores_search q e s :
  detectionCount (with_search q e) s = detectionCount e s.
Proof. reflexivity. Qed.

Lemma detectMultiple_ignores_search q e s :
  detectDevToolsMultipleMethods (with_search q e) s
  = detectDevToolsMultipleMethods e s.
Proof.
  unfold detectDevToolsMultipleMethods.
  now rewrite detectionCount_ignores_search.
Qed.

Lemma load_ignores_search q e s : load (with_search q e) s = load e s.
Proof.
  unfold load, construct, initImmediateDetection. cbv zeta.
  rewrite detectMultiple_ignores_search.
  change (readyLoading (with_search q e)) with (readyLoading e).
  reflexivity.
Qed.

Lemma intercept_coherent s :
  isDevToolsOpen s = false -> protectionActive s = false ->
  windowFetch s = BuiltinFetch -> xhrOpen s = BuiltinOpen ->
  webSocketBlocked s = false ->
  Coherent (interceptNetworkRequests s).
Proof.
  intros O P F X W. unfold Coherent, interceptNetworkRequests. cbn.
  rewrite O, P, F, X, W. intuition congruence.
Qed.

Lemma load_coherent e :
  Coherent (load e pristine) /\ Delays (timeouts (load e pristine)).
Proof.
  unfold load, construct. cbv zeta.
  match goal with
  | |- context [initImmediateDetection e ?x] =>
      pose proof (initImmediate_good e x) as [(C & _ & _ & _ & D) _];
      pose proof (setTimeout_good 500 TDetectMultiple
                    (initImmediateDetection e x))
        as [(C' & _ & _ & _ & D') _]; [discriminate |]
  end.
  split.
  - apply C', C. now apply intercept_coherent.
  - apply D', D. constructor.
Qed.

Lemma reachable_coherent s :
  reachable s -> Coherent s /\ Delays (timeouts s).
Proof.
  induction 1 as [e | ev s R [C D]].
  - apply load_coherent.
  - destruct (step_evolves ev s) as (HC & _ & _ & _ & HD). auto.
Qed.

(** Belief leaves Open only when a confirmation pass fires and counts at
    least two confirmations. *)
Lemma step_closing ev s :
  isDevToolsOpen s = true -> isDevToolsOpen (step ev s) = false ->
  exists i e d,
    ev = Timeout i e
    /\ nth_error (timeouts s) i = Some (d, TCheckClosed)
    /\ (2 <= closedCount e (dropTimeout i s))%nat.
Proof.
  intros O Cl.
  destruct (confirms ev s) eqn:C.
  - destruct ev; try discriminate. cbn in C, Cl.
    destruct (nth_error (timeouts s) i) as [[d t]|] eqn:N; [| discriminate].
    destruct t; try discriminate.
    exists i, e, d. split; [reflexivity | split; [exact N |]].
    cbn in Cl. unfold confirmClosed in Cl.
    destruct (2 <=? closedCount e (dropTimeout i s))%nat eqn:Q.
    + now apply Nat.leb_le.
    + destruct (consoleLog_good (logged e 0) (dropTimeout i s)) as [_ St].
      rewrite St in Cl; [discriminate | exact O].
  - destruct (step_good ev s C) as [_ St]. rewrite St in Cl; congruence.
Qed.

End EnhancedFacts.


(** * Claims about the lightweight shield *)

Module ShieldClaims.
Import Browser DevShield ShieldFacts Scenario.

Lemma Block_delivers ls out name d cb :
  Block ls out -> In (WindowEvent name d) out -> In cb ls ->
  In (Invoke cb d) out.
Proof.
  intros [-> | (n & d' & ->)] W C; [contradiction |].
  destruct W as [W | W].
  - injection W as _ ->. right. apply in_map_iff. now exists cb.
  - apply in_map_iff in W. destruct W as (c & W & _). discriminate.
Qed.

Lemma setState_block o r s :
  exists out,
    trace (setState o r s) = trace s ++ out /\ Block (listeners s) out.
Proof.
  destruct (truthy r) eqn:T.
  - destruct r as [r|]; [| discriminate].
    rewrite setState_trace_reason by exact T.
    eexists; split; [reflexivity |]. right. eauto.
  - rewrite setState_trace_plain by exact T.
    eexists; split; [reflexivity |].
    destruct (Bool.eqb (open s) o); [now left | right; eauto].
Qed.

Lemma dispatch_block name d s :
  exists out,
    trace (dispatch name d s) = trace s ++ out /\ Block (listeners s) out.
Proof. eexists; split; [apply dispatch_trace | right; eauto]. Qed.

Lemma silent_block s s' :
  trace s' = trace s ->
  exists out, trace s' = trace s ++ out /\ Block (listeners s) out.
Proof. intros ->. exists []. split; [now rewrite app_nil_r | now left]. Qed.

Lemma step_block ev s :
  exists out,
    trace (step ev s) = trace s ++ out /\ Block (listeners s) out.
Proof.
  destruct ev; cbn [step].
  - destruct (lookupTimer id s) as [[d t]|]; [| now apply silent_block].
    destruct t; cbn [runTask].
    + rewrite poll_trace. eexists; split; [reflexivity | right; eauto].
    + apply (setState_block _ _ (clearTimeout (Some id) s)).
    + unfold logProbe. destruct (logged e 0); try now apply silent_block.
      apply (setState_block _ _
               (set_consoleProbeOpen true (clearTimeout (Some id) s))).
  - destruct (resizeHooked s); [| now apply silent_block].
    apply silent_block. unfold sizeWatcher. now destruct (sizeTimer s).
  - destruct (apiDefined s); [| now apply silent_block].
    apply (setState_block _ _ (set_consoleProbeOpen true s)).
  - destruct (observing s); [| now apply silent_block].
    apply (dispatch_block _ _ (set_hostAttached true (set_hostAttached false s))).
  - destruct (observing s); [| now apply silent_block].
    unfold hostObserver. destruct (hostAttached s);
      [now apply silent_block |].
    apply (dispatch_block _ _ (set_hostAttached true s)).
  - destruct (apiDefined s); [| now apply silent_block].
    destruct o; cbn; try now apply silent_block.
    apply dispatch_block.
  - destruct (apiDefined s); [| now apply silent_block].
    apply silent_block. unfold onChange.
    now destruct (existsb (Nat.eqb cb) (listeners s)).
  - destruct (apiDefined s); now apply silent_block.
  - destruct (apiDefined s); now apply silent_block.
  - destruct (apiDefined s); now apply silent_block.
Qed.

Lemma polls_extends es : forall s,
  exists out, trace (polls es s) = trace s ++ out
              /\ List.length (changes out) = List.length es.
Proof.
  induction es as [|e es IH]; intros s.
  - exists []. cbn. now rewrite app_nil_r.
  - destruct (IH (poll e s)) as (out & T & L).
    change (polls (e :: es) s) with (polls es (poll e s)).
    rewrite T, poll_trace, <- app_assoc.
    eexists; split; [reflexivity |].
    rewrite changes_app. cbn [changes filter isChange app String.eqb].
    cbn. rewrite changes_invokes. cbn. now rewrite L.
Qed.

(** C1 (as stated) fails: a poll tick whose decision equals the stored
    belief still publishes a change event.  On a quiet page the shield
    starts Closed, the next tick decides Closed again, and a
    [youdai:devtools-change] event goes out all the same. *)
Lemma poll_republishes_unchanged_belief :
  ~ (forall e s,
        changes (emitted s (poll e s)) <> [] <-> open (poll e s) <> open s).
Proof.
  intros H. destruct (H quiet (load quiet pristine)) as [H1 _].
  assert (A : changes (emitted (load quiet pristine)
                         (poll quiet (load quiet pristine))) <> [])
    by (vm_compute; discriminate).
  assert (B : open (poll quiet (load quiet pristine))
              = open (load quiet pristine))
    by (vm_compute; reflexivity).
  exact (H1 A B).
Qed.

(** C1 (amended): after any sequence of poll ticks the stored [open] value
    is the decision of the last tick; every tick publishes exactly one
    change event carrying that decision and its reason, whether or not the
    decision differs from the previous belief; [setState] stays silent
    only when the value is unchanged and no reason is given.  In the
    aggressive variant a detection while belief is already Open changes
    nothing. *)
Theorem poll_stores_decision_and_always_publishes
    (es : list Env) (e : Env) (s : State) (o : bool) (r : option string)
    (a : Enhanced.State) :
  open (polls (es ++ [e]) s) = decided e
  /\ changes (emitted (polls es s) (polls (es ++ [e]) s))
     = [WindowEvent "youdai:devtools-change"
          (DChange (decided e) (pollReason e))]
  /\ List.length (changes (emitted s (polls es s))) = List.length es
  /\ (emitted s (setState o r s) = [] <-> open s = o /\ truthy r = false)
  /\ (Enhanced.isDevToolsOpen a = true ->
      Enhanced.handleDevToolsDetected a = a).
Proof.
  rewrite polls_snoc.
  split; [apply poll_open |].
  split.
  { erewrite emitted_app by apply poll_trace.
    cbn. now rewrite changes_invokes. }
  split.
  { destruct (polls_extends es s) as (out & T & L).
    now rewrite (emitted_app _ _ _ T). }
  split.
  - destruct (truthy r) eqn:T.
    + destruct r as [r|]; [| discriminate].
      erewrite emitted_app by (apply setState_trace_reason; exact T).
      split; [discriminate | intros [_ F]; discriminate].
    + erewrite emitted_app by (apply setState_trace_plain; exact T).
      destruct (Bool.eqb (open s) o) eqn:E.
      * apply eqb_prop in E. tauto.
      * apply eqb_false_iff in E. split; [discriminate | tauto].
  - intros O. unfold Enhanced.handleDevToolsDetected. now rewrite O.
Qed.

Lemma poll_stores_decision_witness :
  open (polls ([quiet] ++ [slowDebugger]) shielded) = true
  /\ changes (emitted (polls [quiet] shielded)
                (polls ([quiet] ++ [slowDebugger]) shielded))
     = [WindowEvent "youdai:devtools-change"
          (DChange true "debugger-timing(210ms)")]
  /\ Enhanced.handleDevToolsDetected detected = detected.
Proof.
  destruct (poll_stores_decision_and_always_publishes
              [quiet] slowDebugger shielded false None detected)
    as (A & B & _ & _ & C).
  split; [exact A | split; [exact B | apply C; reflexivity]].
Defined.

(** C9: every callback registered through [onChange] is called by
    [dispatch] for every event the shield emits, with that event's
    detail: belief changes, both tamper events (whose detail is
    [{type, detail}]) and the ready event (whose detail is undefined). *)
Theorem dispatch_reaches_every_subscriber (s : State) (cb : Callback) :
  In cb (listeners s) ->
  (forall name d, In (Invoke cb d) (emitted s (dispatch name d s)))
  /\ (forall ev name d,
        In (WindowEvent name d) (emitted s (step ev s)) ->
        In (Invoke cb d) (emitted s (step ev s)))
  /\ (hostAttached s = false ->
      In (Invoke cb (DTamper "overlay-removed" None))
         (emitted s (hostObserver s)))
  /\ (forall err,
        In (Invoke cb (DTamper "integrity-check-failed" (Some err)))
           (emitted s (integrityDone (Failed err) s)))
  /\ In (Invoke cb DUndefined)
        (emitted s (dispatch "youdai:shield-ready" DUndefined s))
  /\ (forall e s0, optedOut e = false ->
        exists s1, load e s0 = dispatch "youdai:shield-ready" DUndefined s1)
  /\ (forall s0, In cb (listeners (onChange cb s0))).
Proof.
  intros L.
  assert (D : forall name d, In (Invoke cb d) (emitted s (dispatch name d s))).
  { intros name d. erewrite emitted_app by apply dispatch_trace.
    right. apply in_map_iff. now exists cb. }
  split; [exact D |].
  split.
  { intros ev name d W.
    destruct (step_block ev s) as (out & T & B).
    rewrite (emitted_app _ _ _ T) in *.
    now apply (Block_delivers (listeners s) out name d cb). }
  split.
  { intros H. unfold hostObserver. rewrite H.
    erewrite emitted_app
      by apply (dispatch_trace _ _ (set_hostAttached true s)).
    right. apply in_map_iff. now exists cb. }
  split; [intros err; apply D |].
  split; [apply D |].
  split.
  { intros e s0 O. unfold load. rewrite O. eexists. reflexivity. }
  intros s0. unfold onChange.
  destruct (existsb (Nat.eqb cb) (listeners s0)) eqn:E.
  - apply existsb_exists in E. destruct E as (c & I & E).
    apply Nat.eqb_eq in E. now subst c.
  - cbn. apply in_or_app. right. now left.
Qed.

Lemma dispatch_reaches_every_subscriber_witness :
  In 7 (listeners shielded)
  /\ In (Invoke 7 (DTamper "overlay-removed" None))
        (emitted shielded (step DetachHost shielded))
  /\ In (Invoke 7 DUndefined)
        (emitted shielded (dispatch "youdai:shield-ready" DUndefined shielded)).
Proof.
  assert (L : In 7 (listeners shielded)) by (vm_compute; auto).
  destruct (dispatch_reaches_every_subscriber shielded 7 L)
    as (_ & S & _ & _ & R & _).
  split; [exact L |]. split; [| exact R].
  apply (S DetachHost "youdai:tamper"). vm_compute. auto.
Defined.

End ShieldClaims.

(** * Claims about the aggressive variant *)

Module EnhancedClaims.
Import Browser Enhanced Coherence EnhancedFacts Scenario.

(** While Closed in a coherent state, the wrapped console passes a probe's
    call through. *)
Lemma consoleLog_closed o s :
  Coherent s -> isDevToolsOpen s = false -> consoleLog o s = (s, o).
Proof.
  intros (P & _) O. unfold consoleLog. rewrite P, O.
  now rewrite andb_false_r.
Qed.

Lemma handle_opens s : isDevToolsOpen (handleDevToolsDetected s) = true.
Proof.
  unfold handleDevToolsDetected. destruct (isDevToolsOpen s) eqn:O.
  - exact O.
  - unfold showEnhancedProtectionOverlay, activateProtection,
      blockNetworkRequests, startConsoleFlood, applyVisualLock. cbn.
    destruct (protectionActive s); cbn;
      destruct (consoleFloodInterval s); cbn;
      destruct (overlay s); reflexivity.
Qed.

Lemma deactivate_closes s : isDevToolsOpen (deactivateProtection s) = false.
Proof.
  unfold deactivateProtection, removeOverlay, stopConsoleFlood,
    clearVisualLock, restoreNetworkRequests. cbn.
  destruct (originalFetch s); cbn; destruct (originalXHR s); cbn;
    destruct (consoleFloodInterval s); cbn;
    destruct (overlay s); reflexivity.
Qed.

Lemma reachable_scenario :
  reachable loaded /\ reachable detected /\ reachable confirming
  /\ reachable closedAgain.
Proof.
  assert (R0 : reachable loaded) by apply reach_load.
  assert (R1 : reachable detected) by (apply reach_step, R0).
  assert (R2 : reachable confirming) by (apply reach_step, R1).
  assert (R3 : reachable closedAgain) by (apply reach_step, R2).
  auto.
Defined.

(** C2: once belief is Open, no re-evaluation tick closes it, whatever
    the probes report; [checkIfReallyClosed] only registers the
    confirmation pass with a delay of 1000 ms; belief leaves Open only
    when such a pass fires, and only if at least two of its three checks
    (both gaps under 100 px, console probe not coerced, debugger pause
    under 50 ms) confirm. *)
Theorem closing_needs_the_confirmation_pass
    (s : State) (ev : Event) (e : Env) :
  reachable s -> isDevToolsOpen s = true ->
  isDevToolsOpen (detectByMultipleMethods e s) = true
  /\ isDevToolsOpen (step (Tick RDetect e) s) = true
  /\ (isDevToolsOpen (checkIfReallyClosed s) = true
      /\ timeouts (checkIfReallyClosed s)
         = timeouts s ++ [(1000, TCheckClosed)])
  /\ (isDevToolsOpen (step ev s) = false ->
      exists i e',
        ev = Timeout i e'
        /\ nth_error (timeouts s) i = Some (1000, TCheckClosed)
        /\ (2 <= closedCount e' (dropTimeout i s))%nat)
  /\ closedCount e s
     = (b2n ((outerHeight e - innerHeight e <? 100)%Z
             && (outerWidth e - innerWidth e <? 100)%Z)
        + b2n (match snd (consoleLog (logged e 0) s) with
               | Accessed => false
               | _ => true
               end)
        + b2n (pause e 0 <? ms 50)%Z)%nat
  /\ (isDevToolsOpen (confirmClosed e s) = false
      <-> (2 <= closedCount e s)%nat).
Proof.
  intros R O.
  split; [now apply (proj2 (byMultiple_good e s)) |].
  split.
  { now apply (proj2 (step_good (Tick RDetect e) s eq_refl)). }
  split; [split; [exact O | reflexivity] |].
  split.
  { intros Cl. destruct (step_closing ev s O Cl) as (i & e' & d & E & N & Q).
    exists i, e'. split; [exact E |]. split; [| exact Q].
    destruct (reachable_coherent s R) as [_ D].
    unfold Delays in D. rewrite Forall_forall in D.
    apply nth_error_In in N as I. specialize (D _ I eq_refl).
    cbn in D. now subst d. }
  split.
  { unfold closedCount.
    destruct (snd (consoleLog (logged e 0) s)); reflexivity. }
  unfold confirmClosed.
  destruct (2 <=? closedCount e s)%nat eqn:Q.
  - apply Nat.leb_le in Q. split; [tauto |]. intros _.
    apply deactivate_closes.
  - apply Nat.leb_gt in Q.
    rewrite (proj2 (consoleLog_good (logged e 0) s) O).
    split; [discriminate | lia].
Qed.

Lemma closing_needs_the_confirmation_pass_witness :
  reachable confirming /\ isDevToolsOpen confirming = true
  /\ isDevToolsOpen (step (Tick RDetect quiet) confirming) = true
  /\ isDevToolsOpen (step (Timeout 1 quiet) confirming) = false
  /\ (exists i e',
        Timeout 1 quiet = Timeout i e'
        /\ nth_error (timeouts confirming) i = Some (1000, TCheckClosed)
        /\ (2 <= closedCount e' (dropTimeout i confirming))%nat).
Proof.
  destruct reachable_scenario as (_ & _ & R & _).
  assert (O : isDevToolsOpen confirming = true) by reflexivity.
  destruct (closing_needs_the_confirmation_pass
              confirming (Timeout 1 quiet) quiet R O)
    as (_ & T & _ & C & _).
  assert (Cl : isDevToolsOpen (step (Timeout 1 quiet) confirming) = false)
    by reflexivity.
  split; [exact R |]. split; [exact O |]. split; [exact T |].
  split; [exact Cl | exact (C Cl)].
Defined.

(** C3: while belief is Open, a request through [window.fetch] is
    rejected and one through [xhr.open] throws; a request through a
    reference to the intercepting wrappers gets the made-up 403, or
    returns without calling the original; none of them reaches the
    browser's own function.  When a step takes belief back to Closed,
    the next [fetch] and [xhr.open] run the browser's own function on
    exactly the caller's arguments and change nothing else. *)
Theorem network_gating (s : State) (ev : Event) (args : list Value) :
  reachable s -> isDevToolsOpen s = true ->
  (fetch args s = (s, RejectedPromise blockedMessage)
   /\ xhr_open args s = (s, OpenThrew blockedMessage)
   /\ callFetch InterceptingFetch args s = (s, Forbidden403)
   /\ callOpen InterceptingOpen args s = (s, OpenIgnored))
  /\ (isDevToolsOpen (step ev s) = false ->
      fetch args (step ev s) = (step ev s, Transport args)
      /\ xhr_open args (step ev s) = (step ev s, OpenTransport args)).
Proof.
  intros R O.
  destruct (reachable_coherent s R) as [C _].
  destruct C as (P & F & X & Wo & Wc).
  destruct (Wo O) as (WF & WX & WB).
  split.
  - unfold fetch, xhr_open, callFetch, callOpen. rewrite WF, WX, O. auto.
  - intros Cl.
    destruct (reachable_coherent _ (reach_step ev s R)) as [C' _].
    destruct C' as (_ & _ & _ & _ & Wc').
    destruct (step_evolves ev s) as (_ & M & _).
    destruct (Wc' Cl) as (_ & _ & B). destruct (B (M WB)) as (BF & BX).
    unfold fetch, xhr_open. now rewrite BF, BX.
Qed.

Lemma network_gating_witness :
  reachable confirming /\ isDevToolsOpen confirming = true
  /\ fetch [VString "/videos.json"] confirming
     = (confirming, RejectedPromise blockedMessage)
  /\ fetch [VString "/videos.json"] closedAgain
     = (closedAgain, Transport [VString "/videos.json"])
  /\ xhr_open [VString "GET"; VString "/videos.json"] closedAgain
     = (closedAgain, OpenTransport [VString "GET"; VString "/videos.json"]).
Proof.
  destruct reachable_scenario as (_ & _ & R & _).
  assert (O : isDevToolsOpen confirming = true) by reflexivity.
  assert (Cl : isDevToolsOpen (step (Timeout 1 quiet) confirming) = false)
    by reflexivity.
  split; [exact R |]. split; [exact O |].
  destruct (network_gating confirming (Timeout 1 quiet)
              [VString "/videos.json"] R O) as ((A & _) & B).
  destruct (network_gating confirming (Timeout 1 quiet)
              [VString "GET"; VString "/videos.json"] R O) as (_ & B').
  split; [exact A |].
  split; [exact (proj1 (B Cl)) | exact (proj2 (B' Cl))].
Defined.

Lemma detectMultiple_closed e s :
  Coherent s -> isDevToolsOpen s = false ->
  isDevToolsOpen (detectDevToolsMultipleMethods e s)
  = (2 <=? detectionCount e s)%nat.
Proof.
  intros C O. unfold detectDevToolsMultipleMethods.
  rewrite consoleMethod_fst, (consoleLog_closed _ _ C O). cbn [fst].
  destruct (2 <=? detectionCount e s)%nat; [apply handle_opens | exact O].
Qed.

(** Any of the three coercion probes being touched, or throwing, opens. *)
Lemma consoleImproved_opens e s :
  Coherent s -> isDevToolsOpen s = false ->
  logged e 0 <> Quiet \/ logged e 1 <> Quiet \/ logged e 2 <> Quiet ->
  isDevToolsOpen (detectByConsoleImproved e s) = true.
Proof.
  intros C O H. unfold detectByConsoleImproved. cbn [coercionProbes].
  rewrite !(consoleLog_closed _ _ C O).
  destruct (logged e 0), (logged e 1), (logged e 2);
    cbn; rewrite ?O; cbn; try apply handle_opens;
    destruct H as [H | [H | H]]; congruence.
Qed.

(** C6 (as stated) fails for the 200 ms re-evaluation: on a freshly loaded
    page believed Closed, a tick in which only the console probe triggers
    (the counting pass would count 1 on the same snapshot) flips belief
    to Open. *)
Lemma tick_opens_on_console_probe_alone :
  isDevToolsOpen loaded = false
  /\ detectionCount consoleOnly loaded = 1
  /\ suspiciousSize consoleOnly = false
  /\ isDevToolsOpen (step (Tick RDetect consoleOnly) loaded) = true.
Proof. vm_compute. auto. Qed.

(** C6 (amended): in the counting pass [detectDevToolsMultipleMethods]
    (run at load, after blur and focus, on becoming visible and in the
    final check) a count of exactly one leaves belief Closed and a count
    of two or more flips it to Open; the 200 ms tick does not count: its
    console probe alone flips belief to Open. *)
Theorem quorum_of_two_in_counting_pass (e : Env) (s : State) :
  reachable s -> isDevToolsOpen s = false ->
  (detectionCount e s = 1 ->
   isDevToolsOpen (detectDevToolsMultipleMethods e s) = false)
  /\ (2 <= detectionCount e s ->
      isDevToolsOpen (detectDevToolsMultipleMethods e s) = true)
  /\ (logged e 0 <> Quiet \/ logged e 1 <> Quiet \/ logged e 2 <> Quiet ->
      isDevToolsOpen (detectByMultipleMethods e s) = true).
Proof.
  intros R O. destruct (reachable_coherent s R) as [C _].
  rewrite (detectMultiple_closed e s C O).
  split; [intros ->; reflexivity |].
  split; [intros Q; now apply Nat.leb_le |].
  intros H. unfold detectByMultipleMethods.
  apply (proj2 (elementManipulation_good _)).
  apply (proj2 (windowSize_good e _)).
  now apply consoleImproved_opens.
Qed.

Lemma quorum_of_two_in_counting_pass_witness :
  reachable loaded /\ isDevToolsOpen loaded = false
  /\ isDevToolsOpen (detectDevToolsMultipleMethods consoleOnly loaded) = false
  /\ isDevToolsOpen (detectDevToolsMultipleMethods twoSignals loaded) = true
  /\ isDevToolsOpen (detectByMultipleMethods consoleOnly loaded) = true.
Proof.
  destruct reachable_scenario as (R & _).
  assert (O : isDevToolsOpen loaded = false) by reflexivity.
  destruct (quorum_of_two_in_counting_pass consoleOnly loaded R O)
    as (A & _ & T).
  destruct (quorum_of_two_in_counting_pass twoSignals loaded R O)
    as (_ & B & _).
  split; [exact R |]. split; [exact O |].
  split; [apply A; reflexivity |].
  split; [apply B; vm_compute; lia |].
  apply T. left. discriminate.
Defined.

(** C8, evaluated where the code breaks it.  After a detection the overlay
    is there; the confirmation pass closes belief and removes the overlay,
    but the removal wakes the overlay's own observer, which never asks
    whether belief is still Open: 100 ms later the overlay is back while
    belief is Closed. *)
Theorem overlay_returns_after_closing :
  (isDevToolsOpen detected = true /\ overlay detected = true)
  /\ (isDevToolsOpen closedAgain = false /\ overlay closedAgain = false
      /\ nth_error (timeouts closedAgain) 2 = Some (100, TShowOverlay))
  /\ (isDevToolsOpen afterHeal = false /\ overlay afterHeal = true)
  /\ (forall s, overlay s = true -> showEnhancedProtectionOverlay s = s)
  /\ (forall s, overlay (deactivateProtection s) = false)
  /\ (forall s, overlay s = true ->
        timeouts (step OverlayTakenOut s)
        = timeouts s ++ repeat (100, TShowOverlay) (overlayObservers s)).
Proof.
  split; [vm_compute; auto |].
  split; [vm_compute; auto |].
  split; [vm_compute; auto |].
  split.
  { intros s H. unfold showEnhancedProtectionOverlay. now rewrite H. }
  split.
  { intros s. unfold deactivateProtection. cbv zeta.
    generalize (stopConsoleFlood
                  (clearVisualLock
                     (restoreNetworkRequests
                        (set_protectionClasses false
                           (set_isDevToolsOpen false
                              (set_protectionActive false s)))))).
    intros x. unfold removeOverlay.
    destruct (overlay x) eqn:E; [reflexivity | exact E]. }
  intros s H. cbn. unfold removeOverlay. now rewrite H.
Qed.

(** C10: once [setupAdvancedProtection] has run, [window.eval] and
    [window.Function] throw for all arguments, after any further events
    and in either belief state; [deactivateProtection] does not bring
    them back. *)
Theorem eval_and_Function_stay_disabled
    (s0 : State) (evs : list Event) (args : list Value) :
  let s := run evs (setupAdvancedProtection s0) in
  window_eval args s = Throws "eval() is disabled"
  /\ window_Function args s = Throws "Function constructor is disabled"
  /\ window_eval args (deactivateProtection s) = Throws "eval() is disabled"
  /\ window_Function args (deactivateProtection s)
     = Throws "Function constructor is disabled".
Proof.
  intros s.
  destruct (run_evolves evs (setupAdvancedProtection s0))
    as (_ & _ & E & F & _).
  destruct (deactivate_evolves s) as (_ & _ & E' & F' & _).
  fold s in E, F.
  specialize (E eq_refl). specialize (F eq_refl).
  unfold window_eval, window_Function.
  now rewrite E, F, (E' E), (F' F).
Qed.

End EnhancedClaims.

(** * Claims about both variants *)

Module EngineClaims.
Import Browser Coherence EnhancedFacts Scenario.

(** C4 (as stated) fails for the aggressive variant: loaded on a page
    whose URL carries [?debug=1], it still replaces [fetch], installs its
    listeners and both repeating timers, schedules the final check and
    injects its style sheet. *)
Lemma aggressive_variant_ignores_opt_out :
  searchParams_get "debug" (search debugUrl) = Some "1"
  /\ Enhanced.intervals (Enhanced.load debugUrl Enhanced.pristine)
     = [(200, Enhanced.RDetect); (1000, Enhanced.RGlobals)]
  /\ Enhanced.timeouts (Enhanced.load debugUrl Enhanced.pristine)
     = [(500, Enhanced.TDetectMultiple)]
  /\ Enhanced.hooks (Enhanced.load debugUrl Enhanced.pristine) <> []
  /\ Enhanced.cssInjected (Enhanced.load debugUrl Enhanced.pristine) = true
  /\ Enhanced.windowFetch (Enhanced.load debugUrl Enhanced.pristine)
     = Enhanced.InterceptingFetch.
Proof. vm_compute. repeat split; discriminate. Qed.

(** C4 (amended): in the lightweight variant, when the query carries
    [debug=1] the script writes one console message and returns: no timer,
    no listener, no observer, no host element, no API object, no event.
    The aggressive variant has no opt-out; it loads the same way whatever
    the query is. *)
Theorem opt_out_stops_the_lightweight_shield
    (e : Env) (s : DevShield.State)
    (q : list (string * string)) (a : Enhanced.State) :
  searchParams_get "debug" (search e) = Some "1" ->
  DevShield.load e s = DevShield.emit (DevShield.ConsoleInfo DevShield.debugNotice) s
  /\ DevShield.pending (DevShield.load e s) = DevShield.pending s
  /\ DevShield.resizeHooked (DevShield.load e s) = DevShield.resizeHooked s
  /\ DevShield.observing (DevShield.load e s) = DevShield.observing s
  /\ DevShield.hostAttached (DevShield.load e s) = DevShield.hostAttached s
  /\ DevShield.apiDefined (DevShield.load e s) = DevShield.apiDefined s
  /\ DevShield.trace (DevShield.load e s)
     = DevShield.trace s ++ [DevShield.ConsoleInfo DevShield.debugNotice]
  /\ Enhanced.load (with_search q e) a = Enhanced.load e a.
Proof.
  intros H.
  assert (L : DevShield.load e s
              = DevShield.emit (DevShield.ConsoleInfo DevShield.debugNotice) s).
  { unfold DevShield.load, DevShield.optedOut. now rewrite H. }
  rewrite L. do 7 (split; [reflexivity |]). apply load_ignores_search.
Qed.

Lemma opt_out_stops_the_lightweight_shield_witness :
  searchParams_get "debug" (search debugUrl) = Some "1"
  /\ DevShield.load debugUrl DevShield.pristine
     = DevShield.emit (DevShield.ConsoleInfo DevShield.debugNotice)
         DevShield.pristine
  /\ DevShield.pending (DevShield.load debugUrl DevShield.pristine) = [].
Proof.
  assert (H : searchParams_get "debug" (search debugUrl) = Some "1")
    by reflexivity.
  destruct (opt_out_stops_the_lightweight_shield
              debugUrl DevShield.pristine [] Enhanced.pristine H)
    as (A & B & _).
  split; [exact H |]. split; [exact A | exact B].
Defined.

(** C5 (as stated) fails in both variants.  Aggressive: on a quiet page,
    where the counting pass counts 0, a single F12 key press flips belief
    to Open.  Lightweight: with neither heuristic reporting anything, the
    console touching the probe object flips belief to Open. *)
Lemma input_and_console_paths_bypass_fusion :
  (Enhanced.isDevToolsOpen loaded = false
   /\ Enhanced.detectionCount quiet loaded = 0
   /\ Enhanced.isDevToolsOpen (Enhanced.step (Enhanced.KeyDown f12) loaded)
      = true)
  /\ (DevShield.open (DevShield.load quiet DevShield.pristine) = false
      /\ DevShield.fuse quiet = None
      /\ DevShield.open
           (DevShield.step DevShield.ConsoleCoercion
              (DevShield.load quiet DevShield.pristine)) = true).
Proof. vm_compute. auto 10. Qed.

(** C5 (amended): only the polling passes decide through fusion: the
    lightweight poll tick stores the OR of its two heuristics, and the
    aggressive counting pass opens exactly when its count reaches two.
    The other paths set belief from one signal: in the lightweight
    variant the console-coercion callback always stores Open and the
    resize check stores the viewport heuristic alone; in the aggressive
    variant a blocked key, the context menu, a middle or right mouse
    button and a touched console probe each open belief directly. *)
Theorem only_the_polling_passes_fuse
    (e : Env) (s : DevShield.State) (a : Enhanced.State)
    (k : Enhanced.KeyEv) (m : Enhanced.MouseEv) :
  Enhanced.reachable a -> Enhanced.isDevToolsOpen a = false ->
  DevShield.open (DevShield.poll e s) = DevShield.decided e
  /\ Enhanced.isDevToolsOpen (Enhanced.detectDevToolsMultipleMethods e a)
     = (2 <=? Enhanced.detectionCount e a)%nat
  /\ DevShield.open (DevShield.consoleProbe_toString s) = true
  /\ DevShield.open (DevShield.sizeCheck e s)
     = (match DevShield.sizeHeuristic e with Some _ => true | None => false end)
  /\ (Enhanced.blockedKey k = true ->
      Enhanced.isDevToolsOpen (Enhanced.blockKeyEvent k a) = true)
  /\ Enhanced.isDevToolsOpen (Enhanced.blockContextMenu a) = true
  /\ (Enhanced.button m = 1%Z \/ Enhanced.button m = 2%Z ->
      Enhanced.isDevToolsOpen (Enhanced.blockMouseDown m a) = true)
  /\ (logged e 0 = Accessed ->
      Enhanced.isDevToolsOpen (Enhanced.detectByConsoleImproved e a) = true).
Proof.
  intros R O. destruct (reachable_coherent a R) as [C _].
  split; [apply ShieldFacts.poll_open |].
  split; [now apply EnhancedClaims.detectMultiple_closed |].
  split; [apply ShieldFacts.setState_open |].
  split; [apply ShieldFacts.setState_open |].
  split.
  { intros B. unfold Enhanced.blockKeyEvent. rewrite B.
    apply EnhancedClaims.handle_opens. }
  split; [apply EnhancedClaims.handle_opens |].
  split.
  { intros B. unfold Enhanced.blockMouseDown.
    replace ((Enhanced.button m =? 2) || (Enhanced.button m =? 1))%Z
      with true; [apply EnhancedClaims.handle_opens |].
    destruct B as [-> | ->]; reflexivity. }
  intros L. apply EnhancedClaims.consoleImproved_opens; auto.
  left. rewrite L. discriminate.
Qed.

Lemma only_the_polling_passes_fuse_witness :
  Enhanced.reachable loaded /\ Enhanced.isDevToolsOpen loaded = false
  /\ Enhanced.isDevToolsOpen (Enhanced.blockKeyEvent f12 loaded) = true
  /\ Enhanced.isDevToolsOpen
       (Enhanced.detectDevToolsMultipleMethods quiet loaded) = false
  /\ Enhanced.isDevToolsOpen
       (Enhanced.detectByConsoleImproved consoleOnly loaded) = true.
Proof.
  destruct EnhancedClaims.reachable_scenario as (R & _).
  assert (O : Enhanced.isDevToolsOpen loaded = false) by reflexivity.
  destruct (only_the_polling_passes_fuse
              quiet (DevShield.load quiet DevShield.pristine) loaded f12
              (Enhanced.mkMouse 2 false false
                 (Enhanced.mkTarget "DIV" false false false false false
                    false false false)) R O)
    as (_ & D & _ & _ & K & _).
  destruct (only_the_polling_passes_fuse
              consoleOnly (DevShield.load quiet DevShield.pristine) loaded f12
              (Enhanced.mkMouse 2 false false
                 (Enhanced.mkTarget "DIV" false false false false false
                    false false false)) R O)
    as (_ & _ & _ & _ & _ & _ & _ & L).
  split; [exact R |]. split; [exact O |].
  split; [apply K; reflexivity |].
  split; [exact D | apply L; reflexivity].
Defined.




End EngineClaims.

(** * Further properties of the lightweight shield *)

Module ShieldExtras.
Import Browser DevShield ShieldRuns ShieldFacts ShieldClaims Scenario.

(** Frames: what [setState] and [dispatch] leave alone. *)
Lemma dispatch_sched name d s : schedView (dispatch name d s) = schedView s.
Proof. reflexivity. Qed.

Lemma setState_sched o r s : schedView (setState o r s) = schedView s.
Proof.
  unfold setState.
  destruct (Bool.eqb (open s) o && negb (truthy r)); reflexivity.
Qed.

Lemma Sched_view s s' : schedView s' = schedView s -> Sched s -> Sched s'.
Proof.
  unfold schedView, Sched. intros V.
  injection V as E1 E2 E3 E4. now rewrite E1, E2, E3, E4.
Qed.

Lemma Page_view s s' : pageView s' = pageView s -> Page s -> Page s'.
Proof.
  unfold pageView, Page. intros V.
  injection V as E1 E2 E3 E4 E5 E6 E7 E8 E9.
  now rewrite E1, E2, E3, E4, E5, E6, E7, E8, E9.
Qed.

Lemma lastChange_app_change t d out :
  changes out = [] ->
  lastChange (t ++ WindowEvent "youdai:devtools-change" d :: out) = Some d.
Proof.
  intros H. unfold lastChange. rewrite changes_app.
  change (changes (WindowEvent "youdai:devtools-change" d :: out))
    with (WindowEvent "youdai:devtools-change" d :: changes out).
  rewrite H, rev_app_distr. reflexivity.
Qed.

Lemma lastChange_app_other t out :
  changes out = [] -> lastChange (t ++ out) = lastChange t.
Proof.
  intros H. unfold lastChange. now rewrite changes_app, H, app_nil_r.
Qed.

Lemma setState_page o r s : Page s -> Page (setState o r s).
Proof.
  intros (O & R & A & H & B & N & L). unfold setState.
  destruct (Bool.eqb (open s) o && negb (truthy r)) eqn:G.
  - repeat split; assumption.
  - unfold Page, dispatch, setGlobalBlur, showBanner. cbn.
    repeat split; try assumption.
    apply lastChange_app_change, changes_invokes.
Qed.

Lemma dispatch_page name d s :
  String.eqb name "youdai:devtools-change" = false ->
  Page s -> Page (dispatch name d s).
Proof.
  intros E (O & R & A & H & B & N & L). unfold Page, dispatch. cbn.
  repeat split; try assumption.
  rewrite <- L. apply lastChange_app_other.
  change (changes (WindowEvent name d
                     :: map (fun cb => Invoke cb d) (listeners s)))
    with (if String.eqb name "youdai:devtools-change"
          then WindowEvent name d
                 :: changes (map (fun cb => Invoke cb d) (listeners s))
          else changes (map (fun cb => Invoke cb d) (listeners s))).
  rewrite E. apply changes_invokes.
Qed.


(** [clearTimeout] takes entries out and touches nothing else. *)
Lemma clearTimeout_pending_In id s p :
  In p (pending (clearTimeout id s)) -> In p (pending s).
Proof.
  destruct id as [i|]; cbn; [| auto].
  intros H. now apply filter_In in H.
Qed.

Lemma clearTimeout_keeps i s p :
  In p (pending s) -> fst p <> i -> In p (pending (clearTimeout (Some i) s)).
Proof.
  intros H N. cbn. apply filter_In. split; [exact H |].
  apply negb_true_iff, Nat.eqb_neq. exact N.
Qed.

Lemma clearTimeout_gone i s p :
  In p (pending (clearTimeout (Some i) s)) -> fst p <> i.
Proof.
  cbn. intros H. apply filter_In in H. destruct H as [_ H].
  now apply negb_true_iff, Nat.eqb_neq in H.
Qed.

Lemma clearTimeout_rest id s :
  nextTimer (clearTimeout id s) = nextTimer s
  /\ detectTimer (clearTimeout id s) = detectTimer s
  /\ sizeTimer (clearTimeout id s) = sizeTimer s
  /\ pageView (clearTimeout id s) = pageView s.
Proof. destruct id; repeat split. Qed.

Lemma NoDup_fst_filter (f : nat * (nat * Task) -> bool) l :
  NoDup (map fst l) -> NoDup (map fst (filter f l)).
Proof.
  induction l as [|p l IH]; cbn; intros N; [constructor |].
  inversion N as [|x xs NI N']; subst.
  destruct (f p); cbn; [| now apply IH].
  constructor; [| now apply IH].
  intros I. apply NI. apply in_map_iff in I.
  destruct I as (q & E & I). apply filter_In in I.
  apply in_map_iff. exists q. tauto.
Qed.

Lemma NoDup_fst_unique l (i : nat) (a b : nat * Task) :
  NoDup (map fst l) -> In (i, a) l -> In (i, b) l -> a = b.
Proof.
  induction l as [|p l IH]; cbn; intros N A B; [contradiction |].
  inversion N as [|x xs NI N']; subst.
  destruct A as [A | A], B as [B | B].
  - congruence.
  - subst p. exfalso. apply NI. apply in_map_iff. now exists (i, b).
  - subst p. exfalso. apply NI. apply in_map_iff. now exists (i, a).
  - now apply IH.
Qed.

(** Removing a pending timer that is not the poll timer. *)
Lemma clearTimeout_sched i d t s :
  Sched s -> In (i, (d, t)) (pending s) -> t <> TPoll ->
  Sched (clearTimeout (Some i) s).
Proof.
  intros (A & N & (pid & DT & PI) & P & Z & F) I T.
  unfold Sched. cbn [clearTimeout nextTimer detectTimer sizeTimer set_pending].
  change (filter (fun p => negb (Nat.eqb (fst p) i)) (pending s))
    with (pending (clearTimeout (Some i) s)).
  split; [intros p H; now apply A, (clearTimeout_pending_In (Some i)) |].
  split; [apply NoDup_fst_filter, N |].
  split.
  { exists pid. split; [exact DT |].
    apply clearTimeout_keeps; [exact PI |]. cbn. intros ->.
    pose proof (NoDup_fst_unique _ _ _ _ N I PI) as E. congruence. }
  split; [intros j k H; now apply P, (clearTimeout_pending_In (Some i)) |].
  split; [intros j k H; now apply Z, (clearTimeout_pending_In (Some i)) |].
  exact F.
Qed.

(** What [poll] does to the timers, whatever it decides. *)
Lemma poll_schedView e s :
  schedView (poll e s)
  = (pending (clearTimeout (detectTimer s) s)
       ++ [(nextTimer s, (800, TPoll))],
     S (nextTimer s), Some (nextTimer s), sizeTimer s).
Proof.
  unfold poll.
  set (s1 := clearTimeout (detectTimer s) s).
  assert (V : forall o r, schedView (setState o r s1) = schedView s1)
    by (intros; apply setState_sched).
  destruct (clearTimeout_rest (detectTimer s) s) as (NT & DT & ST & _).
  fold s1 in NT, DT, ST.
  destruct (fuse e) as [sig|].
  - specialize (V true (Some (sig_reason sig))).
    unfold schedView in *. injection V as E1 E2 E3 E4.
    cbn. now rewrite E1, E2, E4, NT, ST.
  - specialize (V false (Some "poll")).
    unfold schedView in *. injection V as E1 E2 E3 E4.
    cbn. now rewrite E1, E2, E4, NT, ST.
Qed.

Lemma setState_set_pending o r v s :
  setState o r (set_pending v s) = set_pending v (setState o r s).
Proof.
  unfold setState. cbn.
  destruct (Bool.eqb (open s) o && negb (truthy r)); reflexivity.
Qed.

Lemma poll_pageView e s :
  pageView (poll e s)
  = pageView (setState (decided e) (Some (pollReason e)) s).
Proof.
  unfold poll, decided, pollReason.
  destruct (detectTimer s) as [i|]; cbn [clearTimeout];
    destruct (fuse e); rewrite ?setState_set_pending; reflexivity.
Qed.

Lemma poll_timers e s :
  pending (poll e s)
  = pending (clearTimeout (detectTimer s) s) ++ [(nextTimer s, (800, TPoll))]
  /\ nextTimer (poll e s) = S (nextTimer s)
  /\ detectTimer (poll e s) = Some (nextTimer s)
  /\ sizeTimer (poll e s) = sizeTimer s.
Proof.
  pose proof (poll_schedView e s) as V. unfold schedView in V.
  repeat split.
  - exact (f_equal (fun v => fst (fst (fst v))) V).
  - exact (f_equal (fun v => snd (fst (fst v))) V).
  - exact (f_equal (fun v => snd (fst v)) V).
  - exact (f_equal snd V).
Qed.

(** A poll run on a state in which no poll timer other than the one
    [detectTimer] names is pending leaves exactly the new one. *)
Lemma poll_sched e s :
  (forall p, In p (pending s) -> fst p < nextTimer s) ->
  NoDup (map fst (pending s)) ->
  (forall i d, In (i, (d, TPoll)) (pending s) -> detectTimer s = Some i) ->
  (forall i d, In (i, (d, TSizeCheck)) (pending s) ->
   sizeTimer s = Some i /\ d = 200) ->
  (forall j, sizeTimer s = Some j -> j < nextTimer s) ->
  Sched (poll e s).
Proof.
  intros A N P Z F.
  destruct (poll_timers e s) as (E1 & E2 & E3 & E4).
  unfold Sched. rewrite E1, E2, E3, E4.
  assert (Old : forall p, In p (pending (clearTimeout (detectTimer s) s)) ->
                          In p (pending s))
    by (intros p; apply clearTimeout_pending_In).
  split.
  { intros p H. apply in_app_or in H. destruct H as [H | [<- | []]].
    - apply Old, A in H. lia.
    - cbn. lia. }
  split.
  { rewrite map_app. apply NoDup_app.
    - destruct (detectTimer s); [apply NoDup_fst_filter, N | exact N].
    - cbn. constructor; [tauto | constructor].
    - intros a H [<- | []]. apply in_map_iff in H.
      destruct H as (p & E & H). apply Old, A in H. cbn in *. lia. }
  split.
  { exists (nextTimer s). split; [reflexivity |].
    apply in_or_app. right. now left. }
  split.
  { intros i d H. apply in_app_or in H. destruct H as [H | [H | []]].
    - exfalso. pose proof (P i d (Old _ H)) as D. rewrite D in H.
      now apply clearTimeout_gone in H.
    - injection H as <- <-. auto. }
  split.
  { intros i d H. apply in_app_or in H. destruct H as [H | [H | []]].
    - now apply Z, Old.
    - discriminate. }
  intros j H. apply F in H as L. split; [lia |].
  intros D. injection D as D. lia.
Qed.

Lemma setTimeout_sched_other d t s :
  Sched s -> t = TLogProbe -> Sched (snd (setTimeout d t s)).
Proof.
  intros (A & N & (pid & DT & PI) & P & Z & F) ->. unfold Sched. cbn.
  split.
  { intros p H. apply in_app_or in H. destruct H as [H | [<- | []]].
    - apply A in H. lia.
    - cbn. lia. }
  split.
  { rewrite map_app. apply NoDup_app; [exact N | |].
    - cbn. constructor; [tauto | constructor].
    - intros a H [<- | []]. apply in_map_iff in H.
      destruct H as (p & E & H). apply A in H. cbn in *. lia. }
  split.
  { exists pid. split; [exact DT | apply in_or_app; now left]. }
  split.
  { intros i k H. apply in_app_or in H. destruct H as [H | [H | []]].
    - now apply P. - discriminate. }
  split.
  { intros i k H. apply in_app_or in H. destruct H as [H | [H | []]].
    - now apply Z. - discriminate. }
  intros j H. apply F in H. destruct H. split; [lia | assumption].
Qed.

Lemma sizeWatcher_sched s : Sched s -> Sched (sizeWatcher s).
Proof.
  intros (A & N & (pid & DT & PI) & P & Z & F).
  unfold sizeWatcher, Sched.
  destruct (clearTimeout_rest (sizeTimer s) s) as (NT & DT' & ST & _).
  cbn. rewrite NT, DT'.
  assert (Old : forall p, In p (pending (clearTimeout (sizeTimer s) s)) ->
                          In p (pending s))
    by (intros p; apply clearTimeout_pending_In).
  split.
  { intros p H. apply in_app_or in H. destruct H as [H | [<- | []]].
    - apply Old, A in H. lia.
    - cbn. lia. }
  split.
  { rewrite map_app. apply NoDup_app.
    - destruct (sizeTimer s); [apply NoDup_fst_filter, N | exact N].
    - cbn. constructor; [tauto | constructor].
    - intros a H [<- | []]. apply in_map_iff in H.
      destruct H as (p & E & H). apply Old, A in H. cbn in *. lia. }
  split.
  { exists pid. split; [exact DT |]. apply in_or_app. left.
    destruct (sizeTimer s) as [j|] eqn:S; [| exact PI].
    apply clearTimeout_keeps; [exact PI |]. cbn. intros ->.
    destruct (F j eq_refl) as [_ D]. now apply D. }
  split.
  { intros i d H. apply in_app_or in H. destruct H as [H | [H | []]].
    - now apply P, Old. - discriminate. }
  split.
  { intros i d H. apply in_app_or in H. destruct H as [H | [H | []]].
    - exfalso. destruct (Z i d (Old _ H)) as [S _]. rewrite S in H.
      now apply clearTimeout_gone in H.
    - injection H as <- <-. auto. }
  intros j H. injection H as <-. split; [lia |].
  rewrite DT. intros D. injection D as ->. apply A in PI. cbn in PI. lia.
Qed.


Lemma lookupTimer_In id s d t :
  lookupTimer id s = Some (d, t) -> In (id, (d, t)) (pending s).
Proof.
  unfold lookupTimer.
  destruct (find (fun p => Nat.eqb (fst p) id) (pending s)) as [p|] eqn:F;
    [| discriminate].
  apply find_some in F. destruct F as [I E]. apply Nat.eqb_eq in E.
  intros H. injection H as H. destruct p as [i x]. cbn in *. now subst.
Qed.

Lemma sizeWatcher_pageView s : pageView (sizeWatcher s) = pageView s.
Proof. unfold sizeWatcher. destruct (sizeTimer s); reflexivity. Qed.

Lemma onChange_NoDup cb s :
  NoDup (listeners s) -> NoDup (listeners (onChange cb s)).
Proof.
  intros N. unfold onChange.
  destruct (existsb (Nat.eqb cb) (listeners s)) eqn:E; [exact N |].
  cbn. apply NoDup_app; [exact N | constructor; [tauto | constructor] |].
  intros a I [<- | []].
  assert (X : existsb (Nat.eqb cb) (listeners s) = true)
    by (apply existsb_exists; exists cb; split; [exact I | apply Nat.eqb_refl]).
  congruence.
Qed.

(** Every event keeps both invariants. *)
Lemma step_wf ev s : Page s -> Sched s -> Page (step ev s) /\ Sched (step ev s).
Proof.
  intros P Z.
  pose proof P as (O & R & A & H & B & N & L).
  destruct ev; cbn [step]; rewrite ?O, ?R, ?A.
  - destruct (lookupTimer id s) as [[d t]|] eqn:F; [| auto].
    apply lookupTimer_In in F.
    destruct (clearTimeout_rest (Some id) s) as (NT & DT & ST & PV).
    assert (P1 : Page (clearTimeout (Some id) s)) by now apply (Page_view s).
    destruct t; cbn [runTask].
    + split.
      * apply (Page_view (setState (decided e) (Some (pollReason e))
                            (clearTimeout (Some id) s)));
          [apply poll_pageView | now apply setState_page].
      * destruct Z as (ZA & ZN & _ & ZP & ZZ & ZF).
        apply poll_sched.
        -- intros p I. rewrite NT.
           now apply ZA, (clearTimeout_pending_In (Some id)).
        -- apply NoDup_fst_filter, ZN.
        -- intros i k I. rewrite DT.
           now apply (ZP i k), (clearTimeout_pending_In (Some id)).
        -- intros i k I. rewrite ST.
           now apply ZZ, (clearTimeout_pending_In (Some id)).
        -- intros j I. rewrite NT. rewrite ST in I. now apply ZF.
    + split; [now apply setState_page |].
      eapply Sched_view; [apply setState_sched |].
      eapply clearTimeout_sched; eauto. discriminate.
    + assert (Z1 : Sched (clearTimeout (Some id) s))
        by (eapply clearTimeout_sched; eauto; discriminate).
      unfold logProbe. destruct (logged e 0); auto.
      split.
      * apply setState_page. now apply (Page_view (clearTimeout (Some id) s)).
      * eapply Sched_view; [apply setState_sched |].
        now apply (Sched_view (clearTimeout (Some id) s)).
  - split; [| now apply sizeWatcher_sched].
    eapply Page_view; [apply sizeWatcher_pageView | exact P].
  - split.
    + apply setState_page. now apply (Page_view s).
    + eapply Sched_view; [apply setState_sched |]. now apply (Sched_view s).
  - split.
    + apply dispatch_page; [reflexivity |].
      unfold Page. cbn. repeat split; try assumption.
    + now apply (Sched_view s).
  - unfold hostObserver. rewrite H. auto.
  - destruct o; cbn [integrityDone]; auto.
    split; [now apply dispatch_page | now apply (Sched_view s)].
  - split.
    + pose proof (onChange_NoDup cb s N) as N'.
      unfold onChange in *.
      destruct (existsb (Nat.eqb cb) (listeners s)); [exact P |].
      unfold Page. cbn. repeat split; try assumption.
    + unfold onChange.
      destruct (existsb (Nat.eqb cb) (listeners s)); [exact Z |].
      now apply (Sched_view s).
  - split; [| now apply (Sched_view s)].
    unfold Page. cbn. repeat split; try assumption.
    now apply NoDup_filter.
  - split; [now apply (Page_view s) | now apply (Sched_view s)].
  - split; [now apply (Page_view s) | now apply (Sched_view s)].
Qed.

(** With a reason, [setState] establishes the banner and last-event
    parts of [Page] by itself. *)
Lemma setState_reason_page o r s :
  truthy (Some r) = true ->
  observing s = true -> resizeHooked s = true -> apiDefined s = true ->
  hostAttached s = true -> NoDup (listeners s) ->
  Page (setState o (Some r) s).
Proof.
  intros T O R A H N. unfold setState, orElse. rewrite T, andb_false_r.
  unfold Page, dispatch, setGlobalBlur, showBanner. cbn.
  repeat split; try assumption.
  apply lastChange_app_change, changes_invokes.
Qed.

Lemma load_wf e :
  optedOut e = false ->
  Page (load e pristine) /\ Sched (load e pristine).
Proof.
  intros O. unfold load. rewrite O. cbv zeta.
  set (s0 := set_resizeHooked true _).
  assert (P0 : Page (setState (decided e) (Some (pollReason e)) s0)).
  { apply setState_reason_page; try reflexivity.
    - apply pollReason_truthy.
    - constructor. }
  assert (Z0 : Sched (poll e s0)).
  { apply poll_sched; cbn; try tauto; try constructor; discriminate. }
  split.
  - apply dispatch_page; [reflexivity |].
    apply (Page_view (poll e s0)); [reflexivity |].
    eapply Page_view; [apply poll_pageView | exact P0].
  - eapply Sched_view; [apply dispatch_sched |].
    now apply setTimeout_sched_other.
Qed.

Lemma reachable_wf s : reachable s -> Page s /\ Sched s.
Proof.
  induction 1 as [e O | ev s R [P Z]].
  - now apply load_wf.
  - now apply step_wf.
Qed.


Lemma filter_single (f : nat * (nat * Task) -> bool) l x :
  NoDup (map fst l) -> In x l -> f x = true ->
  (forall y, In y l -> f y = true -> y = x) ->
  filter f l = [x].
Proof.
  induction l as [|a l IH]; cbn; intros N I F U; [contradiction |].
  inversion N as [|k ks NI N']; subst.
  assert (Rest : forall y, In y l -> f y = true -> y = x) by auto.
  destruct I as [-> | I].
  - rewrite F. f_equal.
    destruct (filter f l) as [|y ys] eqn:E; [reflexivity |].
    assert (Y : In y (filter f l)) by (rewrite E; now left).
    apply filter_In in Y. destruct Y as [Y FY].
    rewrite (Rest y Y FY) in Y. exfalso. apply NI. now apply in_map.
  - destruct (f a) eqn:FA.
    + rewrite (U a (or_introl eq_refl) FA) in NI.
      exfalso. apply NI. now apply in_map.
    + now apply IH.
Qed.

Lemma callsOf_invokes cb d ls :
  NoDup ls -> In cb ls ->
  callsOf cb (map (fun c => Invoke c d) ls) = [Invoke cb d].
Proof.
  induction ls as [|a ls IH]; cbn; intros N I; [contradiction |].
  inversion N as [|k ks NI N']; subst.
  destruct (Nat.eqb a cb) eqn:E.
  - apply Nat.eqb_eq in E. subst a. f_equal.
    clear IH I N. induction ls as [|b ls IH]; cbn; [reflexivity |].
    destruct (Nat.eqb b cb) eqn:B.
    + apply Nat.eqb_eq in B. subst b. exfalso. apply NI. now left.
    + apply IH.
      * intros H. apply NI. now right.
      * now inversion N'.
  - apply Nat.eqb_neq in E. destruct I as [I | I]; [congruence |].
    now apply IH.
Qed.

Lemma step_listeners ev s c :
  In c (listeners (step ev s)) -> In c (listeners s) \/ ev = Subscribe c.
Proof.
  destruct ev; cbn [step]; auto.
  - destruct (lookupTimer id s) as [[d t]|]; auto.
    destruct t; cbn [runTask].
    + rewrite poll_listeners. auto.
    + unfold sizeCheck. rewrite setState_listeners. auto.
    + unfold logProbe. destruct (logged e 0); auto.
      unfold consoleProbe_toString. rewrite setState_listeners. auto.
  - destruct (resizeHooked s); auto.
    unfold sizeWatcher. destruct (sizeTimer s); auto.
  - destruct (apiDefined s); auto.
    unfold consoleProbe_toString. rewrite setState_listeners. auto.
  - destruct (observing s); auto.
  - destruct (observing s); auto.
    unfold hostObserver. destruct (hostAttached s); auto.
  - destruct (apiDefined s); auto. destruct o; auto.
  - destruct (apiDefined s); auto. unfold onChange.
    destruct (existsb (Nat.eqb cb) (listeners s)); auto.
    cbn. intros H. apply in_app_or in H.
    destruct H as [H | [<- | []]]; auto.
  - destruct (apiDefined s); auto. cbn. intros H.
    apply filter_In in H. tauto.
  - destruct (apiDefined s); auto.
  - destruct (apiDefined s); auto.
Qed.

Lemma Block_calls ls out cb d :
  Block ls out -> In (Invoke cb d) out -> In cb ls.
Proof.
  intros [-> | (n & d' & ->)] H; [contradiction |].
  destruct H as [H | H]; [discriminate |].
  apply in_map_iff in H. destruct H as (c & E & I). now injection E as <- _.
Qed.

(** After [unsubscribe cb], no event calls [cb] again until it is
    subscribed anew. *)
Lemma run_never_calls cb evs : forall s,
  ~ In cb (listeners s) ->
  Forall (fun ev => ev <> Subscribe cb) evs ->
  exists out, trace (run evs s) = trace s ++ out
              /\ forall d, ~ In (Invoke cb d) out.
Proof.
  induction evs as [|ev evs IH]; intros s N F.
  - exists []. cbn. split; [now rewrite app_nil_r | auto].
  - inversion F as [|x xs F1 F2]; subst.
    destruct (step_block ev s) as (o1 & T1 & B1).
    assert (N' : ~ In cb (listeners (step ev s))).
    { intros H. apply step_listeners in H. destruct H; auto. }
    destruct (IH (step ev s) N' F2) as (o2 & T2 & C2).
    exists (o1 ++ o2). split.
    + change (run (ev :: evs) s) with (run evs (step ev s)).
      now rewrite T2, T1, app_assoc.
    + intros d H. apply in_app_or in H. destruct H as [H | H].
      * apply N. eapply Block_calls; eauto.
      * now apply (C2 d).
Qed.


Lemma reachable_shielded : reachable shielded.
Proof. apply reach_step, reach_load. reflexivity. Defined.

Lemma poll_eq e s :
  poll e s
  = set_detectTimer
      (Some (nextTimer (setState (decided e) (Some (pollReason e))
                          (clearTimeout (detectTimer s) s))))
      (snd (setTimeout 800 TPoll
              (setState (decided e) (Some (pollReason e))
                 (clearTimeout (detectTimer s) s)))).
Proof. unfold poll, decided, pollReason. destruct (fuse e); reflexivity. Qed.

Lemma setState_badge o r s : badgeHidden (setState o r s) = badgeHidden s.
Proof.
  unfold setState.
  destruct (Bool.eqb (open s) o && negb (truthy r)); reflexivity.
Qed.

Lemma setState_shows o r s :
  truthy (Some r) = true ->
  bannerShown (setState o (Some r) s) = o
  /\ blurGlobal (setState o (Some r) s) = o.
Proof. intros T. unfold setState. rewrite T, andb_false_r. now split. Qed.

Lemma poll_badge e s : badgeHidden (poll e s) = badgeHidden s.
Proof.
  rewrite poll_eq.
  change (badgeHidden (set_detectTimer ?a (snd (setTimeout ?d ?t ?x))))
    with (badgeHidden x).
  rewrite setState_badge. now destruct (detectTimer s).
Qed.

Lemma poll_shows e s :
  bannerShown (poll e s) = decided e /\ blurGlobal (poll e s) = decided e.
Proof.
  rewrite poll_eq.
  change (bannerShown (set_detectTimer ?a (snd (setTimeout ?d ?t ?x))))
    with (bannerShown x).
  change (blurGlobal (set_detectTimer ?a (snd (setTimeout ?d ?t ?x))))
    with (blurGlobal x).
  apply setState_shows, pollReason_truthy.
Qed.

Lemma step_badge ev s :
  (forall show, ev <> Watermark show) ->
  badgeHidden (step ev s) = badgeHidden s.
Proof.
  intros W. destruct ev; cbn [step].
  - destruct (lookupTimer id s) as [[d t]|]; [| reflexivity].
    destruct t; cbn [runTask].
    + now rewrite poll_badge.
    + unfold sizeCheck. now rewrite setState_badge.
    + unfold logProbe, consoleProbe_toString.
      destruct (logged e 0); try reflexivity. now rewrite setState_badge.
  - destruct (resizeHooked s); [| reflexivity].
    unfold sizeWatcher. now destruct (sizeTimer s).
  - destruct (apiDefined s); [| reflexivity].
    unfold consoleProbe_toString. now rewrite setState_badge.
  - now destruct (observing s).
  - destruct (observing s); [| reflexivity].
    unfold hostObserver. now destruct (hostAttached s).
  - destruct (apiDefined s); [| reflexivity]. now destruct o.
  - destruct (apiDefined s); [| reflexivity]. unfold onChange.
    now destruct (existsb (Nat.eqb cb) (listeners s)).
  - now destruct (apiDefined s).
  - exfalso. now apply (W show).
  - now destruct (apiDefined s).
Qed.

(** X1.  The function returned by [onChange] takes that callback out:
    until it is subscribed again no event calls it, while every other
    subscriber stays registered and is still called for every event. *)
Theorem unsubscribed_callback_is_never_called
    (cb : Callback) (s : State) (evs : list Event) (d : Detail) :
  Forall (fun ev => ev <> Subscribe cb) evs ->
  ~ In (Invoke cb d)
       (emitted (unsubscribe cb s) (run evs (unsubscribe cb s)))
  /\ (forall c, c <> cb -> In c (listeners s) ->
      In c (listeners (unsubscribe cb s))
      /\ forall ev name d',
          In (WindowEvent name d')
             (emitted (unsubscribe cb s) (step ev (unsubscribe cb s))) ->
          In (Invoke c d')
             (emitted (unsubscribe cb s) (step ev (unsubscribe cb s)))).
Proof.
  intros F.
  assert (N : ~ In cb (listeners (unsubscribe cb s))).
  { cbn. intros H. apply filter_In in H. destruct H as [_ H].
    now rewrite Nat.eqb_refl in H. }
  split.
  - destruct (run_never_calls cb evs _ N F) as (out & T & C).
    rewrite (emitted_app _ _ _ T). apply C.
  - intros c NE I.
    assert (I' : In c (listeners (unsubscribe cb s))).
    { cbn. apply filter_In. split; [exact I |].
      now apply negb_true_iff, Nat.eqb_neq. }
    split; [exact I' |].
    intros ev name d' W.
    destruct (step_block ev (unsubscribe cb s)) as (out & T & B).
    rewrite (emitted_app _ _ _ T) in *.
    eapply Block_delivers; eauto.
Qed.

Lemma unsubscribed_callback_is_never_called_witness :
  Forall (fun ev => ev <> Subscribe 7) [DetachHost; Fire 0 slowDebugger]
  /\ ~ In (Invoke 7 (DChange true "debugger-timing(210ms)"))
         (emitted (unsubscribe 7 shielded)
            (run [DetachHost; Fire 0 slowDebugger] (unsubscribe 7 shielded))).
Proof.
  assert (F : Forall (fun ev => ev <> Subscribe 7)
                [DetachHost; Fire 0 slowDebugger])
    by (repeat constructor; discriminate).
  split; [exact F |].
  exact (proj1 (unsubscribed_callback_is_never_called
                  7 shielded _ (DChange true "debugger-timing(210ms)") F)).
Defined.

(** X2.  The listener set holds each callback once: however often it was
    passed to [onChange], a subscriber is called exactly once for each
    emitted event, and subscribing it again changes nothing. *)
Theorem subscriber_called_once_per_event
    (s : State) (cb : Callback) (ev : Event) (name : string) (d : Detail) :
  reachable s -> In cb (listeners s) ->
  In (WindowEvent name d) (emitted s (step ev s)) ->
  callsOf cb (emitted s (step ev s)) = [Invoke cb d]
  /\ onChange cb s = s.
Proof.
  intros R I W. destruct (reachable_wf s R) as [(_ & _ & _ & _ & _ & N & _) _].
  split.
  - destruct (step_block ev s) as (out & T & B).
    rewrite (emitted_app _ _ _ T) in *.
    destruct B as [-> | (n & d' & ->)]; [contradiction |].
    destruct W as [W | W].
    + injection W as _ ->. cbn. now apply callsOf_invokes.
    + apply in_map_iff in W. destruct W as (c & W & _). discriminate.
  - unfold onChange.
    replace (existsb (Nat.eqb cb) (listeners s)) with true; [reflexivity |].
    symmetry. apply existsb_exists. exists cb.
    split; [exact I | apply Nat.eqb_refl].
Qed.

Lemma subscriber_called_once_per_event_witness :
  reachable shielded /\ In 7 (listeners shielded)
  /\ callsOf 7 (emitted shielded (step DetachHost shielded))
     = [Invoke 7 (DTamper "overlay-removed" None)]
  /\ onChange 7 shielded = shielded.
Proof.
  assert (I : In 7 (listeners shielded)) by (vm_compute; auto).
  assert (W : In (WindowEvent "youdai:tamper" (DTamper "overlay-removed" None))
                (emitted shielded (step DetachHost shielded)))
    by (vm_compute; auto).
  split; [exact reachable_shielded |]. split; [exact I |].
  exact (subscriber_called_once_per_event
           shielded 7 DetachHost _ _ reachable_shielded I W).
Defined.

(** X3.  The poll loop neither dies nor doubles: in every reachable state
    exactly one poll timer is pending, with the 800 ms delay, and
    [detectTimer] holds its identifier. *)
Theorem exactly_one_poll_timer (s : State) :
  reachable s ->
  exists id,
    detectTimer s = Some id
    /\ filter isPoll (pending s) = [(id, (800, TPoll))].
Proof.
  intros R.
  destruct (reachable_wf s R) as [_ (_ & N & (id & D & I) & P & _)].
  exists id. split; [exact D |].
  apply filter_single; [exact N | exact I | reflexivity |].
  intros [i [d t]] Y F. unfold isPoll in F. cbn in F.
  destruct t; try discriminate.
  destruct (P i d Y) as [E ->]. congruence.
Qed.

Lemma exactly_one_poll_timer_witness :
  reachable shielded
  /\ exists id,
       detectTimer shielded = Some id
       /\ filter isPoll (pending shielded) = [(id, (800, TPoll))].
Proof.
  split; [exact reachable_shielded |].
  exact (exactly_one_poll_timer shielded reachable_shielded).
Defined.

Lemma resizes_reachable n s : reachable s -> reachable (resizes n s).
Proof.
  intros R. induction n as [|n IH]; [exact R |].
  change (resizes (S n) s) with (step Resize (resizes n s)).
  now apply reach_step.
Qed.

Lemma resizes_pageView n s :
  reachable s -> pageView (resizes n s) = pageView s.
Proof.
  intros R. induction n as [|n IH]; [reflexivity |].
  change (resizes (S n) s) with (step Resize (resizes n s)).
  cbn [step].
  destruct (resizeHooked (resizes n s)); [| exact IH].
  now rewrite sizeWatcher_pageView.
Qed.

(** X4.  Resize events are debounced: after any burst of them exactly one
    size check is pending, the one [sizeTimer] names, with the 200 ms
    delay; the burst itself changes neither belief nor trace. *)
Theorem resize_is_debounced (s : State) (n : nat) :
  reachable s ->
  exists j,
    sizeTimer (resizes (S n) s) = Some j
    /\ filter isSizeCheck (pending (resizes (S n) s))
       = [(j, (200, TSizeCheck))]
    /\ trace (resizes (S n) s) = trace s
    /\ open (resizes (S n) s) = open s.
Proof.
  intros R.
  pose proof (resizes_reachable n s R) as Rn.
  pose proof (resizes_reachable (S n) s R) as RS.
  pose proof (resizes_pageView (S n) s R) as V.
  destruct (reachable_wf _ Rn) as [(_ & H & _) _].
  destruct (reachable_wf _ RS) as [_ (_ & N & _ & _ & Z & _)].
  revert RS V N Z.
  change (resizes (S n) s) with (step Resize (resizes n s)).
  cbn [step]. rewrite H. set (r := resizes n s).
  intros RS V N Z.
  exists (nextTimer (clearTimeout (sizeTimer r) r)).
  assert (I : In (nextTimer (clearTimeout (sizeTimer r) r), (200, TSizeCheck))
                (pending (sizeWatcher r))).
  { unfold sizeWatcher. cbn. apply in_or_app. right. now left. }
  split; [reflexivity |]. split.
  - apply filter_single; [exact N | exact I | reflexivity |].
    intros [i [d t]] Y F. unfold isSizeCheck in F. cbn in F.
    destruct t; try discriminate.
    destruct (Z i d Y) as [E ->]. cbn in E. congruence.
  - unfold pageView in V. injection V as V1 _ _ _ _ _ _ _ V9. auto.
Qed.

Lemma resize_is_debounced_witness :
  reachable shielded
  /\ exists j,
       sizeTimer (resizes 5 shielded) = Some j
       /\ filter isSizeCheck (pending (resizes 5 shielded))
          = [(j, (200, TSizeCheck))]
       /\ trace (resizes 5 shielded) = trace shielded
       /\ open (resizes 5 shielded) = open shielded.
Proof.
  split; [exact reachable_shielded |].
  exact (resize_is_debounced shielded 4 reachable_shielded).
Defined.




(** X6.  The banner shows the belief in every reachable state, and every
    poll tick sets the global blur to its decision, so that an explicit
    [blurSensitive] call lasts at most until the next tick. *)
Theorem banner_and_blur_follow_belief
    (s : State) (e : Env) (show : option bool) :
  reachable s ->
  bannerShown s = open s
  /\ blurGlobal (blurSensitive show s) = not_false show
  /\ blurGlobal (poll e (blurSensitive show s)) = decided e
  /\ bannerShown (poll e s) = open (poll e s).
Proof.
  intros R. destruct (reachable_wf s R) as [(_ & _ & _ & _ & B & _) _].
  split; [exact B |]. split; [reflexivity |].
  split; [apply poll_shows |].
  rewrite poll_open. apply poll_shows.
Qed.

Lemma banner_and_blur_follow_belief_witness :
  reachable shielded
  /\ bannerShown shielded = open shielded
  /\ blurGlobal (blurSensitive (Some false) shielded) = false
  /\ blurGlobal (poll slowDebugger (blurSensitive (Some false) shielded))
     = true.
Proof.
  destruct (banner_and_blur_follow_belief
              shielded slowDebugger (Some false) reachable_shielded)
    as (A & B & C & _).
  split; [exact reachable_shielded |].
  split; [exact A |]. split; [exact B | exact C].
Defined.

Lemma run_badge evs : forall s,
  Forall (fun ev => forall show, ev <> Watermark show) evs ->
  badgeHidden (run evs s) = badgeHidden s.
Proof.
  induction evs as [|ev evs IH]; intros s F; [reflexivity |].
  inversion F as [|x xs F1 F2]; subst.
  change (run (ev :: evs) s) with (run evs (step ev s)).
  now rewrite IH, step_badge.
Qed.

(** X7.  The badge is independent of belief: only [watermark] changes it.
    Whatever was asked for last (a missing argument shows the badge)
    stays in force through any other events, belief flips included. *)
Theorem badge_changes_only_through_watermark
    (s : State) (show : option bool) (evs : list Event) :
  Forall (fun ev => forall b, ev <> Watermark b) evs ->
  badgeHidden (run evs (watermark show s)) = negb (not_false show)
  /\ badgeHidden (run evs s) = badgeHidden s.
Proof.
  intros F. split.
  - now rewrite run_badge.
  - now apply run_badge.
Qed.

Lemma badge_changes_only_through_watermark_witness :
  Forall (fun ev => forall b, ev <> Watermark b)
         [Fire 0 slowDebugger; ConsoleCoercion; DetachHost]
  /\ badgeHidden
       (run [Fire 0 slowDebugger; ConsoleCoercion; DetachHost]
            (watermark (Some false) shielded)) = true.
Proof.
  assert (F : Forall (fun ev => forall b, ev <> Watermark b)
                [Fire 0 slowDebugger; ConsoleCoercion; DetachHost])
    by (repeat constructor; discriminate).
  split; [exact F |].
  exact (proj1 (badge_changes_only_through_watermark
                  shielded (Some false) _ F)).
Defined.

(** X8.  [isOpen()] never disagrees with what subscribers were told: in
    every reachable state the most recent [youdai:devtools-change] event
    carries exactly the stored belief and reason. *)
Theorem isOpen_agrees_with_last_change_event (s : State) :
  reachable s ->
  lastChange (trace s) = Some (DChange (isOpen s) (reason s)).
Proof.
  intros R. now destruct (reachable_wf s R) as [(_ & _ & _ & _ & _ & _ & L) _].
Qed.

Lemma isOpen_agrees_with_last_change_event_witness :
  reachable (step (Fire 0 slowDebugger) shielded)
  /\ lastChange (trace (step (Fire 0 slowDebugger) shielded))
     = Some (DChange true "debugger-timing(210ms)").
Proof.
  assert (R : reachable (step (Fire 0 slowDebugger) shielded))
    by apply reach_step, reachable_shielded.
  split; [exact R |].
  exact (isOpen_agrees_with_last_change_event _ R).
Defined.

End ShieldExtras.

(** * Further properties of the aggressive variant *)

Module EnhancedExtras.
Import Browser Enhanced Coherence Reactions EnhancedFacts EnhancedClaims
       Scenario.

Lemma Settled_view s s' :
  settledView s' = settledView s ->
  (In (100, TShowOverlay) (timeouts s) -> In (100, TShowOverlay) (timeouts s')) ->
  Settled s -> Settled s'.
Proof.
  unfold settledView, Settled. intros V T.
  injection V as E1 E2 E3 E4 E5 E6 E7 E8 E9 E10 E11 E12.
  rewrite E1, E2, E4, E5, E6, E7, E8, E3, E9, E10, E11, E12.
  intuition auto.
Qed.

Lemma Full_view s s' :
  Good s s' -> settledView s' = settledView s ->
  (In (100, TShowOverlay) (timeouts s) -> In (100, TShowOverlay) (timeouts s')) ->
  Full s -> Full s'.
Proof.
  intros [(C & _) _] V T [Co Se]. split; [auto |].
  now apply (Settled_view s).
Qed.

Lemma ticking_setInterval r d r' s :
  ticking r (setInterval d r' s) = ticking r s || Repeating_eqb r' r.
Proof.
  unfold ticking, setInterval. cbn. rewrite existsb_app. cbn.
  now rewrite orb_false_r.
Qed.

Lemma ticking_clearInterval r r' s :
  ticking r (clearInterval r' s)
  = ticking r s && negb (Repeating_eqb r r').
Proof.
  unfold ticking, clearInterval. cbn.
  induction (intervals s) as [|[d x] l IH]; cbn; [reflexivity |].
  destruct (Repeating_eqb x r') eqn:E; cbn; rewrite IH;
    destruct x, r, r'; cbn in *; try discriminate;
    destruct (existsb _ l); reflexivity.
Qed.

Lemma setTimeout_full d t s :
  (t = TCheckClosed -> d = 1000) -> Full s -> Full (setTimeout d t s).
Proof.
  intros H. apply Full_view; [now apply setTimeout_good | reflexivity |].
  cbn. intros I. apply in_or_app. now left.
Qed.

Lemma showOverlay_full s : Full s -> Full (showEnhancedProtectionOverlay s).
Proof.
  intros [C S]. split; [now apply (proj1 (proj1 (showOverlay_good s))) |].
  unfold showEnhancedProtectionOverlay.
  destruct (overlay s) eqn:O; [exact S |].
  destruct S as (S1 & S2 & S3 & S4 & S5 & S6 & S7 & S8 & S9).
  unfold Settled. cbn. repeat split; auto. lia.
Qed.

Lemma handle_full s : Full s -> Full (handleDevToolsDetected s).
Proof.
  intros [C S]. split; [now apply (proj1 (proj1 (handle_good s))) |].
  unfold handleDevToolsDetected.
  destruct (isDevToolsOpen s) eqn:O; [exact S |].
  destruct C as (P & _).
  destruct S as (S1 & S2 & S3 & S4 & S5 & S6 & S7 & S8 & S9).
  rewrite O in P. rewrite P in S1, S2, S3. rewrite S3 in S4.
  unfold showEnhancedProtectionOverlay, activateProtection,
    blockNetworkRequests, startConsoleFlood, applyVisualLock.
  cbn. rewrite P. cbn. rewrite S3. cbn.
  unfold Settled. destruct (overlay s) eqn:V; cbn;
    unfold ticking, hooked in *; rewrite !existsb_app, S8; cbn;
    rewrite ?orb_true_r; repeat split; auto; lia.
Qed.


Lemma removeOverlay_full s : Full s -> Full (removeOverlay s).
Proof.
  intros [C S]. split; [now apply (proj1 (proj1 (removeOverlay_good s))) |].
  unfold removeOverlay. destruct (overlay s) eqn:V; [| exact S].
  destruct S as (S1 & S2 & S3 & S4 & S5 & S6 & S7 & S8 & S9).
  unfold Settled. cbn. repeat split; auto; try discriminate.
  intros _. right. apply in_or_app. right.
  specialize (S6 V).
  destruct (overlayObservers s); [lia | now left].
Qed.

Lemma deactivate_fields s :
  Coherent s ->
  settledView (deactivateProtection s)
  = (false, false, webSocketBlocked s, false, false, false,
     (if consoleFloodInterval s then false else ticking RFlood s),
     eventSourceBlocked s, false, overlayObservers s, ticking RDetect s,
     hooked HKeyDown s && hooked HContextMenu s && hooked HMouseDown s).
Proof.
  intros (_ & F & X & _).
  assert (T : forall r,
             ticking r (deactivateProtection s)
             = if consoleFloodInterval s
               then ticking r s && negb (Repeating_eqb r RFlood)
               else ticking r s).
  { intros r. rewrite <- ticking_clearInterval.
    unfold deactivateProtection, removeOverlay, stopConsoleFlood,
      clearVisualLock, restoreNetworkRequests.
    cbn. rewrite F. cbn. rewrite X. cbn.
    destruct (consoleFloodInterval s); cbn; destruct (overlay s); reflexivity. }
  unfold settledView. rewrite !T.
  unfold deactivateProtection, removeOverlay, stopConsoleFlood,
    clearVisualLock, restoreNetworkRequests, hooked.
  cbn. rewrite F. cbn. rewrite X. cbn.
  destruct (consoleFloodInterval s) eqn:CF; cbn;
    destruct (overlay s) eqn:V; cbn;
    rewrite ?V, ?CF, ?andb_true_r, ?andb_false_r; reflexivity.
Qed.

Lemma deactivate_full s : Full s -> Full (deactivateProtection s).
Proof.
  intros [C S]. split; [now apply (proj1 (deactivate_evolves s)) |].
  pose proof (deactivate_fields s C) as V.
  destruct S as (S1 & S2 & S3 & S4 & S5 & S6 & S7 & S8 & S9).
  unfold settledView in V.
  injection V as E1 E2 E3 E4 E5 E6 E7 E8 E9 E10 E11 E12.
  unfold Settled. rewrite E1, E2, E3, E4, E5, E6, E7, E8, E9, E11, E12.
  repeat split; auto; try discriminate.
  destruct (consoleFloodInterval s) eqn:CF; [reflexivity | exact S4].
Qed.


Lemma guarded_handle_full (b : bool) s :
  Full s -> Full (if b then handleDevToolsDetected s else s).
Proof. destruct b; [apply handle_full | auto]. Qed.

Lemma consoleLog_full o s : Full s -> Full (fst (consoleLog o s)).
Proof.
  unfold consoleLog.
  destruct (consoleWrapped s && protectionActive s); cbn;
    [apply handle_full | auto].
Qed.

Lemma detectMultiple_full e s :
  Full s -> Full (detectDevToolsMultipleMethods e s).
Proof.
  intros F. unfold detectDevToolsMultipleMethods. rewrite consoleMethod_fst.
  apply guarded_handle_full. now apply consoleLog_full.
Qed.

Lemma coercionProbes_full n : forall i e s d,
  Full s -> Full (fst (coercionProbes n i e s d)).
Proof.
  induction n as [|n IH]; intros i e s d F; cbn; [exact F |].
  pose proof (consoleLog_full (logged e i) s F) as G.
  destruct (consoleLog (logged e i) s) as [s1 o]. cbn in G.
  destruct o; auto.
Qed.

Lemma consoleImproved_full e s : Full s -> Full (detectByConsoleImproved e s).
Proof.
  intros F. unfold detectByConsoleImproved.
  pose proof (coercionProbes_full 3 0 e s false F) as G.
  destruct (coercionProbes 3 0 e s false) as [s1 [d|]]; cbn in G;
    now apply guarded_handle_full.
Qed.

Lemma windowSize_full e s : Full s -> Full (detectByWindowSize e s).
Proof.
  intros F. unfold detectByWindowSize, checkIfReallyClosed.
  destruct (suspiciousSize e && negb (isDevToolsOpen s)).
  - apply setTimeout_full; [discriminate | exact F].
  - destruct (isDevToolsOpen s && looksClosed e); [| exact F].
    now apply setTimeout_full.
Qed.

Lemma set_detectors_full n s : Full s -> Full (set_detectors n s).
Proof. apply Full_view; [now apply Good_same | reflexivity | auto]. Qed.

Lemma elementManipulation_full s : Full s -> Full (detectByElementManipulation s).
Proof.
  intros F. unfold detectByElementManipulation.
  apply setTimeout_full; [discriminate |]. now apply set_detectors_full.
Qed.

Lemma elementCheck_full e s : Full s -> Full (elementCheck e s).
Proof.
  intros F. unfold elementCheck. cbv zeta. apply set_detectors_full.
  destruct (computedPosition e) as [v|]; [| now apply handle_full].
  destruct (String.eqb v "absolute"); [exact F | now apply handle_full].
Qed.

Lemma byMultiple_full e s : Full s -> Full (detectByMultipleMethods e s).
Proof.
  intros F. unfold detectByMultipleMethods.
  now apply elementManipulation_full, windowSize_full, consoleImproved_full.
Qed.

Lemma confirmClosed_full e s : Full s -> Full (confirmClosed e s).
Proof.
  intros F. unfold confirmClosed.
  pose proof (consoleLog_full (logged e 0) s F) as G.
  destruct (2 <=? closedCount e s)%nat; [now apply deactivate_full | exact G].
Qed.

Lemma blockKeyEvent_full k s : Full s -> Full (blockKeyEvent k s).
Proof. apply guarded_handle_full. Qed.

Lemma blockMouseDown_full m s : Full s -> Full (blockMouseDown m s).
Proof.
  intros F. unfold blockMouseDown.
  destruct ((button m =? 2) || (button m =? 1))%Z; [now apply handle_full |].
  destruct ((mouseCtrl m || mouseMeta m) && (button m =? 0)%Z); [| exact F].
  now apply guarded_handle_full.
Qed.

Lemma setup_full s : Full s -> Full (setupAdvancedProtection s).
Proof.
  intros [C S]. split; [now apply (proj1 (proj1 (setup_good s))) |].
  apply (Settled_view s); [| auto | exact S].
  unfold settledView, setupAdvancedProtection, blockBypassMethods.
  cbv zeta. rewrite !ticking_setInterval. cbn.
  now rewrite !orb_false_r.
Qed.

Lemma globalsMonitor_full e s : Full s -> Full (globalsMonitor e s).
Proof.
  unfold globalsMonitor. generalize suspiciousProps as props.
  intros props. revert s.
  induction props as [|p props IH]; intros s F; cbn; [exact F |].
  now apply IH, guarded_handle_full.
Qed.

Lemma floodTick_full s : Full s -> Full (floodTick s).
Proof.
  intros F. unfold floodTick, wrappedConsole.
  destruct (protectionActive s) eqn:P; cbn.
  - destruct (consoleWrapped s); [now apply handle_full | exact F].
  - unfold stopConsoleFlood.
    destruct F as [C S]. pose proof S as (_ & _ & S3 & _).
    rewrite S3, P. now split.
Qed.

Lemma In_drop {A} (x y : A) l i :
  nth_error l i = Some y -> x <> y -> In x l ->
  In x (firstn i l ++ skipn (S i) l).
Proof.
  revert i. induction l as [|a l IH]; intros i N D I; [contradiction |].
  destruct i; cbn in *.
  - injection N as ->. destruct I; [congruence | assumption].
  - destruct I as [-> | I]; [now left | right; now apply IH].
Qed.

Lemma fire_full i e s d t :
  nth_error (timeouts s) i = Some (d, t) ->
  Full s -> Full (runTask t e (dropTimeout i s)).
Proof.
  intros N F.
  destruct t; cbn [runTask].
  1-3, 5-6:
    assert (F1 : Full (dropTimeout i s))
      by (revert F; apply Full_view;
          [apply dropTimeout_good | reflexivity
          | cbn; apply (In_drop _ _ _ _ N); discriminate]).
  - now apply consoleImproved_full.
  - now apply confirmClosed_full.
  - now apply elementCheck_full.
  - now apply detectMultiple_full.
  - now apply windowSize_full.
  - destruct F as [C S]. split.
    + apply (proj1 (proj1 (showOverlay_good _))).
      now apply (proj1 (proj1 (dropTimeout_good i s))).
    + destruct S as (S1 & S2 & S3 & S4 & S5 & S6 & S7 & S8 & S9).
      unfold showEnhancedProtectionOverlay. cbn.
      destruct (overlay s) eqn:V; unfold Settled; cbn;
        rewrite ?V; repeat split; auto; lia.
Qed.

Lemma Hook_eqb_eq a b : Hook_eqb a b = true -> a = b.
Proof. destruct a, b; cbn; congruence. Qed.

Lemma hooked_removeHook h h' s :
  Hook_eqb h h' = false -> hooked h (removeHook h' s) = hooked h s.
Proof.
  intros N. unfold hooked, removeHook. cbn.
  induction (hooks s) as [|a l IH]; [reflexivity |]. cbn.
  destruct (Hook_eqb a h') eqn:E; cbn; rewrite IH; [| reflexivity].
  apply Hook_eqb_eq in E. subst a. now rewrite N.
Qed.

Lemma step_full ev s : Full s -> Full (step ev s).
Proof.
  intros F. destruct ev; cbn [step].
  - destruct (ticking r s); [| exact F].
    destruct r; cbn [runRepeating];
      [now apply byMultiple_full | now apply globalsMonitor_full
      | now apply floodTick_full].
  - destruct (nth_error (timeouts s) i) as [[d t]|] eqn:N; [| exact F].
    now apply (fire_full i e s d t).
  - destruct (hooked HKeyDown s); [now apply blockKeyEvent_full | exact F].
  - destruct (hooked HContextMenu s); [now apply handle_full | exact F].
  - destruct (hooked HMouseDown s); [now apply blockMouseDown_full | exact F].
  - destruct (hooked HResize s); [| exact F].
    apply setTimeout_full; [discriminate | exact F].
  - destruct (hooked HBlur s); [| exact F].
    apply setTimeout_full; [discriminate | exact F].
  - destruct (hooked HFocus s); [| exact F].
    apply setTimeout_full; [discriminate | exact F].
  - destruct (hooked HVisibility s && negb hidden); [| exact F].
    apply setTimeout_full; [discriminate | exact F].
  - destruct (hooked HContentLoaded s); [| exact F].
    apply setup_full. revert F.
    apply Full_view; [now apply Good_same | | auto].
    unfold settledView. now rewrite !hooked_removeHook.
  - destruct (domObserver s); [| exact F].
    now apply guarded_handle_full.
  - now apply removeOverlay_full.
  - destruct (consoleWrapped s); [| exact F].
    now apply guarded_handle_full.
  - now apply handle_full.
Qed.


Lemma load_settled e : Settled (load e pristine).
Proof.
  unfold load, construct, initImmediateDetection,
    detectDevToolsMultipleMethods. cbv zeta.
  rewrite consoleMethod_fst.
  match goal with
  | |- context [(2 <=? detectionCount e ?x)%nat] =>
      destruct (2 <=? detectionCount e x)%nat
  end; destruct (readyLoading e); unfold Settled; vm_compute;
    repeat split; auto; try discriminate.
Qed.

Lemma reachable_full s : reachable s -> Full s.
Proof.
  induction 1 as [e | ev s R F].
  - split; [apply load_coherent | apply load_settled].
  - now apply step_full.
Qed.


Lemma run_reachable evs : forall s, reachable s -> reachable (run evs s).
Proof.
  induction evs as [|ev evs IH]; intros s R; [exact R |].
  change (run (ev :: evs) s) with (run evs (step ev s)).
  now apply IH, reach_step.
Qed.

(** X9.  The status snapshot is truthful about [fetch]: in every reachable
    state [active], [devToolsOpen] and [networkBlocked] agree; when
    [networkBlocked] is true a [fetch] is rejected, and when it is false
    the request reaches the browser's [fetch] with the caller's
    arguments. *)
Theorem status_snapshot_is_truthful
    (now : string) (s : State) (args : list Value) :
  reachable s ->
  active (getProtectionStatus now s) = devToolsOpen (getProtectionStatus now s)
  /\ networkBlocked (getProtectionStatus now s)
     = devToolsOpen (getProtectionStatus now s)
  /\ (networkBlocked (getProtectionStatus now s) = true ->
      snd (fetch args s) = RejectedPromise blockedMessage)
  /\ (networkBlocked (getProtectionStatus now s) = false ->
      snd (fetch args s) = Transport args).
Proof.
  intros R. destruct (reachable_coherent s R) as [(P & F & X & Wo & Wc) _].
  cbn. split; [exact P |]. split; [reflexivity |]. split.
  - intros O. destruct (Wo O) as (WF & _). unfold fetch. now rewrite WF.
  - intros O. destruct (Wc O) as (WF & _). unfold fetch, callFetch.
    destruct (windowFetch s); [reflexivity | | congruence].
    rewrite O. cbn. now rewrite F.
Qed.

Lemma status_snapshot_is_truthful_witness :
  reachable confirming /\ reachable closedAgain
  /\ snd (fetch [VString "/videos.json"] confirming)
     = RejectedPromise blockedMessage
  /\ snd (fetch [VString "/videos.json"] closedAgain)
     = Transport [VString "/videos.json"].
Proof.
  destruct reachable_scenario as (_ & _ & R2 & R3).
  split; [exact R2 |]. split; [exact R3 |].
  split.
  - apply (status_snapshot_is_truthful "" confirming _ R2). reflexivity.
  - apply (status_snapshot_is_truthful "" closedAgain _ R3). reflexivity.
Defined.

(** X10.  The visual reactions and the console flood track belief: in
    every reachable state the protection classes are on the body, the
    visual lock is applied, and the 50 ms flood interval is registered
    exactly when belief is Open. *)
Theorem reactions_track_belief (s : State) :
  reachable s ->
  protectionClasses s = isDevToolsOpen s
  /\ visualLock s = isDevToolsOpen s
  /\ consoleFloodInterval s = isDevToolsOpen s
  /\ ticking RFlood s = isDevToolsOpen s.
Proof.
  intros R. destruct (reachable_full s R) as [(P & _) (S1 & S2 & S3 & S4 & _)].
  rewrite <- P. repeat split; congruence.
Qed.

Lemma reactions_track_belief_witness :
  reachable confirming /\ reachable closedAgain
  /\ visualLock confirming = true /\ ticking RFlood confirming = true
  /\ visualLock closedAgain = false /\ ticking RFlood closedAgain = false.
Proof.
  destruct reachable_scenario as (_ & _ & R2 & R3).
  destruct (reactions_track_belief confirming R2) as (_ & A & _ & B).
  destruct (reactions_track_belief closedAgain R3) as (_ & C & _ & D).
  split; [exact R2 |]. split; [exact R3 |].
  split; [exact A |]. split; [exact B |]. split; [exact C | exact D].
Defined.



(** X12.  WebSocket and EventSource are never given back: once belief has
    been Open, both constructors stay replaced by throwing functions in
    every later state, Closed ones included. *)
Theorem sockets_stay_blocked (s : State) (evs : list Event) :
  reachable s -> isDevToolsOpen s = true ->
  webSocketBlocked (run evs s) = true
  /\ eventSourceBlocked (run evs s) = true.
Proof.
  intros R O.
  destruct (reachable_coherent s R) as [(_ & _ & _ & Wo & _) _].
  destruct (Wo O) as (_ & _ & W).
  destruct (run_evolves evs s) as (_ & M & _).
  destruct (reachable_full _ (run_reachable evs s R))
    as [_ (_ & _ & _ & _ & S5 & _)].
  rewrite S5. auto.
Qed.

Lemma sockets_stay_blocked_witness :
  reachable confirming /\ isDevToolsOpen confirming = true
  /\ isDevToolsOpen (run [Timeout 1 quiet] confirming) = false
  /\ webSocketBlocked (run [Timeout 1 quiet] confirming) = true
  /\ eventSourceBlocked (run [Timeout 1 quiet] confirming) = true.
Proof.
  destruct reachable_scenario as (_ & _ & R2 & _).
  assert (O : isDevToolsOpen confirming = true) by reflexivity.
  split; [exact R2 |]. split; [exact O |]. split; [reflexivity |].
  exact (sockets_stay_blocked confirming [Timeout 1 quiet] R2 O).
Defined.

(** X13.  The engine is never torn down: in every reachable state the
    200 ms detection interval and the key, context-menu and mouse
    listeners are installed, so a tick always runs the detection and a
    key press is always examined. *)
Theorem detection_is_never_torn_down (s : State) (e : Env) (k : KeyEv) :
  reachable s ->
  step (Tick RDetect e) s = detectByMultipleMethods e s
  /\ step (KeyDown k) s = blockKeyEvent k s
  /\ step ContextMenu s = handleDevToolsDetected s
  /\ forall m, step (MouseDown m) s = blockMouseDown m s.
Proof.
  intros R.
  destruct (reachable_full s R) as [_ (_ & _ & _ & _ & _ & _ & _ & S8 & S9)].
  apply andb_prop in S9. destruct S9 as [S9 HM].
  apply andb_prop in S9. destruct S9 as [HK HC].
  cbn [step]. rewrite S8, HK, HC, HM. auto.
Qed.

Lemma detection_is_never_torn_down_witness :
  reachable closedAgain
  /\ step (Tick RDetect consoleOnly) closedAgain
     = detectByMultipleMethods consoleOnly closedAgain
  /\ step (KeyDown f12) closedAgain = blockKeyEvent f12 closedAgain.
Proof.
  destruct reachable_scenario as (_ & _ & _ & R3).
  destruct (detection_is_never_torn_down closedAgain consoleOnly f12 R3)
    as (A & B & _).
  split; [exact R3 |]. split; [exact A | exact B].
Defined.

End EnhancedExtras.

Module InputExtras.
Import Browser Enhanced Coherence Reactions EnhancedFacts EnhancedClaims
       Scenario.

(** X14.  Typing is left alone: a key pressed without Ctrl and without
    Meta is blocked only if it is F12 (in any letter case); any other such
    key leaves the state as it is. *)
Theorem plain_keys_are_blocked_only_for_F12 (k : KeyEv) (s : State) :
  ctrlKey k = false -> metaKey k = false ->
  (blockedKey k = true <-> toLowerCase (key k) = "f12")
  /\ (toLowerCase (key k) <> "f12" -> blockKeyEvent k s = s).
Proof.
  intros C M.
  assert (B : blockedKey k = String.eqb (toLowerCase (key k)) "f12").
  { unfold blockedKey. rewrite C, M. cbn.
    now destruct (String.eqb (toLowerCase (key k)) "f12"). }
  split.
  - rewrite B. apply String.eqb_eq.
  - intros N. unfold blockKeyEvent. rewrite B.
    apply String.eqb_neq in N. now rewrite N.
Qed.

Lemma plain_keys_are_blocked_only_for_F12_witness :
  blockedKey (mkKey "f12" false true false false) = true
  /\ blockKeyEvent (mkKey "J" false true true false) loaded = loaded.
Proof.
  destruct (plain_keys_are_blocked_only_for_F12
              (mkKey "f12" false true false false) loaded eq_refl eq_refl)
    as (A & _).
  destruct (plain_keys_are_blocked_only_for_F12
              (mkKey "J" false true true false) loaded eq_refl eq_refl)
    as (_ & B).
  split; [apply A; reflexivity | apply B; discriminate].
Defined.

(** X15.  Ordinary clicks are left alone: a mouse press that is neither
    the middle nor the right button, and that is not a Ctrl- or Meta-click
    on a non-interactive element, leaves the state as it is. *)
Theorem ordinary_clicks_are_left_alone (m : MouseEv) (s : State) :
  button m <> 1%Z -> button m <> 2%Z ->
  (button m = 0%Z -> mouseCtrl m || mouseMeta m = true ->
   isInteractive (target m) = true) ->
  blockMouseDown m s = s.
Proof.
  intros B1 B2 I. unfold blockMouseDown.
  apply Z.eqb_neq in B1, B2. rewrite B1, B2. cbn.
  destruct (mouseCtrl m || mouseMeta m) eqn:C; [| reflexivity].
  destruct (button m =? 0)%Z eqn:B0; [| reflexivity]. cbn.
  apply Z.eqb_eq in B0. now rewrite (I B0 eq_refl).
Qed.

Lemma ordinary_clicks_are_left_alone_witness :
  blockMouseDown
    (mkMouse 0 true false
       (mkTarget "DIV" false false false false false false true false))
    loaded = loaded.
Proof.
  apply ordinary_clicks_are_left_alone; try discriminate. reflexivity.
Defined.




Lemma coercionProbes_open n : forall i e s d,
  isDevToolsOpen s = true -> fst (coercionProbes n i e s d) = s.
Proof.
  induction n as [|n IH]; intros i e s d O; cbn; [reflexivity |].
  assert (L : fst (consoleLog (logged e i) s) = s).
  { unfold consoleLog, handleDevToolsDetected. rewrite O.
    now destruct (consoleWrapped s && protectionActive s). }
  destruct (consoleLog (logged e i) s) as [s1 o]. cbn in L. subst s1.
  destruct o; auto.
Qed.

Lemma consoleImproved_open e s :
  isDevToolsOpen s = true -> detectByConsoleImproved e s = s.
Proof.
  intros O. unfold detectByConsoleImproved.
  pose proof (coercionProbes_open 3 0 e s false O) as L.
  destruct (coercionProbes 3 0 e s false) as [s1 [d|]]; cbn in L; subst s1;
    rewrite O; cbn; now rewrite ?andb_false_r.
Qed.

(** X17.  The aggressive tick is not debounced: every tick that finds
    belief Open and the window looking closed registers one more
    confirmation pass (and one element check), whatever is already
    pending, and changes nothing else about belief. *)
Theorem confirmation_passes_pile_up (e : Env) (s : State) :
  isDevToolsOpen s = true -> looksClosed e = true ->
  timeouts (detectByMultipleMethods e s)
  = timeouts s ++ [(1000, TCheckClosed); (100, TElementCheck)]
  /\ isDevToolsOpen (detectByMultipleMethods e s) = true.
Proof.
  intros O L. unfold detectByMultipleMethods.
  rewrite (consoleImproved_open e s O).
  unfold detectByWindowSize. rewrite O, L, andb_false_r. cbn.
  now rewrite <- app_assoc.
Qed.

Lemma confirmation_passes_pile_up_witness :
  timeouts (detectByMultipleMethods quiet confirming)
  = timeouts confirming ++ [(1000, TCheckClosed); (100, TElementCheck)].
Proof.
  exact (proj1 (confirmation_passes_pile_up quiet confirming
                  eq_refl eq_refl)).
Defined.

End InputExtras.

(** * Properties of the loader's global replacements *)

Module LoaderExtras.
Import Browser Loader.

Lemma prefix_app sub b : String.prefix sub (sub ++ b)%string = true.
Proof.
  induction sub as [|c sub IH]; cbn; [now destruct b |].
  destruct (ascii_dec c c); [exact IH | congruence].
Qed.

Lemma str_includes_prefix s sub :
  String.prefix sub s = true -> str_includes s sub = true.
Proof. destruct s; cbn [str_includes]; now intros ->. Qed.

Lemma str_includes_app a sub b :
  str_includes (a ++ sub ++ b)%string sub = true.
Proof.
  induction a as [|c a IH].
  - change ("" ++ sub ++ b)%string with (sub ++ b)%string.
    apply str_includes_prefix, prefix_app.
  - cbn [String.append str_includes]. rewrite IH. apply orb_true_r.
Qed.

Lemma append_nonempty a c r b :
  String.eqb (a ++ String c r ++ b)%string "" = false.
Proof. destruct a; reflexivity. Qed.

(** X18.  The [window.open] wrapper matches by substring: any URL that
    mentions "devtools" anywhere is answered with [null], and so is every
    value the guarded iframe setter would refuse; a call without a URL, or
    with an empty one, goes to the browser's [open] with its arguments
    unchanged. *)
Theorem window_open_matches_by_substring
    (a b v : string) (args : list Enhanced.Value) :
  window_open (Some (a ++ "devtools" ++ b)%string) args = OpenedNull
  /\ (frame_src_set v = None -> window_open (Some v) args = OpenedNull)
  /\ window_open None args = OriginalWindowOpen None args
  /\ window_open (Some "") args = OriginalWindowOpen (Some "") args.
Proof.
  split.
  - unfold window_open, devtoolsUrl.
    rewrite (append_nonempty a "d" "evtools" b).
    rewrite (str_includes_app a "devtools" b).
    now rewrite !orb_true_r.
  - split; [| split; reflexivity].
    unfold frame_src_set, window_open, devtoolsFrame, devtoolsUrl.
    destruct (negb (String.eqb v "")); cbn; [| discriminate].
    destruct (str_includes v "chrome://"); cbn; [reflexivity |].
    destruct (str_includes v "devtools"); cbn; [| discriminate].
    now rewrite orb_true_r.
Qed.

Lemma window_open_matches_by_substring_witness :
  frame_src_set "chrome://inspect" = None
  /\ window_open (Some "chrome://inspect") [] = OpenedNull
  /\ window_open (Some "https://example.org/docs/devtools-guide") []
     = OpenedNull.
Proof.
  destruct (window_open_matches_by_substring
              "https://example.org/docs/" "-guide" "chrome://inspect" [])
    as (A & B & _).
  split; [reflexivity |]. split; [apply B; reflexivity | exact A].
Defined.

(** X19.  The script-injection observer tests the origin by substring: a
    script whose [src] contains the page's origin anywhere is kept, even
    when it is served from elsewhere and only carries the origin in its
    path or query; scripts without [src] and nodes that are not scripts
    are kept too. *)
Theorem script_filter_matches_origin_by_substring
    (origin a b src : string) (tag : option string) :
  scriptRemoved origin (mkAdded (Some "SCRIPT") (a ++ origin ++ b)%string)
  = false
  /\ scriptRemoved origin (mkAdded tag "") = false
  /\ (tag <> Some "SCRIPT" -> scriptRemoved origin (mkAdded tag src) = false)
  /\ (str_includes src origin = false -> src <> "" ->
      scriptRemoved origin (mkAdded (Some "SCRIPT") src) = true).
Proof.
  unfold scriptRemoved. cbn. split.
  - rewrite str_includes_app. now rewrite andb_false_r.
  - split.
    + destruct tag as [t|]; [| reflexivity].
      now rewrite andb_false_r.
    + split.
      * intros N. destruct tag as [t|]; [| reflexivity].
        destruct (String.eqb t "SCRIPT") eqn:E; [| reflexivity].
        apply String.eqb_eq in E. congruence.
      * intros I N. rewrite I. apply String.eqb_neq in N. now rewrite N.
Qed.

Lemma script_filter_matches_origin_by_substring_witness :
  scriptRemoved "https://youdai.example"
    (mkAdded (Some "SCRIPT")
       "https://evil.example/x.js?from=https://youdai.example") = false
  /\ scriptRemoved "https://youdai.example"
       (mkAdded (Some "SCRIPT") "https://evil.example/x.js") = true.
Proof.
  destruct (script_filter_matches_origin_by_substring
              "https://youdai.example" "https://evil.example/x.js?from=" ""
              "https://evil.example/x.js" None) as (A & _ & _ & B).
  split; [exact A |]. apply B; [reflexivity | discriminate].
Defined.

End LoaderExtras.

(** * Properties of the service worker *)

Module WorkerExtras.
Import Browser Worker.










Lemma update_cache_other name f st n c :
  n <> name -> (In (n, c) (update_cache name f st) <-> In (n, c) st).
Proof.
  intros N. unfold update_cache. rewrite in_map_iff. split.
  - intros ([n' c'] & E & I). cbn in E.
    destruct (String.eqb n' name) eqn:Q.
    + apply String.eqb_eq in Q. injection E as E _. congruence.
    + now rewrite <- E.
  - intros I. exists (n, c). cbn. apply String.eqb_neq in N.
    now rewrite N.
Qed.

Lemma open_cache_other name st n c :
  n <> name -> (In (n, c) (open_cache name st) <-> In (n, c) st).
Proof.
  intros N. unfold open_cache. destruct (has_cache name st); [tauto |].
  rewrite in_app_iff. cbn. split; [| tauto].
  intros [I | [E | []]]; [exact I |]. injection E as E _. congruence.
Qed.

Lemma store_other name key r st n c :
  n <> name -> (In (n, c) (store name key r st) <-> In (n, c) st).
Proof.
  intros N. unfold store.
  now rewrite update_cache_other, open_cache_other.
Qed.


Lemma storage_match_from st k r :
  storage_match st k = Some r ->
  exists n c, In (n, c) st /\ cache_match c k = Some r.
Proof.
  induction st as [|[n c] st IH]; cbn; [discriminate |].
  destruct (cache_match c k) as [x|] eqn:E.
  - intros H. injection H as ->. exists n, c. auto.
  - intros H. destruct (IH H) as (n' & c' & I & M). exists n', c'. auto.
Qed.

Lemma activate_In st n c :
  In (n, c) (activate st)
  <-> In (n, c) st /\ (n = STATIC_CACHE \/ n = DYNAMIC_CACHE).
Proof.
  unfold activate. rewrite filter_In. cbn [fst].
  rewrite negb_true_iff, andb_false_iff, !negb_false_iff, !String.eqb_eq.
  tauto.
Qed.

(** X20.  Activation drops the old generations: afterwards Cache Storage
    holds exactly the caches of the current generation that were there
    before, with their contents; nothing can be served from an older
    cache any more; activating twice changes nothing. *)
Theorem activation_keeps_only_the_current_generation
    (st : CacheStorage) (n key : string) (c : Cache) (r : Response) :
  (In (n, c) (activate st)
   <-> In (n, c) st /\ (n = STATIC_CACHE \/ n = DYNAMIC_CACHE))
  /\ activate (activate st) = activate st
  /\ (storage_match (activate st) key = Some r ->
      exists n' c',
        In (n', c') st /\ (n' = STATIC_CACHE \/ n' = DYNAMIC_CACHE)
        /\ cache_match c' key = Some r).
Proof.
  split; [apply activate_In |]. split.
  - unfold activate. induction st as [|[m x] st IH]; [reflexivity |].
    cbn [filter fst].
    destruct (negb (negb (String.eqb m STATIC_CACHE)
                    && negb (String.eqb m DYNAMIC_CACHE))) eqn:E;
      [| exact IH].
    cbn [filter fst]. rewrite E. now f_equal.
  - intros H. apply storage_match_from in H.
    destruct H as (n' & c' & I & M). apply activate_In in I.
    exists n', c'. tauto.
Qed.













(** X25.  Handling a fetch writes to the dynamic cache only: every other
    cache is there afterwards exactly as it was before, and a request
    that is not a GET is not intercepted at all. *)
Theorem fetch_handling_writes_only_the_dynamic_cache
    (location : string) (net : Network) (req : Request) (st : CacheStorage)
    (n : string) (c : Cache) :
  n <> DYNAMIC_CACHE ->
  (In (n, c) (fst (onFetch location net req st)) <-> In (n, c) st)
  /\ (method req <> "GET" ->
      onFetch location net req st = (st, NotIntercepted)).
Proof.
  intros N. split.
  - unfold onFetch.
    destruct (negb (String.eqb (method req) "GET")); [tauto |].
    destruct (String.eqb (mode req) "navigate").
    { destruct (storage_match st (resolve location "/")); [tauto |].
      destruct (net (url req)); tauto. }
    destruct (endsWith (pathname req) ".json").
    { destruct (net (url req)); cbn [fst]; [now apply store_other |].
      destruct (storage_match st (url req)); tauto. }
    destruct (String.eqb (destination req) "image").
    { destruct (storage_match st (url req)); [tauto |].
      destruct (net (url req)) as [r|]; cbn [fst]; [| tauto].
      destruct (status r =? 200)%Z; [now apply store_other | tauto]. }
    destruct (storage_match st (url req)); [tauto |].
    destruct (net (url req)) as [r|]; cbn [fst]; [| tauto].
    destruct ((status r =? 200)%Z
              && (String.eqb (origin req) location
                  || String.eqb (origin req) "https://cdnjs.cloudflare.com"));
      [now apply store_other | tauto].
  - intros G. unfold onFetch. apply String.eqb_neq in G. now rewrite G.
Qed.

Lemma fetch_handling_writes_only_the_dynamic_cache_witness :
  In (STATIC_CACHE, [])
     (fst (onFetch "https://youdai.example" siteNet
             (jsonRequest "https://youdai.example" "/feed.json")
             [(STATIC_CACHE, [])])).
Proof.
  apply (fetch_handling_writes_only_the_dynamic_cache
           "https://youdai.example" siteNet
           (jsonRequest "https://youdai.example" "/feed.json")
           [(STATIC_CACHE, [])] STATIC_CACHE []).
  - discriminate.
  - now left.
Defined.

End WorkerExtras.
